(** * version_control_helper_mcp: the session manager and its dispatcher

    A shallow embedding of [git_utils.py] ([GitManager]), [models.py] (the
    result records) and [tools.py] (the dispatched operations), over a model
    of the GitPython objects the code drives: a directory with a working
    tree, an optional repository (object store, branch heads, HEAD, index)
    and the commands the code runs on it. *)

From Stdlib Require Import String Ascii ZArith List Lia.
From stdpp Require Import base option list gmap strings pretty.

Open Scope string_scope.
Open Scope Z_scope.

(** ** Python strings *)

Module Py.

(** [s.startswith(p)] *)
Fixpoint startswith (p s : string) : bool :=
  match p, s with
  | EmptyString, _ => true
  | String a p', String b s' => if Ascii.eqb a b then startswith p' s' else false
  | String _ _, EmptyString => false
  end.

(** [s.split(c)] for a separator of one character: never the empty list. *)
Fixpoint split (c : ascii) (s : string) : list string :=
  match s with
  | EmptyString => [EmptyString]
  | String a s' =>
      if Ascii.eqb a c then EmptyString :: split c s'
      else match split c s' with
           | l :: ls => String a l :: ls
           | [] => [String a EmptyString]
           end
  end.

(** [s[:n]] *)
Definition prefix (n : nat) (s : string) : string := String.substring 0 n s.

(** truth value of a str: the empty string is false *)
Definition truthy (s : string) : bool :=
  match s with EmptyString => false | _ => true end.

(** truth value of a list *)
Definition nonempty {A} (l : list A) : bool :=
  match l with [] => false | _ => true end.

(** [x or y] on optional strings ([None] and the empty string are false) *)
Definition or_else (x y : option string) : option string :=
  match x with
  | Some s => if truthy s then x else y
  | None => y
  end.

Definition LF : ascii := Ascii.ascii_of_nat 10.

(** the characters [str.strip()] removes, within the ASCII range *)
Definition isspace (a : ascii) : bool :=
  let n := Ascii.nat_of_ascii a in
  ((9 <=? n)%nat && (n <=? 13)%nat) || ((28 <=? n)%nat && (n <=? 32)%nat).

Fixpoint lstrip (s : string) : string :=
  match s with
  | String a s' => if isspace a then lstrip s' else s
  | EmptyString => EmptyString
  end.

Fixpoint rstrip (s : string) : string :=
  match s with
  | String a s' =>
      match rstrip s' with
      | EmptyString => if isspace a then EmptyString else String a EmptyString
      | r => String a r
      end
  | EmptyString => EmptyString
  end.

Definition strip (s : string) : string := rstrip (lstrip s).

(** [", ".join(l)] and friends *)
Fixpoint join (sep : string) (l : list string) : string :=
  match l with
  | [] => ""
  | [x] => x
  | x :: xs => x ++ sep ++ join sep xs
  end.

(** [str(n)] for a non-negative int *)
Definition str_nat (n : nat) : string := pretty n.

(** [repr] of a list of plain strings, as an f-string prints it *)
Definition repr_list (l : list string) : string :=
  "[" ++ join ", " (map (fun s => "'" ++ s ++ "'") l) ++ "]".

(** [sub in s] *)
Fixpoint contains (sub s : string) : bool :=
  startswith sub s ||
  match s with
  | EmptyString => false
  | String _ s' => contains sub s'
  end.

Definition lower_ascii (a : ascii) : ascii :=
  let n := Ascii.nat_of_ascii a in
  if ((65 <=? n)%nat && (n <=? 90)%nat) then Ascii.ascii_of_nat (n + 32) else a.

Fixpoint lower (s : string) : string :=
  match s with
  | EmptyString => EmptyString
  | String a s' => String (lower_ascii a) (lower s')
  end.

End Py.

(** ** Exceptions and the state-and-exception monad *)

Inductive exn : Type :=
| ValueError (msg : string)
| TypeError (msg : string)
| IndexError (msg : string)
| OSError (msg : string)
| NoSuchPathError (path : string)
| InvalidGitRepositoryError (path : string)
| BadName (name : string)
| GitCommandError (text : string)
| ValidationError (field : string).

(** [str(e)], as an f-string renders a caught exception *)
Definition exn_str (e : exn) : string :=
  match e with
  | ValueError m | TypeError m | IndexError m | OSError m => m
  | NoSuchPathError p | InvalidGitRepositoryError p => p
  | BadName n => "Ref '" ++ n ++ "' did not resolve to an object"
  | GitCommandError t => t
  | ValidationError f => f
  end.

Inductive result (A : Type) : Type :=
| Ok (a : A)
| Raise (e : exn).
Arguments Ok {A} a.
Arguments Raise {A} e.

(** A computation reads and writes a state [S] and returns or raises; a
    raised exception keeps the state reached so far. *)
Definition SE (S A : Type) : Type := S -> result A * S.

Definition ret {S A} (a : A) : SE S A := fun s => (Ok a, s).
Definition raise {S A} (e : exn) : SE S A := fun s => (Raise e, s).
Definition bind {S A B} (m : SE S A) (k : A -> SE S B) : SE S B :=
  fun s => match m s with
           | (Ok a, s') => k a s'
           | (Raise e, s') => (Raise e, s')
           end.
Definition try_catch {S A} (m : SE S A) (h : exn -> SE S A) : SE S A :=
  fun s => match m s with
           | (Ok a, s') => (Ok a, s')
           | (Raise e, s') => h e s'
           end.
Definition get {S} : SE S S := fun s => (Ok s, s).
Definition gets {S A} (f : S -> A) : SE S A := fun s => (Ok (f s), s).
Definition modify {S} (f : S -> S) : SE S unit := fun s => (Ok tt, f s).

Declare Scope se_scope.
Delimit Scope se_scope with se.
Notation "'let*' x ':=' m 'in' k" := (bind m (fun x => k))
  (at level 10, x name, m at level 100, k at level 200) : se_scope.
Open Scope se_scope.

(** ** Result model ([models.py]) *)

Module Models.

Record CommitInfo := mkCommitInfo {
sha : string;
short_sha : string;
message : string;
author : string;
author_email : string;
timestamp : Z
}.

Record CommitList := mkCommitList {
commits : list CommitInfo;
total_count : Z;
branch : string
}.

Record FileChange := mkFileChange {
filename : string;
status : string;
additions : Z;
deletions : Z;
patch : option string
}.

Record CommitDiff := mkCommitDiff {
from_commit : string;
to_commit : string;
files : list FileChange;
total_additions : Z;
total_deletions : Z;
summary : string
}.

Record BranchInfo := mkBranchInfo {
name : string;
is_current : bool;
last_commit_sha : string;
last_commit_message : string
}.

Record RepoStatus := mkRepoStatus {
is_initialized : bool;
current_branch : option string;
has_changes : bool;
staged_files : list string;
modified_files : list string;
untracked_files : list string
}.

End Models.

(** A field declared [str] refuses [None] when the record is built. *)
Definition require_str {S} (field : string) (o : option string) : SE S string :=
  match o with
  | Some s => ret s
  | None => raise (ValidationError field)
  end.

Fixpoint require_strs {S} (field : string) (l : list (option string)) : SE S (list string) :=
  match l with
  | [] => ret []
  | o :: l' =>
      let* s := require_str field o in
      let* ss := require_strs field l' in
      ret (s :: ss)
  end.

(** ** The repository on disk, as GitPython presents it *)

(** A snapshot of files: path to content. *)
Abbreviation Tree := (gmap string string).

Record Commit := mkCommit {
  hexsha : string;
  message : string;
  author_name : string;
  author_email : string;
  committed_date : Z;
  parents : list string;
  tree : Tree
}.

(** HEAD names a branch (which has a commit or, in a repository without
    commits, none yet) or, detached, a commit. *)
Inductive HeadRef : Type :=
| Attached (branch_name : string)
| Detached (commit_id : string).

Record GitDir := mkGitDir {
  objects : gmap string Commit;
  heads : gmap string string;
  HEAD : HeadRef;
  index : Tree
}.

(** A directory: its working files and, when it is a repository root, the
    repository. *)
Record Dir := mkDir {
  worktree : Tree;
  dotgit : option GitDir
}.

(** One entry of a diff ([git.diff.Diff]): the fields the code reads. *)
Record Diff := mkDiff {
  a_path : option string;
  b_path : option string;
  new_file : bool;
  deleted_file : bool;
  renamed : bool;
  diff : string           (* bytes *)
}.

(** The commands sent to the backend that write to the repository. *)
Inductive GitCall : Type :=
| CallInit (path : string)
| CallAddAll (path : string)
| CallIndexAdd (path : string) (items : list string)
| CallCommit (path : string) (msg : string)
| CallReset (path : string) (flag : string) (target : string)
| CallCreateHead (path : string) (branch_name : string)
| CallCheckout (path : string) (branch_name : string).

Record World := mkWorld {
  fs : gmap string Dir;
  calls : list GitCall;
  clock : Z
}.

(** What the backend and the platform decide and the code only consumes:
    path canonicalisation, revision names other than HEAD, tree diffing,
    history order, object hashing, text decoding, and configuration. *)
Class GitEngine := {
  resolve_path : string -> string;
  default_branch : string;
  user_name : string;
  user_email : string;
  lookup_name : GitDir -> string -> option string;
  diff_trees : Tree -> Tree -> list Diff;
  rev_walk : gmap string Commit -> string -> list Commit;
  hash_commit : string -> list string -> Tree -> Z -> string;
  decode_utf8_replace : string -> string;
  ref_name_ok : string -> bool;
  git_stderr : list string -> string
}.

(** The commit HEAD points to, if any. *)
Definition head_sha (g : GitDir) : option string :=
  match HEAD g with
  | Attached b => heads g !! b
  | Detached s => Some s
  end.

Section Backend.
Context `{GitEngine}.

(** A revision name to a commit id: HEAD through the head reference, any
    other name as the backend resolves it. *)
Definition rev_sha (g : GitDir) (rev : string) : option string :=
  if String.eqb rev "HEAD" then head_sha g else lookup_name g rev.

Definition rev_commit (g : GitDir) (rev : string) : option Commit :=
  sha ← rev_sha g rev; objects g !! sha.

(** [Repo]: a handle on the repository rooted at [working_dir]. *)
Record Repo := mkRepo { working_dir : string }.

Definition set_dir (p : string) (d : Dir) (w : World) : World :=
  mkWorld (<[p := d]> (fs w)) (calls w) (clock w).

Definition log_call (c : GitCall) : SE World unit :=
  modify (fun w => mkWorld (fs w) (calls w ++ [c]) (clock w)).

(** [Repo(path)]: a missing path raises NoSuchPathError, a directory that
    is not a repository root raises InvalidGitRepositoryError. *)
Definition Repo_open (p : string) : SE World Repo :=
  fun w =>
    match fs w !! p with
    | None => (Raise (NoSuchPathError p), w)
    | Some d =>
        match dotgit d with
        | None => (Raise (InvalidGitRepositoryError p), w)
        | Some _ => (Ok (mkRepo p), w)
        end
    end.

Definition empty_git : GitDir := mkGitDir ∅ ∅ (Attached default_branch) ∅.

(** [Repo.init(path)]: creates the directory when missing; an existing
    repository is kept. *)
Definition Repo_init (p : string) : SE World Repo :=
  let* _ := log_call (CallInit p) in
  fun w =>
    let d := default (mkDir ∅ None) (fs w !! p) in
    let g := default empty_git (dotgit d) in
    (Ok (mkRepo p), set_dir p (mkDir (worktree d) (Some g)) w).

(** The directory and repository behind a handle. *)
Definition repo_state (r : Repo) : SE World (Dir * GitDir) :=
  fun w =>
    match fs w !! working_dir r with
    | Some d =>
        match dotgit d with
        | Some g => (Ok (d, g), w)
        | None => (Raise (InvalidGitRepositoryError (working_dir r)), w)
        end
    | None => (Raise (NoSuchPathError (working_dir r)), w)
    end.

Definition put_repo (r : Repo) (t : Tree) (g : GitDir) : SE World unit :=
  modify (set_dir (working_dir r) (mkDir t (Some g))).

(** [repo.active_branch.name]: TypeError when HEAD is detached. *)
Definition active_branch_name (r : Repo) : SE World string :=
  let* dg := repo_state r in
  match HEAD (snd dg) with
  | Attached b => ret b
  | Detached s =>
      raise (TypeError ("HEAD is a detached symbolic reference as it points to '" ++ s ++ "'"))
  end.

(** [repo.index.diff(rev)]: the name is resolved first, BadName when it
    does not resolve (as HEAD in a repository without commits). *)
Definition index_diff_rev (r : Repo) (rev : string) : SE World (list Diff) :=
  let* dg := repo_state r in
  match rev_commit (snd dg) rev with
  | Some c => ret (diff_trees (index (snd dg)) (tree c))
  | None => raise (BadName rev)
  end.

(** the working files the index tracks *)
Definition tracked (d : Dir) (g : GitDir) : Tree :=
  filter (fun kv => is_Some (index g !! kv.1)) (worktree d).

(** [repo.index.diff(None)]: index against working tree. *)
Definition index_diff_worktree (r : Repo) : SE World (list Diff) :=
  let* dg := repo_state r in
  ret (diff_trees (index (snd dg)) (tracked (fst dg) (snd dg))).

(** [repo.untracked_files]: working files the index does not hold. *)
Definition untracked_of (d : Dir) (g : GitDir) : list string :=
  filter (fun p => index g !! p = None) (map fst (map_to_list (worktree d))).

Definition repo_untracked_files (r : Repo) : SE World (list string) :=
  let* dg := repo_state r in
  ret (untracked_of (fst dg) (snd dg)).

(** [repo.git.add(A=True)]: the index becomes the working tree. *)
Definition git_add_all (r : Repo) : SE World unit :=
  let* _ := log_call (CallAddAll (working_dir r)) in
  let* dg := repo_state r in
  let g := snd dg in
  put_repo r (worktree (fst dg))
    (mkGitDir (objects g) (heads g) (HEAD g) (worktree (fst dg))).

(** [repo.index.add(items)]: each named working file enters the index. *)
Fixpoint stage (t : Tree) (items : list string) (ix : Tree) : option Tree :=
  match items with
  | [] => Some ix
  | p :: ps =>
      match t !! p with
      | Some c => stage t ps (<[p := c]> ix)
      | None => None
      end
  end.

Definition index_add (r : Repo) (items : list string) : SE World unit :=
  let* _ := log_call (CallIndexAdd (working_dir r) items) in
  let* dg := repo_state r in
  let g := snd dg in
  match stage (worktree (fst dg)) items (index g) with
  | Some ix => put_repo r (worktree (fst dg)) (mkGitDir (objects g) (heads g) (HEAD g) ix)
  | None => raise (OSError "No such file or directory")
  end.

(** moving what HEAD points to: the branch when attached, HEAD itself
    when detached *)
Definition move_head (g : GitDir) (sha : string) : GitDir :=
  match HEAD g with
  | Attached b => mkGitDir (objects g) (<[b := sha]> (heads g)) (HEAD g) (index g)
  | Detached _ => mkGitDir (objects g) (heads g) (Detached sha) (index g)
  end.

(** [repo.index.commit(message)]: a commit of the index on top of the
    head commit (no parent in a repository without commits). *)
Definition index_commit (r : Repo) (msg : string) : SE World Commit :=
  let* _ := log_call (CallCommit (working_dir r) msg) in
  let* dg := repo_state r in
  let* now := gets clock in
  let g := snd dg in
  let ps := match head_sha g with Some s => [s] | None => [] end in
  let c := mkCommit (hash_commit msg ps (index g) now) msg user_name user_email
                    now ps (index g) in
  let g' := mkGitDir (<[hexsha c := c]> (objects g)) (heads g) (HEAD g) (index g) in
  let* _ := put_repo r (worktree (fst dg)) (move_head g' (hexsha c)) in
  ret c.

(** [max_count] of a history walk: a negative count does not limit. *)
Definition limit_commits (max_count : option Z) (l : list Commit) : list Commit :=
  match max_count with
  | Some n => if n <? 0 then l else take (Z.to_nat n) l
  | None => l
  end.

(** [repo.iter_commits(rev, max_count=n)], read to the end; no [rev] is
    HEAD. The walk is a git command: a name that does not resolve makes
    it fail with GitCommandError. *)
Definition iter_commits (r : Repo) (rev : option string) (max_count : option Z)
  : SE World (list Commit) :=
  let* dg := repo_state r in
  let name := default "HEAD" rev in
  match rev_commit (snd dg) name with
  | Some c => ret (limit_commits max_count (rev_walk (objects (snd dg)) (hexsha c)))
  | None => raise (GitCommandError (git_stderr ["rev-list"; name; "--"]))
  end.

(** the working tree after a hard reset: the target's files, and the
    files the index did not track *)
Definition hard_worktree (t : Tree) (ix : Tree) (target : Tree) : Tree :=
  target ∪ filter (fun kv => ix !! kv.1 = None) t.

(** [repo.git.reset(flag, target)] *)
Definition git_reset (r : Repo) (flag target : string) : SE World unit :=
  let* _ := log_call (CallReset (working_dir r) flag target) in
  let* dg := repo_state r in
  let d := fst dg in
  let g := snd dg in
  match rev_commit g target with
  | None => raise (GitCommandError (git_stderr ["reset"; flag; target]))
  | Some c =>
      let g1 := move_head g (hexsha c) in
      let g2 := mkGitDir (objects g1) (heads g1) (HEAD g1) (tree c) in
      if String.eqb flag "--soft" then put_repo r (worktree d) g1
      else if String.eqb flag "--mixed" then put_repo r (worktree d) g2
      else if String.eqb flag "--hard" then
        put_repo r (hard_worktree (worktree d) (index g) (tree c)) g2
      else raise (GitCommandError (git_stderr ["reset"; flag; target]))
  end.

(** [repo.head.commit] *)
Definition head_commit (r : Repo) : SE World Commit :=
  let* dg := repo_state r in
  match rev_commit (snd dg) "HEAD" with
  | Some c => ret c
  | None => raise (ValueError "Reference at 'HEAD' does not exist")
  end.

(** [repo.commit(rev)]: BadName when the name does not resolve. *)
Definition repo_commit (r : Repo) (rev : string) : SE World Commit :=
  let* dg := repo_state r in
  match rev_commit (snd dg) rev with
  | Some c => ret c
  | None => raise (BadName rev)
  end.

(** [commit.diff(other)] *)
Definition commit_diff (c other : Commit) : list Diff :=
  diff_trees (tree c) (tree other).

(** [repo.create_head(name, start)]: without a start point the branch is
    created at HEAD. The reference is written unless it exists with
    another target; HEAD, the index and the files are not touched. *)
Definition create_head (r : Repo) (nm : string) (start : option Commit) : SE World unit :=
  let* _ := log_call (CallCreateHead (working_dir r) nm) in
  let* dg := repo_state r in
  let g := snd dg in
  if negb (ref_name_ok nm) then raise (ValueError ("Invalid reference '" ++ nm ++ "'"))
  else
    match (match start with Some c => Some (hexsha c) | None => head_sha g end) with
    | None => raise (BadName "HEAD")
    | Some sha =>
        match heads g !! nm with
        | Some old =>
            if String.eqb old sha then ret tt
            else raise (OSError ("Reference at 'refs/heads/" ++ nm ++ "' does already exist"))
        | None =>
            put_repo r (worktree (fst dg))
              (mkGitDir (objects g) (<[nm := sha]> (heads g)) (HEAD g) (index g))
        end
    end.

(** [repo.heads[name]]: IndexError when there is no such branch. *)
Definition repo_head (r : Repo) (nm : string) : SE World string :=
  let* dg := repo_state r in
  match heads (snd dg) !! nm with
  | Some _ => ret nm
  | None => raise (IndexError ("No item found with id '" ++ nm ++ "'"))
  end.

(** [repo.heads]: the branches with their tips *)
Definition repo_heads (r : Repo) : SE World (list (string * string)) :=
  let* dg := repo_state r in
  ret (map_to_list (heads (snd dg))).

(** the commit a branch points to *)
Definition branch_commit (r : Repo) (sha : string) : SE World Commit :=
  let* dg := repo_state r in
  match objects (snd dg) !! sha with
  | Some c => ret c
  | None => raise (ValueError ("Reference does not point to a commit: " ++ sha))
  end.

(** a checkout replaces the paths on which the two commits differ *)
Definition switch_tree (cur tgt t : Tree) : Tree :=
  filter (fun kv => cur !! kv.1 ≠ tgt !! kv.1) tgt
  ∪ filter (fun kv => cur !! kv.1 = tgt !! kv.1) t.

(** ... and is refused when one of those paths carries local changes *)
Definition checkout_blocked (cur tgt ix t : Tree) : bool :=
  existsb (fun p =>
             bool_decide (cur !! p ≠ tgt !! p)
             && (bool_decide (ix !! p ≠ cur !! p) || bool_decide (t !! p ≠ ix !! p)))
          (elements (dom cur ∪ dom tgt)).

(** [branch.checkout()] *)
Definition checkout (r : Repo) (nm : string) : SE World unit :=
  let* _ := log_call (CallCheckout (working_dir r) nm) in
  let* dg := repo_state r in
  let d := fst dg in
  let g := snd dg in
  match sha ← heads g !! nm; objects g !! sha with
  | None => raise (GitCommandError (git_stderr ["checkout"; nm]))
  | Some c =>
      let cur := default ∅ (tree <$> rev_commit g "HEAD") in
      if checkout_blocked cur (tree c) (index g) (worktree d)
      then raise (GitCommandError (git_stderr ["checkout"; nm]))
      else put_repo r (switch_tree cur (tree c) (worktree d))
             (mkGitDir (objects g) (heads g) (Attached nm)
                       (switch_tree cur (tree c) (index g)))
  end.

(** [Path.exists()], [Path.mkdir(parents=True, exist_ok=True)] and
    [Path.write_text] inside a directory *)
Definition path_exists (p : string) : SE World bool :=
  gets (fun w => bool_decide (is_Some (fs w !! p))).

Definition mkdir (p : string) : SE World unit :=
  modify (fun w => match fs w !! p with
                   | Some _ => w
                   | None => set_dir p (mkDir ∅ None) w
                   end).

Definition file_exists (p f : string) : SE World bool :=
  gets (fun w => bool_decide (is_Some (d ← fs w !! p; worktree d !! f))).

Definition write_text (p f content : string) : SE World unit :=
  fun w => match fs w !! p with
           | Some d => (Ok tt, set_dir p (mkDir (<[f := content]> (worktree d)) (dotgit d)) w)
           | None => (Raise (OSError "No such file or directory"), w)
           end.

End Backend.

(** ** [GitManager] ([git_utils.py]) *)

Record GitManager := mkGitManager {
  repo_path : string;
  _repo : option Repo
}.

(** A method runs on the manager object and the world. *)
Definition Meth (A : Type) : Type := SE (GitManager * World) A.

Definition lift {A} (m : SE World A) : Meth A :=
  fun s => let (r, w') := m (snd s) in (r, (fst s, w')).

Definition self : Meth GitManager := gets fst.

Definition set_repo (r : option Repo) : Meth unit :=
  modify (fun s => (mkGitManager (repo_path (fst s)) r, snd s)).

Module Manager.
Section Manager.
Context `{GitEngine}.

(** [GitManager(repo_path)] *)
Definition GitManager_init (p : string) : GitManager :=
  mkGitManager (resolve_path p) None.

Definition not_initialized_msg (p : string) : string :=
  "Git repository not initialized at " ++ p ++ ". Call initialize_repo first.".

(** the [repo] property *)
Definition repo : Meth Repo :=
  let* m := self in
  match _repo m with
  | Some r => ret r
  | None =>
      let* r := try_catch (lift (Repo_open (repo_path m)))
                  (fun e => match e with
                            | InvalidGitRepositoryError _ =>
                                raise (ValueError (not_initialized_msg (repo_path m)))
                            | _ => raise e
                            end) in
      let* _ := set_repo (Some r) in
      ret r
  end.

Definition is_initialized : Meth bool :=
  let* m := self in
  try_catch (let* _ := lift (Repo_open (repo_path m)) in ret true)
    (fun e => match e with
              | InvalidGitRepositoryError _ => ret false
              | _ => raise e
              end).

Definition readme_text : string :=
  "# Project" ++ String Py.LF (String Py.LF "Initialized by GitHub MCP Server.")
  ++ String Py.LF "".

Definition initialize (initial_commit : bool) : Meth string :=
  let* m := self in
  let* ex := lift (path_exists (repo_path m)) in
  let* _ := (if negb ex then lift (mkdir (repo_path m)) else ret tt) in
  let* init := is_initialized in
  if init then ret ("Repository already initialized at " ++ repo_path m)
  else
    let* r := lift (Repo_init (repo_path m)) in
    let* _ := set_repo (Some r) in
    let* early :=
      (if initial_commit then
         let* readme := lift (file_exists (repo_path m) "README.md") in
         let* _ := (if negb readme then
                      let* _ := lift (write_text (repo_path m) "README.md" readme_text) in
                      lift (index_add r ["README.md"])
                    else ret tt) in
         let* u := lift (repo_untracked_files r) in
         let* _ := (if Py.nonempty u then
                      let* u' := lift (repo_untracked_files r) in
                      lift (index_add r u')
                    else ret tt) in
         let* has_commits :=
           try_catch (let* cs := lift (iter_commits r None None) in ret (Py.nonempty cs))
                     (fun _ => ret false) in
         if negb has_commits then
           try_catch
             (let* c := lift (index_commit r "Initial commit") in
              ret (Some ("Initialized repository with initial commit: "
                         ++ Py.prefix 7 (hexsha c))))
             (fun _ => ret None)
         else ret None
       else ret None) in
    match early with
    | Some s => ret s
    | None => ret ("Initialized empty git repository at " ++ repo_path m)
    end.

(** [repo.active_branch.name], with the detached case caught *)
Definition branch_or (r : Repo) (fallback : string) : Meth string :=
  try_catch (lift (active_branch_name r))
    (fun e => match e with
              | TypeError _ => ret fallback
              | _ => raise e
              end).

Definition get_status : Meth Models.RepoStatus :=
  let* init := is_initialized in
  if negb init then ret (Models.mkRepoStatus false None false [] [] [])
  else
    let* r := repo in
    let* cur := branch_or r "HEAD (detached)" in
    let* ds := lift (index_diff_rev r "HEAD") in
    let staged := map a_path ds in
    let* dm := lift (index_diff_worktree r) in
    let modified := map a_path dm in
    let* untracked := lift (repo_untracked_files r) in
    let* staged_s := require_strs "staged_files" staged in
    let* modified_s := require_strs "modified_files" modified in
    ret (Models.mkRepoStatus true (Some cur)
           (Py.nonempty staged || Py.nonempty modified || Py.nonempty untracked)
           staged_s modified_s untracked).

Definition commit_all (msg : string) : Meth string :=
  let* r := repo in
  let* _ := lift (git_add_all r) in
  let* staged := lift (index_diff_rev r "HEAD") in
  let* no_changes :=
    (if Py.nonempty staged then ret false
     else let* untracked := lift (repo_untracked_files r) in
          ret (negb (Py.nonempty untracked))) in
  if no_changes then ret "No changes to commit"
  else
    let* c := lift (index_commit r msg) in
    ret (hexsha c).

Definition commit_info (c : Commit) : Models.CommitInfo :=
  Models.mkCommitInfo (hexsha c) (Py.prefix 7 (hexsha c)) (Py.strip (message c))
               (author_name c) (author_email c) (committed_date c).

Definition list_commits (br : string) (limit : Z) : Meth Models.CommitList :=
  let* r := repo in
  let* cs := try_catch (lift (iter_commits r (Some br) (Some limit)))
               (fun e => match e with
                         | BadName _ =>
                             raise (ValueError ("Branch or ref '" ++ br ++ "' not found"))
                         | _ => raise e
                         end) in
  let commit_infos := map commit_info cs in
  let* branch_name :=
    (if String.eqb br "HEAD" then branch_or r "HEAD (detached)" else ret br) in
  ret (Models.mkCommitList commit_infos (Z.of_nat (length commit_infos)) branch_name).

Definition valid_modes : list string := ["soft"; "mixed"; "hard"].

Definition rollback (commit_sha mode : string) : Meth string :=
  let* r := repo in
  if negb (bool_decide (mode ∈ valid_modes))
  then raise (ValueError ("Mode must be one of: " ++ Py.repr_list valid_modes))
  else
    let* _ := try_catch (lift (git_reset r ("--" ++ mode) commit_sha))
                (fun e => match e with
                          | GitCommandError _ =>
                              raise (ValueError ("Failed to reset to " ++ commit_sha
                                                 ++ ": " ++ exn_str e))
                          | _ => raise e
                          end) in
    let* c := lift (head_commit r) in
    ret (hexsha c).


(** the status of one diff entry *)
Definition diff_status (d : Diff) : string :=
  if new_file d then "added"
  else if deleted_file d then "deleted"
  else if renamed d then "renamed"
  else "modified".

(** the patch text of one diff entry *)
Definition diff_patch (d : Diff) : option string :=
  if Py.truthy (diff d) then Some (decode_utf8_replace (diff d)) else None.

(** the loop over the lines of a patch *)
Fixpoint count_lines (lines : list string) (additions deletions : Z) : Z * Z :=
  match lines with
  | [] => (additions, deletions)
  | line :: rest =>
      if Py.startswith "+" line && negb (Py.startswith "+++" line)
      then count_lines rest (additions + 1) deletions
      else if Py.startswith "-" line && negb (Py.startswith "---" line)
      then count_lines rest additions (deletions + 1)
      else count_lines rest additions deletions
  end.

Definition patch_counts (p : option string) : Z * Z :=
  match p with
  | Some text =>
      if Py.truthy text then count_lines (Py.split Py.LF text) 0 0 else (0, 0)
  | None => (0, 0)
  end.

(** the loop over the diff entries, with its three accumulators *)
Fixpoint compare_loop (diffs : list Diff) (fcs : list Models.FileChange)
         (total_add total_del : Z) : Meth (list Models.FileChange * Z * Z) :=
  match diffs with
  | [] => ret (fcs, total_add, total_del)
  | d :: rest =>
      let st := diff_status d in
      let p := diff_patch d in
      let counts := patch_counts p in
      let total_add := total_add + fst counts in
      let total_del := total_del + snd counts in
      let* fname := require_str "filename" (Py.or_else (b_path d) (a_path d)) in
      compare_loop rest
        (fcs ++ [Models.mkFileChange fname st (fst counts) (snd counts) p])
        total_add total_del
  end.

(** [str(n)] of an int *)
Definition str_int (n : Z) : string := pretty n.

Definition compare_commits (from_sha to_sha : string) : Meth Models.CommitDiff :=
  let* r := repo in
  let* ends :=
    try_catch (let* a := lift (repo_commit r from_sha) in
               let* b := lift (repo_commit r to_sha) in
               ret (a, b))
              (fun e => match e with
                        | BadName _ => raise (ValueError ("Invalid commit SHA: " ++ exn_str e))
                        | _ => raise e
                        end) in
  let diffs := commit_diff (fst ends) (snd ends) in
  let* acc := compare_loop diffs [] 0 0 in
  let fcs := fst (fst acc) in
  let total_add := snd (fst acc) in
  let total_del := snd acc in
  let summary :=
    str_int (Z.of_nat (length fcs)) ++ " files changed, " ++ str_int total_add
    ++ " insertions(+), " ++ str_int total_del ++ " deletions(-)" in
  ret (Models.mkCommitDiff from_sha to_sha fcs total_add total_del summary).

Definition create_branch (branch_name : string) (from_ref : option string) : Meth string :=
  let* r := repo in
  let* _ :=
    (match from_ref with
     | Some ref =>
         if Py.truthy ref then
           let* start_point :=
             try_catch (lift (repo_commit r ref))
               (fun e => match e with
                         | BadName _ => raise (ValueError ("Invalid ref '" ++ ref ++ "'"))
                         | _ => raise e
                         end) in
           lift (create_head r branch_name (Some start_point))
         else lift (create_head r branch_name None)
     | None => lift (create_head r branch_name None)
     end) in
  ret branch_name.

Definition switch_branch (branch_name : string) : Meth string :=
  let* r := repo in
  let* br :=
    try_catch (lift (repo_head r branch_name))
      (fun e => match e with
                | IndexError _ => raise (ValueError ("Branch '" ++ branch_name ++ "' not found"))
                | _ => raise e
                end) in
  let* _ := lift (checkout r br) in
  lift (active_branch_name r).

Fixpoint branch_infos (r : Repo) (current : option string) (hs : list (string * string))
  : Meth (list Models.BranchInfo) :=
  match hs with
  | [] => ret []
  | (nm, tip) :: rest =>
      let* c := lift (branch_commit r tip) in
      let info :=
        Models.mkBranchInfo nm (bool_decide (Some nm = current))
          (Py.prefix 7 (hexsha c))
          (hd "" (Py.split Py.LF (Py.strip (message c)))) in
      let* infos := branch_infos r current rest in
      ret (info :: infos)
  end.

Definition list_branches : Meth (list Models.BranchInfo) :=
  let* r := repo in
  let* current :=
    try_catch (let* b := lift (active_branch_name r) in ret (Some b))
      (fun e => match e with
                | TypeError _ => ret None
                | _ => raise e
                end) in
  let* hs := lift (repo_heads r) in
  branch_infos r current hs.

End Manager.
End Manager.

(** ** The dispatched operations ([tools.py]) *)

(** What an operation hands back: plain text, or a result record in its
    field-named serialised form. *)
Inductive Output : Type :=
| Text (s : string)
| StatusJson (s : Models.RepoStatus)
| CommitListJson (l : Models.CommitList)
| CommitDiffJson (d : Models.CommitDiff).

(** Running a method on a manager built for the call. *)
Definition call_on {A} (m : GitManager) (f : Meth A) : SE World A :=
  fun w => let (r, s) := f (m, w) in (r, snd s).

Module Tools.
Section Tools.
Context `{GitEngine}.
Variable default_repo_path : option string.

Definition get_manager (repo_path : string) : SE World GitManager :=
  match Py.or_else (Some repo_path) default_repo_path with
  | Some path =>
      if Py.truthy path then ret (Manager.GitManager_init path)
      else raise (ValueError "repo_path is required (no default configured)")
  | None => raise (ValueError "repo_path is required (no default configured)")
  end.

Definition initialize_repo (repo_path : string) (initial_commit : bool) : SE World Output :=
  let manager := Manager.GitManager_init repo_path in
  let* msg := call_on manager (Manager.initialize initial_commit) in
  ret (Text msg).

Definition get_repo_status (repo_path : string) : SE World Output :=
  let manager := Manager.GitManager_init repo_path in
  let* st := call_on manager Manager.get_status in
  ret (StatusJson st).

Definition commit_all_changes (repo_path message : string) : SE World Output :=
  let manager := Manager.GitManager_init repo_path in
  let* out :=
    call_on manager
      (let* init := Manager.is_initialized in
       let* _ := (if negb init then
                    let* _ := Manager.initialize false in ret tt
                  else ret tt) in
       Manager.commit_all message) in
  ret (Text out).

Definition list_commits (repo_path branch : string) (limit : Z) : SE World Output :=
  let* manager := get_manager repo_path in
  let* cl := call_on manager (Manager.list_commits branch limit) in
  ret (CommitListJson cl).

Definition rollback_to_commit (repo_path commit_sha mode : string) : SE World Output :=
  let* manager := get_manager repo_path in
  let* new_head := call_on manager (Manager.rollback commit_sha mode) in
  ret (Text ("Rolled back to " ++ Py.prefix 7 commit_sha ++ ". New HEAD: "
             ++ Py.prefix 7 new_head ++ " (mode: " ++ mode ++ ")")).

Definition compare_commits (repo_path from_commit to_commit : string) : SE World Output :=
  let* manager := get_manager repo_path in
  let* d := call_on manager (Manager.compare_commits from_commit to_commit) in
  ret (CommitDiffJson d).

Definition create_branch (repo_path branch_name : string) (from_ref : option string)
  : SE World Output :=
  let* manager := get_manager repo_path in
  let* nm := call_on manager (Manager.create_branch branch_name from_ref) in
  ret (Text ("Created branch: " ++ nm)).

Definition switch_branch (repo_path branch_name : string) : SE World Output :=
  let* manager := get_manager repo_path in
  let* current := call_on manager (Manager.switch_branch branch_name) in
  ret (Text ("Switched to branch: " ++ current)).

Definition branch_line (b : Models.BranchInfo) : string :=
  (if Models.is_current b then "* " else "  ") ++ Models.name b ++ " ("
  ++ Models.last_commit_sha b ++ "): " ++ Models.last_commit_message b.

Definition list_branches (repo_path : string) : SE World Output :=
  let* manager := get_manager repo_path in
  let* branches := call_on manager Manager.list_branches in
  ret (Text (Py.join (String Py.LF "") (map branch_line branches))).

Definition mentions (word : string) (l : list string) : bool :=
  existsb (fun f => Py.contains word (Py.lower f)) l.

Definition generate_commit_message (repo_path style : string) : SE World Output :=
  let* manager := get_manager repo_path in
  let* st := call_on manager Manager.get_status in
  if negb (Models.has_changes st) then ret (Text "No changes to describe")
  else
    let staged := Models.staged_files st in
    let modified := Models.modified_files st in
    let untracked := Models.untracked_files st in
    let changes :=
      List.app
        (if Py.nonempty staged then
           ("Staged: " ++ Py.join ", " (take 5 staged))
           :: (if (5 <? length staged)%nat
               then ["  ...and " ++ Py.str_nat (length staged - 5) ++ " more"] else [])
         else [])
        (List.app
           (if Py.nonempty modified
            then ["Modified: " ++ Py.join ", " (take 5 modified)] else [])
           (if Py.nonempty untracked
            then ["New: " ++ Py.join ", " (take 5 untracked)] else [])) in
    let file_count := (length staged + length modified + length untracked)%nat in
    let message :=
      if String.eqb style "conventional" then
        let prefix :=
          if Py.nonempty untracked then "feat"
          else if mentions "test" (List.app modified staged) then "test"
          else if existsb (fun f => Py.contains "readme" (Py.lower f)
                                    || Py.contains "doc" (Py.lower f))
                          (List.app modified staged) then "docs"
          else "chore" in
        prefix ++ ": update " ++ Py.str_nat file_count ++ " file(s)"
      else "Update " ++ Py.str_nat file_count ++ " file(s)" in
    ret (Text ("Suggested message: " ++ message ++ String Py.LF (String Py.LF "")
               ++ "Changes detected:" ++ String Py.LF ""
               ++ Py.join (String Py.LF "") changes)).

End Tools.
End Tools.

(** ** A small engine to run the code on concrete repositories *)

Module Toy.

(** one entry per path on which the two trees differ, with a patch that
    removes the old content and adds the new one *)
Definition diff_entry (a b : Tree) (p : string) : list Diff :=
  if bool_decide (a !! p = b !! p) then []
  else
    [mkDiff (Some p) (Some p)
            (bool_decide (a !! p = None)) (bool_decide (b !! p = None)) false
            ("--- a/" ++ p ++ String Py.LF ("+++ b/" ++ p)
             ++ match a !! p with Some c => String Py.LF ("-" ++ c) | None => "" end
             ++ match b !! p with Some c => String Py.LF ("+" ++ c) | None => "" end)].

Definition diff_paths (a b : Tree) : list Diff :=
  concat (map (diff_entry a b) (elements (dom a ∪ dom b))).

(** first-parent history *)
Fixpoint walk (fuel : nat) (objs : gmap string Commit) (sha : string) : list Commit :=
  match fuel with
  | O => []
  | S n =>
      match objs !! sha with
      | Some c => c :: match parents c with
                       | p :: _ => walk n objs p
                       | [] => []
                       end
      | None => []
      end
  end.

Definition by_name (g : GitDir) (n : string) : option string :=
  match heads g !! n with
  | Some s => Some s
  | None => if bool_decide (is_Some (objects g !! n)) then Some n else None
  end.

#[export] Instance engine : GitEngine := {|
  resolve_path := fun p => p;
  default_branch := "main";
  user_name := "dev";
  user_email := "dev@example.org";
  lookup_name := by_name;
  diff_trees := diff_paths;
  rev_walk := fun objs sha => walk (size objs) objs sha;
  hash_commit := fun msg ps t now => "c" ++ pretty now ++ "-" ++ msg;
  decode_utf8_replace := fun b => b;
  ref_name_ok := Py.truthy;
  git_stderr := fun args => "fatal: " ++ Py.join " " args
|}.

Definition world_of (p : string) (d : Dir) : World :=
  mkWorld {[ p := d ]} [] 1700000000.

(** an existing directory that is not a repository *)
Definition plain_dir : World :=
  world_of "/srv/app" (mkDir {[ "main.py" := "print(1)" ]} None).

(** no directory at all *)
Definition nowhere : World := mkWorld ∅ [] 1700000000.

Definition c1 : Commit :=
  mkCommit "1111111111" "first" "dev" "dev@example.org" 1600000000 []
           {[ "main.py" := "print(1)" ]}.
Definition c2 : Commit :=
  mkCommit "2222222222" "second" "dev" "dev@example.org" 1600000100 ["1111111111"]
           {[ "main.py" := "print(2)"; "util.py" := "pass" ]}.

Definition git_two (h : HeadRef) : GitDir :=
  mkGitDir {[ "1111111111" := c1; "2222222222" := c2 ]}
           {[ "main" := "2222222222" ]} h (tree c2).

(** a clean repository with two commits on main *)
Definition two_commits : World :=
  world_of "/srv/app" (mkDir (tree c2) (Some (git_two (Attached "main")))).

(** the same with HEAD detached at the first commit *)
Definition detached : World :=
  world_of "/srv/app" (mkDir (tree c1)
    (Some (mkGitDir (objects (git_two (Attached "main"))) (heads (git_two (Attached "main")))
                    (Detached "1111111111") (tree c1)))).

(** a repository without commits, one file waiting *)
Definition unborn : World :=
  world_of "/srv/app" (mkDir {[ "main.py" := "print(1)" ]} (Some empty_git)).

Definition mgr : GitManager := Manager.GitManager_init "/srv/app".

Definition two_commits_dir : Dir :=
  mkDir (tree c2) (Some (git_two (Attached "main"))).

End Toy.

(** ** Vocabulary of the statements *)

(** the directory and repository at a path, when there is one *)
Definition repo_at (w : World) (p : string) : option (Dir * GitDir) :=
  d ← fs w !! p; g ← dotgit d; Some (d, g).

(** a manager's cached handle, if any, is on its own path *)
Definition session_ok (m : GitManager) : Prop :=
  forall r, _repo m = Some r -> working_dir r = repo_path m.

(** the manager once its handle is open *)
Definition opened (m : GitManager) : GitManager :=
  mkGitManager (repo_path m) (Some (mkRepo (repo_path m))).

(** there is a repository at the path *)
Definition has_repo (p : string) (w : World) : Prop := is_Some (repo_at w p).

(** a backend computation that never removes the repository at [p] *)
Definition keeps {A} (p : string) (c : SE World A) : Prop :=
  forall w, has_repo p w -> has_repo p (snd (c w)).

(** the same for a method, which also keeps the manager on its path *)
Definition keepsM {A} (p : string) (c : Meth A) : Prop :=
  forall m w, repo_path m = p -> has_repo p w ->
    repo_path (fst (snd (c (m, w)))) = p /\ has_repo p (snd (snd (c (m, w)))).

(** As the result model words it: the lines of a patch that start with the
    sign, the header lines that repeat it three times left out. *)
Definition signed_line (sign : string) (line : string) : bool :=
  Py.startswith sign line && negb (Py.startswith (sign ++ sign ++ sign) line).

(** their number; no patch, no lines *)
Definition count_signed (sign : string) (p : option string) : Z :=
  match p with
  | Some text => Z.of_nat (length (List.filter (signed_line sign) (Py.split Py.LF text)))
  | None => 0
  end.

(** the status by precedence: new file, then deleted, then renamed *)
Definition status_by_precedence (d : Diff) : string :=
  if new_file d then "added"
  else if deleted_file d then "deleted"
  else if renamed d then "renamed"
  else "modified".

(** the sum of a list of counts *)
Definition sumZ (l : list Z) : Z := foldr Z.add 0 l.

Section Vocabulary.
Context `{GitEngine}.

(** the message [initialize] gives for an existing repository *)
Definition already_msg (m : GitManager) : string :=
  "Repository already initialized at " ++ repo_path m.

(** the world after [git add -A] *)
Definition added (p : string) (d : Dir) (g : GitDir) (w : World) : World :=
  set_dir p
    (mkDir (worktree d) (Some (mkGitDir (objects g) (heads g) (HEAD g) (worktree d))))
    (mkWorld (fs w) (calls w ++ [CallAddAll p]) (clock w)).

(** the world after [Repo.init] in a directory that was no repository *)
Definition initialized_empty (p : string) (d : Dir) (w : World) : World :=
  set_dir p (mkDir (worktree d) (Some empty_git))
    (mkWorld (fs w) (calls w ++ [CallInit p]) (clock w)).

(** the commit [index.commit(msg)] builds *)
Definition new_commit (g : GitDir) (msg : string) (now : Z) : Commit :=
  let ps := match head_sha g with Some s => [s] | None => [] end in
  mkCommit (hash_commit msg ps (index g) now) msg user_name user_email now ps (index g).

(** ... and the world it leaves: the commit stored, HEAD moved to it *)
Definition committed (p : string) (d : Dir) (g : GitDir) (msg : string) (w : World)
  : World :=
  let c := new_commit g msg (clock w) in
  set_dir p
    (mkDir (worktree d)
       (Some (move_head
                (mkGitDir (<[hexsha c := c]> (objects g)) (heads g) (HEAD g) (index g))
                (hexsha c))))
    (mkWorld (fs w) (calls w ++ [CallCommit p msg]) (clock w)).

(** the repository once everything is staged *)
Definition staged_all (d : Dir) (g : GitDir) : GitDir :=
  mkGitDir (objects g) (heads g) (HEAD g) (worktree d).

(** what each diff entry becomes *)
Definition entry_of (d : Diff) (f : Models.FileChange) : Prop :=
  Models.status f = status_by_precedence d
  /\ Models.patch f = Manager.diff_patch d
  /\ Models.additions f = count_signed "+" (Models.patch f)
  /\ Models.deletions f = count_signed "-" (Models.patch f)
  /\ Some (Models.filename f) = Py.or_else (b_path d) (a_path d).

(** the summary line for a list of entries *)
Definition summary_of (fcs : list Models.FileChange) : string :=
  Manager.str_int (Z.of_nat (length fcs)) ++ " files changed, "
  ++ Manager.str_int (sumZ (map Models.additions fcs)) ++ " insertions(+), "
  ++ Manager.str_int (sumZ (map Models.deletions fcs)) ++ " deletions(-)".

(** the label [list_commits] reports for a ref *)
Definition branch_label (g : GitDir) (ref : string) : string :=
  if String.eqb ref "HEAD" then
    match HEAD g with
    | Attached b => b
    | Detached _ => "HEAD (detached)"
    end
  else ref.

(** the status [get_status] computes from a directory and its repository *)
Definition status_of (d : Dir) (g : GitDir) : result Models.RepoStatus :=
  match rev_commit g "HEAD" with
  | None => Raise (BadName "HEAD")
  | Some hc =>
      let staged := map a_path (diff_trees (index g) (tree hc)) in
      let modified := map a_path (diff_trees (index g) (tracked d g)) in
      let untracked := untracked_of d g in
      fst (bind (require_strs "staged_files" staged)
             (fun staged_s =>
                bind (require_strs "modified_files" modified)
                  (fun modified_s =>
                     ret (Models.mkRepoStatus true
                            (Some (match HEAD g with
                                   | Attached b => b
                                   | Detached _ => "HEAD (detached)"
                                   end))
                            (Py.nonempty staged || Py.nonempty modified
                             || Py.nonempty untracked)
                            staged_s modified_s untracked))) tt)
  end.

(** what creating branch [x] may change: nothing but the pointer [x],
    and that only when [x] did not exist *)
Definition branch_frame (x : string) (d : Dir) (g : GitDir) (d' : Dir) (g' : GitDir)
  : Prop :=
  worktree d' = worktree d
  /\ HEAD g' = HEAD g
  /\ index g' = index g
  /\ objects g' = objects g
  /\ (forall b s, heads g !! b = Some s -> heads g' !! b = Some s)
  /\ (forall b, b <> x -> heads g' !! b = heads g !! b).

(** the status of a path that holds no repository *)
Definition uninitialized_status : Models.RepoStatus :=
  Models.mkRepoStatus false None false [] [] [].

End Vocabulary.

(** a backend computation that writes nothing *)
Definition reads {A} (c : SE World A) : Prop := forall w, snd (c w) = w.

(** a method that leaves the world as it is (it may cache its handle) *)
Definition readsM {A} (c : Meth A) : Prop := forall m w, snd (snd (c (m, w))) = w.

(** the world once a command has been sent to the backend *)
Definition logged (c : GitCall) (w : World) : World :=
  mkWorld (fs w) (calls w ++ [c]) (clock w).

(** the number of lines of a patch *)
Definition line_count (p : option string) : Z :=
  match p with
  | Some text => Z.of_nat (length (Py.split Py.LF text))
  | None => 0
  end.


(** the status of a repository with nothing to commit *)
Definition clean_status (g : GitDir) : Models.RepoStatus :=
  Models.mkRepoStatus true
    (Some (match HEAD g with
           | Attached b => b
           | Detached _ => "HEAD (detached)"
           end))
    false [] [] [].

(** the files of a directory once the placeholder README is there *)
Definition with_readme (t : Tree) : Tree :=
  match t !! "README.md" with
  | Some _ => t
  | None => <["README.md" := Manager.readme_text]> t
  end.

Section Vocabulary2.
Context `{GitEngine}.

(** the first commit of a repository: the given files, no parent *)
Definition first_commit (t : Tree) (now : Z) : Commit :=
  mkCommit (hash_commit "Initial commit" [] t now) "Initial commit"
           user_name user_email now [] t.

(** the repository [initialize(initial_commit=True)] leaves in a directory
    whose files are [t] *)
Definition first_repo (t : Tree) (now : Z) : GitDir :=
  let c := first_commit t now in
  mkGitDir {[ hexsha c := c ]} {[ default_branch := hexsha c ]}
           (Attached default_branch) t.

(** a repository without commits whose index is [ix] *)
Definition bare (ix : Tree) : GitDir := mkGitDir ∅ ∅ (Attached default_branch) ix.

(** such a repository sits at [p], in a directory whose files are [t],
    and the clock is the one of [w0] *)
Definition bare_at (p : string) (t ix : Tree) (w0 w : World) : Prop :=
  repo_at w p = Some (mkDir t (Some (bare ix)), bare ix)
  /\ clock w = clock w0.



End Vocabulary2.

(** more repositories to run the code on *)
Module ToyMore.

(** the two-commit repository with main.py edited and not yet staged *)
Definition edited_dir : Dir :=
  mkDir {[ "main.py" := "print(3)"; "util.py" := "pass" ]}
        (Some (Toy.git_two (Attached "main"))).

Definition edited : World := Toy.world_of "/srv/app" edited_dir.

Definition plain_files : Dir := mkDir {[ "main.py" := "print(1)" ]} None.

End ToyMore.


(** ** Running computations step by step *)

Section MonadFacts.
Context {S A B : Type}.

Lemma bind_Ok (m : SE S A) (k : A -> SE S B) s a s' :
  m s = (Ok a, s') -> bind m k s = k a s'.
Proof. intros E. unfold bind. now rewrite E. Qed.

Lemma bind_Raise (m : SE S A) (k : A -> SE S B) s e s' :
  m s = (Raise e, s') -> bind m k s = (Raise e, s').
Proof. intros E. unfold bind. now rewrite E. Qed.

Lemma try_catch_Ok (m : SE S A) h s a s' :
  m s = (Ok a, s') -> try_catch m h s = (Ok a, s').
Proof. intros E. unfold try_catch. now rewrite E. Qed.

Lemma try_catch_Raise (m : SE S A) h s e s' :
  m s = (Raise e, s') -> try_catch m h s = h e s'.
Proof. intros E. unfold try_catch. now rewrite E. Qed.
End MonadFacts.

Lemma lift_run {A} (c : SE World A) (m : GitManager) (w : World) r w' :
  c w = (r, w') -> lift c (m, w) = (r, (m, w')).
Proof. intros E. unfold lift. simpl. now rewrite E. Qed.

(** ** Sessions and repositories *)

Lemma repo_at_Some w p d g :
  repo_at w p = Some (d, g) <-> fs w !! p = Some d /\ dotgit d = Some g.
Proof.
  unfold repo_at. split.
  - destruct (fs w !! p) as [d0|]; simpl; [|discriminate].
    destruct (dotgit d0) as [g0|] eqn:E; simpl; [|discriminate].
    intros [= <- <-]. auto.
  - intros [-> E]. simpl. now rewrite E.
Qed.

Lemma session_ok_init `{GitEngine} p : session_ok (Manager.GitManager_init p).
Proof. intros r. discriminate. Qed.

Lemma session_ok_opened m : session_ok (opened m).
Proof. intros r [= <-]. reflexivity. Qed.

Section BackendFacts.
Context `{GitEngine}.

Lemma Repo_open_repo w p d g :
  repo_at w p = Some (d, g) -> Repo_open p w = (Ok (mkRepo p), w).
Proof.
  intros [E1 E2]%repo_at_Some. unfold Repo_open. now rewrite E1, E2.
Qed.

Lemma Repo_open_plain w p d :
  fs w !! p = Some d -> dotgit d = None ->
  Repo_open p w = (Raise (InvalidGitRepositoryError p), w).
Proof. intros E1 E2. unfold Repo_open. now rewrite E1, E2. Qed.

Lemma Repo_open_missing w p :
  fs w !! p = None -> Repo_open p w = (Raise (NoSuchPathError p), w).
Proof. intros E. unfold Repo_open. now rewrite E. Qed.

Lemma Repo_open_world w p : snd (Repo_open p w) = w.
Proof.
  unfold Repo_open. destruct (fs w !! p) as [d|]; [|reflexivity].
  now destruct (dotgit d).
Qed.

Lemma repo_state_repo w p d g :
  repo_at w p = Some (d, g) -> repo_state (mkRepo p) w = (Ok (d, g), w).
Proof.
  intros [E1 E2]%repo_at_Some. unfold repo_state. simpl. now rewrite E1, E2.
Qed.

(** Opening the handle reads the disk and caches the handle; it writes
    nothing. *)
Lemma repo_world m w : snd (snd (Manager.repo (m, w))) = w.
Proof.
  unfold Manager.repo, self, gets, bind, try_catch, lift, set_repo, modify, ret, raise.
  simpl. destruct (_repo m); simpl; [reflexivity|].
  pose proof (Repo_open_world w (repo_path m)) as E.
  destruct (Repo_open (repo_path m) w) as [[r|e] w']; simpl in *; subst; [reflexivity|].
  now destruct e.
Qed.

Lemma repo_opens m w d g :
  session_ok m -> repo_at w (repo_path m) = Some (d, g) ->
  Manager.repo (m, w) = (Ok (mkRepo (repo_path m)), (opened m, w)).
Proof.
  intros Hs Hr. unfold Manager.repo, self, gets, bind. simpl.
  destruct m as [p [r|]]; simpl in *.
  - specialize (Hs r eq_refl). destruct r as [q]. simpl in Hs. subst q.
    reflexivity.
  - unfold try_catch. erewrite lift_run by (eapply Repo_open_repo; eauto).
    reflexivity.
Qed.

Lemma repo_plain m w d :
  _repo m = None -> fs w !! repo_path m = Some d -> dotgit d = None ->
  Manager.repo (m, w)
  = (Raise (ValueError (Manager.not_initialized_msg (repo_path m))), (m, w)).
Proof.
  intros Hn E1 E2. unfold Manager.repo, self, gets, bind. simpl. rewrite Hn.
  unfold try_catch. erewrite lift_run by (eapply Repo_open_plain; eauto).
  reflexivity.
Qed.

Lemma is_initialized_repo m w d g :
  repo_at w (repo_path m) = Some (d, g) ->
  Manager.is_initialized (m, w) = (Ok true, (m, w)).
Proof.
  intros Hr. unfold Manager.is_initialized, self, gets, bind, try_catch. simpl.
  erewrite lift_run by (eapply Repo_open_repo; eauto). reflexivity.
Qed.

Lemma is_initialized_plain m w d :
  fs w !! repo_path m = Some d -> dotgit d = None ->
  Manager.is_initialized (m, w) = (Ok false, (m, w)).
Proof.
  intros E1 E2. unfold Manager.is_initialized, self, gets, bind, try_catch. simpl.
  erewrite lift_run by (eapply Repo_open_plain; eauto). reflexivity.
Qed.

Lemma is_initialized_missing m w :
  fs w !! repo_path m = None ->
  Manager.is_initialized (m, w) = (Raise (NoSuchPathError (repo_path m)), (m, w)).
Proof.
  intros E. unfold Manager.is_initialized, self, gets, bind, try_catch. simpl.
  erewrite lift_run by (eapply Repo_open_missing; eauto). reflexivity.
Qed.

End BackendFacts.

(** ** C3: an unknown rollback mode is refused before anything is written *)

(** C3. For every target and every mode outside soft, mixed and hard,
    [rollback] raises and leaves the world as it was: the files, the
    repository and the list of commands sent to the backend are those from
    before the call, so no reset was issued. On a repository the exception is
    the validation error naming the three accepted modes. *)
Theorem rollback_rejects_unknown_mode `{GitEngine}
    (m : GitManager) (w : World) (target mode : string) :
  mode ∉ Manager.valid_modes ->
  let out := Manager.rollback target mode (m, w) in
  (exists e, fst out = Raise e)
  /\ snd (snd out) = w
  /\ calls (snd (snd out)) = calls w
  /\ (session_ok m -> is_Some (repo_at w (repo_path m)) ->
      fst out = Raise (ValueError "Mode must be one of: ['soft', 'mixed', 'hard']")).
Proof.
  intros Hmode out.
  assert (Hdec : bool_decide (mode ∈ Manager.valid_modes) = false)
    by (now apply bool_decide_eq_false).
  assert (Hw : snd (snd out) = w).
  { subst out. unfold Manager.rollback, bind.
    pose proof (repo_world m w) as E.
    destruct (Manager.repo (m, w)) as [[r|e] s]; simpl in *; [|exact E].
    rewrite Hdec. simpl. exact E. }
  split; [|split; [exact Hw|split; [now rewrite Hw|]]].
  - subst out. unfold Manager.rollback, bind.
    destruct (Manager.repo (m, w)) as [[r|e] s]; simpl; [|eauto].
    rewrite Hdec. simpl. eauto.
  - intros Hs [[d g] Hr]. subst out. unfold Manager.rollback.
    erewrite bind_Ok by (eapply repo_opens; eauto).
    rewrite Hdec. reflexivity.
Qed.


(** ** C8: initialising twice *)

Create HintDb keeps.

Section Keeps.
Context `{GitEngine}.
Variable p : string.

Lemma has_repo_set_dir q t g w :
  has_repo p w -> has_repo p (set_dir q (mkDir t (Some g)) w).
Proof.
  intros [[d0 g0] [E1 E2]%repo_at_Some]. unfold has_repo, repo_at, set_dir. simpl.
  destruct (decide (q = p)) as [->|Hne].
  - rewrite lookup_insert_eq. simpl. eauto.
  - rewrite lookup_insert_ne by exact Hne. rewrite E1. simpl. rewrite E2. simpl. eauto.
Qed.

Lemma keeps_ret {A} (a : A) : keeps p (ret a).
Proof. intros w Hw. exact Hw. Qed.

Lemma keeps_raise {A} e : keeps p (@raise World A e).
Proof. intros w Hw. exact Hw. Qed.

Lemma keeps_gets {A} (f : World -> A) : keeps p (gets f).
Proof. intros w Hw. exact Hw. Qed.

Lemma keeps_bind {A B} (c : SE World A) (k : A -> SE World B) :
  keeps p c -> (forall a, keeps p (k a)) -> keeps p (bind c k).
Proof.
  intros Hc Hk w Hw. unfold bind. specialize (Hc w Hw).
  destruct (c w) as [[a|e] w']; simpl in *; [|exact Hc].
  now apply Hk.
Qed.

Lemma keeps_log_call c : keeps p (log_call c).
Proof. intros w Hw. exact Hw. Qed.

Lemma keeps_repo_state r : keeps p (repo_state r).
Proof.
  intros w Hw. unfold repo_state.
  destruct (fs w !! working_dir r) as [d|]; [|exact Hw].
  now destruct (dotgit d).
Qed.

Lemma keeps_put_repo r t g : keeps p (put_repo r t g).
Proof. intros w Hw. now apply has_repo_set_dir. Qed.

Lemma keeps_write_text q f c : keeps p (write_text q f c).
Proof.
  intros w Hw. unfold write_text.
  destruct (fs w !! q) as [d|] eqn:Eq; [|exact Hw]. simpl.
  destruct Hw as [[d0 g0] [E1 E2]%repo_at_Some].
  unfold has_repo, repo_at, set_dir. simpl.
  destruct (decide (q = p)) as [->|Hne].
  - rewrite lookup_insert_eq. simpl. rewrite Eq in E1. injection E1 as ->.
    rewrite E2. simpl. eauto.
  - rewrite lookup_insert_ne by exact Hne. rewrite E1. simpl. rewrite E2. simpl. eauto.
Qed.

Hint Resolve keeps_ret keeps_raise keeps_gets keeps_log_call keeps_repo_state
  keeps_put_repo keeps_write_text : keeps.

Ltac keeps_step :=
  first [ apply keeps_bind; [|intros ?] | solve [auto with keeps] ].

Lemma keeps_index_add r items : keeps p (index_add r items).
Proof.
  unfold index_add. repeat keeps_step.
  destruct (stage _ _ _); auto with keeps.
Qed.

Lemma keeps_untracked r : keeps p (repo_untracked_files r).
Proof. unfold repo_untracked_files. repeat keeps_step. Qed.

Lemma keeps_iter_commits r rev n : keeps p (iter_commits r rev n).
Proof.
  unfold iter_commits. repeat keeps_step.
  destruct (rev_commit _ _); auto with keeps.
Qed.

Lemma keeps_index_commit r msg : keeps p (index_commit r msg).
Proof. unfold index_commit. repeat keeps_step. Qed.

Lemma keeps_file_exists q f : keeps p (file_exists q f).
Proof. apply keeps_gets. Qed.

(** methods *)

Lemma keepsM_lift {A} (c : SE World A) : keeps p c -> keepsM p (lift c).
Proof.
  intros Hc m w Hm Hw. unfold lift. simpl. specialize (Hc w Hw).
  destruct (c w) as [r w']; simpl in *. auto.
Qed.

Lemma keepsM_ret {A} (a : A) : keepsM p (ret a).
Proof. intros m w Hm Hw. simpl. auto. Qed.

Lemma keepsM_set_repo r : keepsM p (set_repo r).
Proof. intros m w Hm Hw. simpl. auto. Qed.

Lemma keepsM_bind {A B} (c : Meth A) (k : A -> Meth B) :
  keepsM p c -> (forall a, keepsM p (k a)) -> keepsM p (bind c k).
Proof.
  intros Hc Hk m w Hm Hw. unfold bind. specialize (Hc m w Hm Hw).
  destruct (c (m, w)) as [[a|e] [m' w']]; simpl in *; [|exact Hc].
  destruct Hc. now apply Hk.
Qed.

Lemma keepsM_try {A} (c : Meth A) (h : exn -> Meth A) :
  keepsM p c -> (forall e, keepsM p (h e)) -> keepsM p (try_catch c h).
Proof.
  intros Hc Hh m w Hm Hw. unfold try_catch. specialize (Hc m w Hm Hw).
  destruct (c (m, w)) as [[a|e] [m' w']]; simpl in *; [exact Hc|].
  destruct Hc. now apply Hh.
Qed.

(** what [initialize] does once the repository is created *)
Lemma keepsM_initial_commit r :
  keepsM p
    (let* readme := lift (file_exists p "README.md") in
     let* _ := (if negb readme then
                  let* _ := lift (write_text p "README.md" Manager.readme_text) in
                  lift (index_add r ["README.md"])
                else ret tt) in
     let* u := lift (repo_untracked_files r) in
     let* _ := (if Py.nonempty u then
                  let* u' := lift (repo_untracked_files r) in
                  lift (index_add r u')
                else ret tt) in
     let* has_commits :=
       try_catch (let* cs := lift (iter_commits r None None) in ret (Py.nonempty cs))
                 (fun _ => ret false) in
     if negb has_commits then
       try_catch
         (let* c := lift (index_commit r "Initial commit") in
          ret (Some ("Initialized repository with initial commit: "
                     ++ Py.prefix 7 (hexsha c))))
         (fun _ => ret None)
     else ret None).
Proof.
  apply keepsM_bind; [apply keepsM_lift, keeps_file_exists|]. intros readme.
  apply keepsM_bind.
  { destruct readme; simpl; [apply keepsM_ret|].
    apply keepsM_bind; [apply keepsM_lift, keeps_write_text|]. intros _.
    apply keepsM_lift, keeps_index_add. }
  intros _. apply keepsM_bind; [apply keepsM_lift, keeps_untracked|]. intros u.
  apply keepsM_bind.
  { destruct (Py.nonempty u); [|apply keepsM_ret].
    apply keepsM_bind; [apply keepsM_lift, keeps_untracked|]. intros u'.
    apply keepsM_lift, keeps_index_add. }
  intros _. apply keepsM_bind.
  { apply keepsM_try; [|intros; apply keepsM_ret].
    apply keepsM_bind; [apply keepsM_lift, keeps_iter_commits|].
    intros; apply keepsM_ret. }
  intros has_commits. destruct has_commits; simpl; [apply keepsM_ret|].
  apply keepsM_try; [|intros; apply keepsM_ret].
  apply keepsM_bind; [apply keepsM_lift, keeps_index_commit|].
  intros; apply keepsM_ret.
Qed.

End Keeps.

Section Initialize.
Context `{GitEngine}.

(** On an existing repository [initialize] answers and touches nothing. *)
Lemma initialize_existing (m : GitManager) (w : World) (b : bool) :
  has_repo (repo_path m) w ->
  Manager.initialize b (m, w) = (Ok (already_msg m), (m, w)).
Proof.
  intros [[d g] Hr]. pose proof Hr as [E1 E2]%repo_at_Some.
  unfold Manager.initialize.
  unfold self at 1. unfold gets at 1. unfold bind at 1.
  assert (Hex : lift (path_exists (repo_path m)) (m, w) = (Ok true, (m, w))).
  { apply lift_run. unfold path_exists, gets. rewrite E1.
    rewrite bool_decide_eq_true_2 by eauto. reflexivity. }
  erewrite bind_Ok by exact Hex. simpl negb. cbv iota.
  erewrite bind_Ok by reflexivity.
  erewrite bind_Ok by (eapply is_initialized_repo; eauto).
  reflexivity.
Qed.

(** Whatever [initialize] did, a repository is there afterwards. *)
Lemma initialize_leaves_repo (m : GitManager) (w : World) (b : bool) :
  let s := snd (Manager.initialize b (m, w)) in
  repo_path (fst s) = repo_path m /\ has_repo (repo_path m) (snd s).
Proof.
  destruct (repo_at w (repo_path m)) as [[d g]|] eqn:Hr.
  { rewrite initialize_existing by (red; rewrite Hr; eauto). simpl.
    split; [reflexivity|]. red. rewrite Hr. eauto. }
  set (p := repo_path m) in *.
  set (w1 := match fs w !! p with Some _ => w | None => set_dir p (mkDir ∅ None) w end).
  assert (Hplain : exists d1, fs w1 !! p = Some d1 /\ dotgit d1 = None).
  { subst w1. unfold repo_at in Hr. destruct (fs w !! p) as [d|] eqn:E.
    - exists d. split; [exact E|]. simpl in Hr. now destruct (dotgit d).
    - exists (mkDir ∅ None). split; [|reflexivity]. simpl. apply lookup_insert_eq. }
  destruct Hplain as (d1 & E1 & E2).
  intros s. subst s.
  generalize (eq_refl (Manager.initialize b (m, w))).
  generalize (Manager.initialize b (m, w)) at 2 3 4. intros out Hout.
  unfold Manager.initialize in Hout.
  unfold self at 1 in Hout. unfold gets at 1 in Hout. unfold bind at 1 in Hout.
  cbv beta iota in Hout. simpl fst in Hout. fold p in Hout.
  assert (Hpre : forall (K : unit -> Meth string),
             bind (lift (path_exists p))
               (fun ex => bind (if negb ex then lift (mkdir p) else ret tt) K) (m, w)
             = K tt (m, w1)).
  { intros K. unfold bind, lift, path_exists, gets, mkdir, modify, ret. simpl. subst w1.
    destruct (fs w !! p) as [d|] eqn:E.
    - rewrite bool_decide_eq_true_2 by eauto. reflexivity.
    - rewrite bool_decide_eq_false_2 by (intros [? ?]; discriminate). simpl.
      now rewrite E. }
  rewrite Hpre in Hout. clear Hpre.
  erewrite bind_Ok in Hout by (eapply is_initialized_plain; eauto). cbv iota in Hout.
  set (w2 := set_dir p (mkDir (worktree d1) (Some empty_git))
               (mkWorld (fs w1) (calls w1 ++ [CallInit p]) (clock w1))).
  assert (Hinit : lift (Repo_init p) (m, w1) = (Ok (mkRepo p), (m, w2))).
  { apply lift_run. unfold Repo_init, bind, log_call, modify. simpl.
    rewrite E1. simpl. rewrite E2. reflexivity. }
  erewrite bind_Ok in Hout by exact Hinit.
  erewrite bind_Ok in Hout by reflexivity.
  assert (Hw2 : has_repo p w2).
  { subst w2. red. unfold repo_at, set_dir. simpl. rewrite lookup_insert_eq. simpl. eauto. }
  simpl fst in Hout. simpl snd in Hout. fold p in Hout.
  set (m2 := mkGitManager p (Some (mkRepo p))) in Hout.
  match type of Hout with
  | bind ?c ?k (m2, _) = _ => assert (Hk : keepsM p (bind c k))
  end.
  { apply keepsM_bind.
    - destruct b; [apply keepsM_initial_commit|apply keepsM_ret].
    - intros [s|]; apply keepsM_ret. }
  rewrite <- Hout. apply (Hk m2 w2); [reflexivity|exact Hw2].
Qed.

(** C8. [initialize] is idempotent: where a repository already exists it
    returns the already-initialized message and changes neither the world
    nor the manager, for both values of the flag; and a call that follows
    any first call finds the repository and is such a no-op. *)
Theorem initialize_idempotent (m : GitManager) (w : World) (b : bool) :
  (has_repo (repo_path m) w ->
   Manager.initialize b (m, w) = (Ok (already_msg m), (m, w)))
  /\ (forall b0 : bool,
        let s1 := snd (Manager.initialize b0 (m, w)) in
        Manager.initialize b s1 = (Ok (already_msg m), s1)).
Proof.
  split; [apply initialize_existing|].
  intros b0 s1. destruct (initialize_leaves_repo m w b0) as [Hp Hr].
  fold s1 in Hp, Hr. destruct s1 as [m1 w1]. simpl in Hp, Hr.
  rewrite initialize_existing by (rewrite Hp; exact Hr).
  unfold already_msg. now rewrite Hp.
Qed.

End Initialize.

(** ** Status and commit on a repository *)

Section StatusFacts.
Context `{GitEngine}.

Lemma rev_commit_no_objects (g : GitDir) (rev : string) :
  objects g = ∅ -> rev_commit g rev = None.
Proof.
  intros Ho. unfold rev_commit. destruct (rev_sha g rev) as [s|]; simpl; [|reflexivity].
  rewrite Ho. apply lookup_empty.
Qed.

(** what HEAD resolves to depends on the objects, the branches and HEAD *)
Lemma rev_commit_HEAD_eq (g g' : GitDir) :
  objects g' = objects g -> heads g' = heads g -> HEAD g' = HEAD g ->
  rev_commit g' "HEAD" = rev_commit g "HEAD".
Proof.
  intros Eo Eh EH. unfold rev_commit, rev_sha, head_sha. simpl.
  now rewrite Eo, Eh, EH.
Qed.

Lemma index_diff_rev_run p w d g rev :
  repo_at w p = Some (d, g) ->
  index_diff_rev (mkRepo p) rev w
  = (match rev_commit g rev with
     | Some c => Ok (diff_trees (index g) (tree c))
     | None => Raise (BadName rev)
     end, w).
Proof.
  intros Hr. unfold index_diff_rev.
  erewrite bind_Ok by (eapply repo_state_repo; eauto). simpl.
  now destruct (rev_commit g rev).
Qed.

Lemma branch_or_run m p w d g fallback :
  repo_at w p = Some (d, g) ->
  Manager.branch_or (mkRepo p) fallback (m, w)
  = (Ok (match HEAD g with Attached b => b | Detached _ => fallback end), (m, w)).
Proof.
  intros Hr. unfold Manager.branch_or, try_catch, lift, active_branch_name. simpl.
  erewrite bind_Ok by (eapply repo_state_repo; eauto). simpl.
  now destruct (HEAD g).
Qed.

(** [get_status] on a repository whose HEAD has no commit *)
Lemma get_status_unborn m w d g :
  session_ok m -> repo_at w (repo_path m) = Some (d, g) ->
  rev_commit g "HEAD" = None ->
  Manager.get_status (m, w) = (Raise (BadName "HEAD"), (opened m, w)).
Proof.
  intros Hs Hr Hu. unfold Manager.get_status.
  erewrite bind_Ok by (eapply is_initialized_repo; eauto). cbv beta. cbn [negb]. cbv iota.
  erewrite bind_Ok by (eapply repo_opens; eauto).
  erewrite bind_Ok by (eapply branch_or_run; eauto).
  erewrite bind_Raise; [reflexivity|].
  apply lift_run. erewrite index_diff_rev_run by eauto. now rewrite Hu.
Qed.

Lemma git_add_all_run p w d g :
  repo_at w p = Some (d, g) ->
  git_add_all (mkRepo p) w = (Ok tt, added p d g w).
Proof.
  intros Hr. unfold git_add_all, bind, log_call, modify. simpl.
  assert (Hr' : repo_at (mkWorld (fs w) (calls w ++ [CallAddAll p]) (clock w)) p
                = Some (d, g)) by exact Hr.
  rewrite (repo_state_repo _ _ _ _ Hr'). reflexivity.
Qed.

Lemma repo_at_set_dir p t g w :
  repo_at (set_dir p (mkDir t (Some g)) w) p = Some (mkDir t (Some g), g).
Proof. unfold repo_at, set_dir. simpl. now rewrite lookup_insert_eq. Qed.

(** [commit_all] on a repository whose HEAD has no commit: the files are
    staged, then the comparison with HEAD raises; no commit is made. *)
Lemma commit_all_unborn m w d g msg :
  session_ok m -> repo_at w (repo_path m) = Some (d, g) ->
  rev_commit g "HEAD" = None ->
  Manager.commit_all msg (m, w)
  = (Raise (BadName "HEAD"), (opened m, added (repo_path m) d g w)).
Proof.
  intros Hs Hr Hu. unfold Manager.commit_all.
  erewrite bind_Ok by (eapply repo_opens; eauto).
  erewrite bind_Ok by (apply lift_run; eapply git_add_all_run; eauto).
  erewrite bind_Raise; [reflexivity|].
  apply lift_run. erewrite index_diff_rev_run by apply repo_at_set_dir.
  rewrite (rev_commit_HEAD_eq g) by reflexivity. now rewrite Hu.
Qed.

Lemma initialize_false_plain m w d :
  fs w !! repo_path m = Some d -> dotgit d = None ->
  Manager.initialize false (m, w)
  = (Ok ("Initialized empty git repository at " ++ repo_path m),
     (opened m, initialized_empty (repo_path m) d w)).
Proof.
  intros E1 E2. unfold Manager.initialize.
  unfold self at 1. unfold gets at 1. unfold bind at 1. cbv beta iota. simpl fst.
  erewrite bind_Ok; cycle 1.
  { apply lift_run. unfold path_exists, gets. rewrite E1.
    rewrite bool_decide_eq_true_2 by eauto. reflexivity. }
  cbv beta. cbn [negb]. cbv iota. erewrite bind_Ok by reflexivity.
  erewrite bind_Ok by (eapply is_initialized_plain; eauto). cbv iota.
  erewrite bind_Ok; cycle 1.
  { apply lift_run. unfold Repo_init, bind, log_call, modify. simpl.
    rewrite E1. simpl. rewrite E2. reflexivity. }
  reflexivity.
Qed.

End StatusFacts.

(** ** C10: a repository without commits *)

(** [commit_all_changes] on a directory that is no repository: it is
    initialized without a commit, everything is staged, and the comparison
    with HEAD raises. *)
Lemma commit_all_changes_plain `{GitEngine} (p msg : string) (w : World) (d : Dir) :
  fs w !! resolve_path p = Some d -> dotgit d = None ->
  Tools.commit_all_changes p msg w
  = (Raise (BadName "HEAD"),
     added (resolve_path p) (mkDir (worktree d) (Some empty_git)) empty_git
       (initialized_empty (resolve_path p) d w)).
Proof.
  intros E1 E2.
  set (m0 := Manager.GitManager_init p).
  set (w1 := added _ _ _ _).
  assert (Hrun :
    bind Manager.is_initialized
      (fun init => bind (if negb init
                         then bind (Manager.initialize false) (fun _ => ret tt)
                         else ret tt)
                        (fun _ => Manager.commit_all msg)) (m0, w)
    = (Raise (BadName "HEAD"), (opened m0, w1))).
  { erewrite bind_Ok by (eapply is_initialized_plain; eauto). cbv beta. cbn [negb]. cbv iota.
    erewrite bind_Ok; cycle 1.
    { erewrite bind_Ok by (eapply initialize_false_plain; eauto). reflexivity. }
    apply (commit_all_unborn (opened m0)).
    - apply session_ok_opened.
    - apply repo_at_set_dir.
    - reflexivity. }
  unfold Tools.commit_all_changes, call_on. fold m0.
  unfold bind at 1. now rewrite Hrun.
Qed.

(** C10. On an initialized repository that holds no commit, [get_status]
    and [commit_all] raise (the name HEAD does not resolve when the index is
    compared with it) instead of returning a status or the no-changes
    string; and [commit_all_changes] on a directory that is not yet a
    repository initializes it and then fails in the same way. *)
Theorem unborn_head_raises `{GitEngine}
    (m : GitManager) (w : World) (d : Dir) (g : GitDir) (msg : string) :
  session_ok m -> repo_at w (repo_path m) = Some (d, g) -> objects g = ∅ ->
  fst (Manager.get_status (m, w)) = Raise (BadName "HEAD")
  /\ fst (Manager.commit_all msg (m, w)) = Raise (BadName "HEAD")
  /\ (forall (p : string) (w0 : World) (d0 : Dir),
        fs w0 !! resolve_path p = Some d0 -> dotgit d0 = None ->
        fst (Tools.commit_all_changes p msg w0) = Raise (BadName "HEAD")
        /\ has_repo (resolve_path p) (snd (Tools.commit_all_changes p msg w0))).
Proof.
  intros Hs Hr Ho. pose proof (rev_commit_no_objects g "HEAD" Ho) as Hu.
  split; [now rewrite (get_status_unborn m w d g)|].
  split; [now rewrite (commit_all_unborn m w d g)|].
  intros p w0 d0 E1 E2.
  rewrite (commit_all_changes_plain p msg w0 d0 E1 E2). cbn [fst snd].
  split; [reflexivity|].
  red. unfold added. rewrite repo_at_set_dir. eauto.
Qed.

(** ** [commit_all] where HEAD has a commit *)

Section CommitAll.
Context `{GitEngine}.

Lemma filter_none {A} (P : A -> Prop) `{!forall x, Decision (P x)} (l : list A) :
  Forall (fun x => ~ P x) l -> filter P l = [].
Proof.
  induction 1 as [|x l Hx _ IH]; [reflexivity|].
  rewrite filter_cons. destruct (decide (P x)); [contradiction|exact IH].
Qed.

(** after a full add nothing is untracked *)
Lemma untracked_after_add (d : Dir) (g : GitDir) :
  index g = worktree d -> untracked_of d g = [].
Proof.
  intros Hi. unfold untracked_of. apply filter_none. rewrite Hi.
  apply Forall_forall. intros p Hp.
  apply list_elem_of_In, in_map_iff in Hp as ([q c] & <- & Hqc).
  apply list_elem_of_In, elem_of_map_to_list in Hqc. simpl. now rewrite Hqc.
Qed.

Lemma head_sha_move_head (g : GitDir) (s : string) :
  head_sha (move_head g s) = Some s.
Proof.
  unfold head_sha, move_head. destruct (HEAD g) as [b|s0] eqn:E; simpl.
  - apply lookup_insert_eq.
  - reflexivity.
Qed.

Lemma index_commit_run p w d g msg :
  repo_at w p = Some (d, g) ->
  index_commit (mkRepo p) msg w = (Ok (new_commit g msg (clock w)), committed p d g msg w).
Proof.
  intros Hr. unfold index_commit, bind, log_call, modify, gets. simpl.
  assert (Hr' : repo_at (mkWorld (fs w) (calls w ++ [CallCommit p msg]) (clock w)) p
                = Some (d, g)) by exact Hr.
  rewrite (repo_state_repo _ _ _ _ Hr'). reflexivity.
Qed.

(** Where HEAD has a commit, [commit_all] stages everything and then
    either finds the index equal to that commit and returns the
    no-changes string without committing, or commits the index under the
    given message, moves HEAD to the new commit and returns its id. *)
Lemma commit_all_with_head m w d g hc msg :
  session_ok m -> repo_at w (repo_path m) = Some (d, g) ->
  rev_commit g "HEAD" = Some hc ->
  let p := repo_path m in
  let w1 := added p d g w in
  Manager.commit_all msg (m, w)
  = if Py.nonempty (diff_trees (worktree d) (tree hc))
    then (Ok (hexsha (new_commit (staged_all d g) msg (clock w))),
          (opened m, committed p (mkDir (worktree d) (Some (staged_all d g)))
                       (staged_all d g) msg w1))
    else (Ok "No changes to commit", (opened m, w1)).
Proof.
  intros Hs Hr Hh p w1. unfold Manager.commit_all.
  erewrite bind_Ok by (eapply repo_opens; eauto).
  erewrite bind_Ok by (apply lift_run; eapply git_add_all_run; eauto).
  fold p. fold w1.
  assert (Hr1 : repo_at w1 p = Some (mkDir (worktree d) (Some (staged_all d g)),
                                     staged_all d g)) by apply repo_at_set_dir.
  erewrite bind_Ok; cycle 1.
  { apply lift_run. erewrite index_diff_rev_run by exact Hr1.
    rewrite (rev_commit_HEAD_eq g) by reflexivity. rewrite Hh. reflexivity. }
  cbv beta. cbn [index staged_all].
  destruct (Py.nonempty (diff_trees (worktree d) (tree hc))) eqn:Ed.
  - erewrite bind_Ok by reflexivity. cbv beta iota.
    erewrite bind_Ok by (apply lift_run; eapply index_commit_run; exact Hr1).
    reflexivity.
  - erewrite bind_Ok; cycle 1.
    { erewrite bind_Ok; cycle 1.
      { apply lift_run. unfold repo_untracked_files.
        erewrite bind_Ok by (eapply repo_state_repo; exact Hr1). reflexivity. }
      cbn [fst snd]. rewrite untracked_after_add by reflexivity. reflexivity. }
    reflexivity.
Qed.


End CommitAll.

(** ** C4 and C6: the diff between two commits *)

Lemma sumZ_app (l1 l2 : list Z) : sumZ (l1 ++ l2) = sumZ l1 + sumZ l2.
Proof. induction l1 as [|x l1 IH]; simpl; [reflexivity|]. rewrite IH. lia. Qed.

Section Compare.
Context `{GitEngine}.

(** a line cannot open with both signs *)
Lemma plus_not_minus (line : string) :
  Py.startswith "+" line = true -> Py.startswith "-" line = false.
Proof.
  destruct line as [|a rest]; cbn [Py.startswith]; [discriminate|].
  destruct (Ascii.eqb "+" a) eqn:E; [|discriminate].
  apply Ascii.eqb_eq in E. subst a. reflexivity.
Qed.

(** the line loop adds to each counter the number of lines of its sign *)
Lemma count_lines_filter (lines : list string) (a d : Z) :
  Manager.count_lines lines a d
  = (a + Z.of_nat (length (List.filter (signed_line "+") lines)),
     d + Z.of_nat (length (List.filter (signed_line "-") lines))).
Proof.
  revert a d. induction lines as [|line rest IH]; intros a d.
  - simpl. f_equal; lia.
  - cbn [Manager.count_lines List.filter].
    change (Py.startswith "+" line && negb (Py.startswith "+++" line))
      with (signed_line "+" line).
    change (Py.startswith "-" line && negb (Py.startswith "---" line))
      with (signed_line "-" line).
    destruct (signed_line "+" line) eqn:Ep; destruct (signed_line "-" line) eqn:Em;
      rewrite IH; cbn [length]; try (f_equal; lia).
    exfalso. unfold signed_line in Ep, Em.
    apply andb_prop in Ep as [Ep _]. apply andb_prop in Em as [Em _].
    rewrite (plus_not_minus line Ep) in Em. discriminate.
Qed.

Lemma split_empty c : Py.split c "" = [""].
Proof. reflexivity. Qed.

Lemma patch_counts_signed (p : option string) :
  Manager.patch_counts p = (count_signed "+" p, count_signed "-" p).
Proof.
  destruct p as [text|]; [|reflexivity]. unfold Manager.patch_counts, count_signed.
  destruct text as [|a text]; [reflexivity|]. cbn [Py.truthy].
  rewrite count_lines_filter. f_equal.
Qed.

Lemma compare_loop_spec (diffs : list Diff) :
  forall fcs ta td s res s',
    Manager.compare_loop diffs fcs ta td s = (Ok res, s') ->
    s' = s
    /\ exists new : list Models.FileChange,
         fst (fst res) = (fcs ++ new)%list
         /\ Forall2 entry_of diffs new
         /\ snd (fst res) = ta + sumZ (map Models.additions new)
         /\ snd res = td + sumZ (map Models.deletions new).
Proof.
  induction diffs as [|d rest IH]; intros fcs ta td s res s' Hrun.
  - injection Hrun as <- <-. split; [reflexivity|]. exists []. simpl.
    rewrite app_nil_r. repeat split; try constructor; lia.
  - cbn [Manager.compare_loop] in Hrun. unfold bind at 1 in Hrun.
    destruct (Py.or_else (b_path d) (a_path d)) as [fname|] eqn:Ef;
      cbn [require_str ret raise] in Hrun; [|discriminate Hrun].
    apply IH in Hrun as (-> & new & Hf & Hall & Ha & Hd).
    split; [reflexivity|].
    set (fc := Models.mkFileChange fname (Manager.diff_status d)
                 (fst (Manager.patch_counts (Manager.diff_patch d)))
                 (snd (Manager.patch_counts (Manager.diff_patch d)))
                 (Manager.diff_patch d)) in *.
    exists (fc :: new). rewrite Hf, Ha, Hd.
    split; [now rewrite <- app_assoc|]. split.
    + constructor; [|exact Hall]. subst fc. unfold entry_of. cbn.
      rewrite patch_counts_signed. cbn. rewrite Ef. auto.
    + subst fc. unfold sumZ. cbn [map foldr Models.additions Models.deletions].
      split; lia.
Qed.

Lemma compare_loop_total (diffs : list Diff) :
  Forall (fun d => is_Some (Py.or_else (b_path d) (a_path d))) diffs ->
  forall fcs ta td s, exists res, Manager.compare_loop diffs fcs ta td s = (Ok res, s).
Proof.
  induction 1 as [|d rest [fname Ef] _ IH]; intros fcs ta td s.
  - eexists. reflexivity.
  - cbn [Manager.compare_loop]. unfold bind at 1. rewrite Ef. cbn [require_str ret].
    apply IH.
Qed.

Lemma repo_commit_run p w d g rev :
  repo_at w p = Some (d, g) ->
  repo_commit (mkRepo p) rev w
  = (match rev_commit g rev with Some c => Ok c | None => Raise (BadName rev) end, w).
Proof.
  intros Hr. unfold repo_commit.
  erewrite bind_Ok by (eapply repo_state_repo; eauto). simpl.
  now destruct (rev_commit g rev).
Qed.

(** [compare_commits] on two names that resolve: it returns as soon as
    every entry has a path, and what it returns is built from the entries
    of the diff between the two commits. *)
Lemma compare_commits_run m w d g a b ca cb :
  session_ok m -> repo_at w (repo_path m) = Some (d, g) ->
  rev_commit g a = Some ca -> rev_commit g b = Some cb ->
  (Forall (fun e => is_Some (Py.or_else (b_path e) (a_path e))) (commit_diff ca cb) ->
   exists cd, Manager.compare_commits a b (m, w) = (Ok cd, (opened m, w)))
  /\ (forall cd s, Manager.compare_commits a b (m, w) = (Ok cd, s) ->
        s = (opened m, w)
        /\ Models.from_commit cd = a /\ Models.to_commit cd = b
        /\ Forall2 entry_of (commit_diff ca cb) (Models.files cd)
        /\ Models.total_additions cd = sumZ (map Models.additions (Models.files cd))
        /\ Models.total_deletions cd = sumZ (map Models.deletions (Models.files cd))
        /\ Models.summary cd = summary_of (Models.files cd)).
Proof.
  intros Hs Hr Ha Hb.
  assert (Hends :
    Manager.compare_commits a b (m, w)
    = bind (ret (ca, cb))
        (fun ends => bind (Manager.compare_loop (commit_diff (fst ends) (snd ends)) [] 0 0)
           (fun acc =>
              ret (Models.mkCommitDiff a b (fst (fst acc)) (snd (fst acc)) (snd acc)
                     (Manager.str_int (Z.of_nat (length (fst (fst acc))))
                      ++ " files changed, " ++ Manager.str_int (snd (fst acc))
                      ++ " insertions(+), " ++ Manager.str_int (snd acc)
                      ++ " deletions(-)")))) (opened m, w)).
  { unfold Manager.compare_commits.
    erewrite bind_Ok by (eapply repo_opens; eauto). cbv beta.
    unfold bind at 1. unfold try_catch.
    unfold bind at 1. erewrite lift_run by (eapply repo_commit_run; eauto).
    rewrite Ha. unfold bind at 1.
    erewrite lift_run by (eapply repo_commit_run; eauto). rewrite Hb.
    reflexivity. }
  rewrite Hends. clear Hends. unfold bind at 1 3. cbn [ret fst snd].
  split.
  - intros Hall.
    destruct (compare_loop_total _ Hall [] 0 0 (opened m, w)) as [res Hres].
    eexists. unfold bind. rewrite Hres. reflexivity.
  - intros cd s Hrun. unfold bind in Hrun.
    destruct (Manager.compare_loop (commit_diff ca cb) [] 0 0 (opened m, w))
      as [[res|e] s0] eqn:Hloop; [|discriminate Hrun].
    apply compare_loop_spec in Hloop as (-> & new & Hf & Hall & Hta & Htd).
    injection Hrun as <- <-.
    cbn [Models.from_commit Models.to_commit Models.files Models.total_additions
         Models.total_deletions Models.summary].
    simpl in Hf. subst new. rewrite Hta, Htd, !Z.add_0_l. unfold summary_of.
    repeat split; try assumption; reflexivity.
Qed.

(** C4. For two identifiers that resolve, [compare_commits] returns (as
    soon as every diff entry names a path), and the record it returns has
    [total_additions] and [total_deletions] equal to the sums of the
    per-file counts, a summary that prints the number of files and those two
    totals in the fixed wording, and the two identifiers echoed as given. *)
Theorem compare_commits_totals (m : GitManager) (w : World) (d : Dir) (g : GitDir)
    (a b : string) (ca cb : Commit) :
  session_ok m -> repo_at w (repo_path m) = Some (d, g) ->
  rev_commit g a = Some ca -> rev_commit g b = Some cb ->
  (Forall (fun e => is_Some (Py.or_else (b_path e) (a_path e))) (commit_diff ca cb) ->
   exists cd, fst (Manager.compare_commits a b (m, w)) = Ok cd)
  /\ (forall cd, fst (Manager.compare_commits a b (m, w)) = Ok cd ->
        Models.total_additions cd = sumZ (map Models.additions (Models.files cd))
        /\ Models.total_deletions cd = sumZ (map Models.deletions (Models.files cd))
        /\ Models.summary cd
           = Manager.str_int (Z.of_nat (length (Models.files cd))) ++ " files changed, "
             ++ Manager.str_int (Models.total_additions cd) ++ " insertions(+), "
             ++ Manager.str_int (Models.total_deletions cd) ++ " deletions(-)"
        /\ Models.from_commit cd = a
        /\ Models.to_commit cd = b).
Proof.
  intros Hs Hr Ha Hb.
  destruct (compare_commits_run m w d g a b ca cb Hs Hr Ha Hb) as [Hex Hprops].
  split.
  - intros Hall. destruct (Hex Hall) as [cd Hcd]. exists cd. now rewrite Hcd.
  - intros cd Hcd.
    destruct (Manager.compare_commits a b (m, w)) as [r s] eqn:Hrun.
    simpl in Hcd. subst r.
    destruct (Hprops cd s eq_refl) as (_ & Hf & Ht & _ & Hta & Htd & Hsum).
    rewrite Hsum. unfold summary_of. rewrite <- Hta, <- Htd. auto.
Qed.

(** C6. Each file entry of the returned diff has its status by the
    precedence added, deleted, renamed, modified, and its additions and
    deletions are the numbers of patch lines that start with + and with -,
    the +++ and --- lines left out; both are 0 when there is no patch. *)
Theorem compare_commits_entries (m : GitManager) (w : World) (d : Dir) (g : GitDir)
    (a b : string) (ca cb : Commit) :
  session_ok m -> repo_at w (repo_path m) = Some (d, g) ->
  rev_commit g a = Some ca -> rev_commit g b = Some cb ->
  forall cd, fst (Manager.compare_commits a b (m, w)) = Ok cd ->
    Forall2 (fun e f =>
               Models.status f = status_by_precedence e
               /\ Models.patch f = Manager.diff_patch e
               /\ Models.additions f = count_signed "+" (Models.patch f)
               /\ Models.deletions f = count_signed "-" (Models.patch f)
               /\ (Models.patch f = None ->
                   Models.additions f = 0 /\ Models.deletions f = 0))
            (commit_diff ca cb) (Models.files cd).
Proof.
  intros Hs Hr Ha Hb cd Hcd.
  destruct (Manager.compare_commits a b (m, w)) as [r s] eqn:Hrun.
  simpl in Hcd. subst r.
  destruct (compare_commits_run m w d g a b ca cb Hs Hr Ha Hb) as [_ Hprops].
  destruct (Hprops cd s Hrun) as (_ & _ & _ & Hall & _).
  eapply Forall2_impl; [exact Hall|].
  intros e f (Hst & Hp & Hadd & Hdel & _).
  split; [exact Hst|]. split; [exact Hp|]. split; [exact Hadd|]. split; [exact Hdel|].
  intros Hnone. rewrite Hadd, Hdel, Hnone. split; reflexivity.
Qed.

End Compare.

(** ** C5: listing commits *)

Section ListCommits.
Context `{GitEngine}.

Lemma limit_commits_length (n : Z) (l : list Commit) :
  0 <= n -> Z.of_nat (length (limit_commits (Some n) l)) <= n.
Proof.
  intros Hn. unfold limit_commits.
  destruct (n <? 0) eqn:E; [apply Z.ltb_lt in E; lia|].
  rewrite length_take. lia.
Qed.

Lemma list_commits_run m w d g ref n c :
  session_ok m -> repo_at w (repo_path m) = Some (d, g) ->
  rev_commit g ref = Some c ->
  Manager.list_commits ref n (m, w)
  = (Ok (let infos := map Manager.commit_info
                        (limit_commits (Some n) (rev_walk (objects g) (hexsha c))) in
         Models.mkCommitList infos (Z.of_nat (length infos)) (branch_label g ref)),
     (opened m, w)).
Proof.
  intros Hs Hr Hc. unfold Manager.list_commits.
  erewrite bind_Ok by (eapply repo_opens; eauto). cbv beta.
  erewrite bind_Ok; cycle 1.
  { apply try_catch_Ok. apply lift_run. unfold iter_commits.
    erewrite bind_Ok by (eapply repo_state_repo; eauto). cbv beta zeta.
    change (default "HEAD" (Some ref)) with ref. cbn [snd].
    rewrite Hc. reflexivity. }
  cbv beta. unfold branch_label. destruct (String.eqb ref "HEAD").
  - erewrite bind_Ok by (eapply branch_or_run; eauto). reflexivity.
  - erewrite bind_Ok by reflexivity. reflexivity.
Qed.

(** C5, as the code has it. For a ref that resolves, [list_commits]
    returns a list whose [total_count] is the number of commits returned,
    at most the limit when the limit is not negative; its [branch] is the
    active branch name when the ref is HEAD and HEAD is attached, the
    fixed label HEAD (detached) when the ref is HEAD and HEAD is detached,
    and the ref as given when it is not HEAD. *)
Theorem list_commits_count_and_label (m : GitManager) (w : World) (d : Dir) (g : GitDir)
    (ref : string) (n : Z) (c : Commit) :
  session_ok m -> repo_at w (repo_path m) = Some (d, g) ->
  rev_commit g ref = Some c ->
  exists cl,
    fst (Manager.list_commits ref n (m, w)) = Ok cl
    /\ Models.total_count cl = Z.of_nat (length (Models.commits cl))
    /\ (0 <= n -> Models.total_count cl <= n)
    /\ (forall b, ref = "HEAD" -> HEAD g = Attached b -> Models.branch cl = b)
    /\ (forall s, ref = "HEAD" -> HEAD g = Detached s ->
          Models.branch cl = "HEAD (detached)")
    /\ (ref <> "HEAD" -> Models.branch cl = ref).
Proof.
  intros Hs Hr Hc. rewrite (list_commits_run m w d g ref n c Hs Hr Hc).
  eexists. split; [reflexivity|]. cbn [Models.total_count Models.commits Models.branch].
  split; [reflexivity|]. split.
  { intros Hn. rewrite length_map. now apply limit_commits_length. }
  unfold branch_label. split; [|split].
  - intros b -> Hb. now rewrite Hb.
  - intros s -> Hd. now rewrite Hd.
  - intros Hne. apply String.eqb_neq in Hne. now rewrite Hne.
Qed.

End ListCommits.

(** ** C9: creating a branch *)

Section CreateBranch.
Context `{GitEngine}.

Lemma require_strs_state {S T} field l (s : S) (t : T) :
  snd (require_strs field l s) = s
  /\ fst (require_strs field l s) = fst (require_strs field l t).
Proof.
  induction l as [|o l IH]; [split; reflexivity|].
  cbn [require_strs]. unfold bind. destruct o as [x|]; cbn; [|auto].
  destruct IH as [IH1 IH2].
  destruct (require_strs field l s) as [[r|e] s1], (require_strs field l t) as [[r'|e'] t1];
    cbn in *; subst; try discriminate; auto; injection IH2 as ->; auto.
Qed.

Lemma get_status_run m w d g :
  session_ok m -> repo_at w (repo_path m) = Some (d, g) ->
  Manager.get_status (m, w) = (status_of d g, (opened m, w)).
Proof.
  intros Hs Hr. unfold status_of.
  destruct (rev_commit g "HEAD") as [hc|] eqn:Hh; [|eapply get_status_unborn; eauto].
  unfold Manager.get_status.
  erewrite bind_Ok by (eapply is_initialized_repo; eauto). cbv beta. cbn [negb]. cbv iota.
  erewrite bind_Ok by (eapply repo_opens; eauto). cbv beta.
  erewrite bind_Ok by (eapply branch_or_run; eauto). cbv beta.
  erewrite bind_Ok; cycle 1.
  { apply lift_run. erewrite index_diff_rev_run by eauto. rewrite Hh. reflexivity. }
  cbv beta.
  erewrite bind_Ok; cycle 1.
  { apply lift_run. unfold index_diff_worktree.
    erewrite bind_Ok by (eapply repo_state_repo; eauto). reflexivity. }
  cbv beta.
  erewrite bind_Ok; cycle 1.
  { apply lift_run. unfold repo_untracked_files.
    erewrite bind_Ok by (eapply repo_state_repo; eauto). reflexivity. }
  cbv beta. cbn [fst snd].
  set (staged := map a_path (diff_trees (index g) (tree hc))).
  set (modified := map a_path (diff_trees (index g) (tracked d g))).
  unfold bind.
  destruct (require_strs_state "staged_files" staged (opened m, w) tt) as [E1 E2].
  destruct (require_strs "staged_files" staged (opened m, w)) as [r1 s1].
  destruct (require_strs "staged_files" staged tt) as [r1' t1].
  cbn in E1, E2. subst s1 r1'. destruct r1 as [staged_s|e]; [|reflexivity].
  destruct t1.
  destruct (require_strs_state "modified_files" modified (opened m, w) tt) as [E3 E4].
  destruct (require_strs "modified_files" modified (opened m, w)) as [r2 s2].
  destruct (require_strs "modified_files" modified tt) as [r2' t2].
  cbn in E3, E4. subst s2 r2'. destruct r2 as [modified_s|e]; reflexivity.
Qed.

End CreateBranch.

Section CreateBranchFrame.
Context `{GitEngine}.

Lemma branch_frame_refl x d g : branch_frame x d g d g.
Proof. unfold branch_frame. auto 10. Qed.

Lemma repo_at_logged w c p :
  repo_at (mkWorld (fs w) (calls w ++ [c]) (clock w)) p = repo_at w p.
Proof. reflexivity. Qed.

Lemma create_head_frame p w d g x start :
  repo_at w p = Some (d, g) ->
  let out := create_head (mkRepo p) x start w in
  exists d' g',
    repo_at (snd out) p = Some (d', g')
    /\ branch_frame x d g d' g'
    /\ (fst out = Ok tt -> is_Some (heads g' !! x)).
Proof.
  intros Hr out.
  assert (Hout : out = create_head (mkRepo p) x start w) by reflexivity.
  clearbody out. unfold create_head in Hout.
  unfold bind at 1 in Hout. unfold log_call, modify in Hout.
  set (w0 := mkWorld (fs w) (calls w ++ [CallCreateHead (working_dir (mkRepo p)) x]) (clock w))
    in Hout.
  assert (Hr0 : repo_at w0 p = Some (d, g)) by exact Hr.
  erewrite bind_Ok in Hout by (eapply repo_state_repo; exact Hr0).
  cbv beta in Hout. cbn [fst snd] in Hout.
  assert (Hraise : forall e,
            exists d' g',
              repo_at (snd (@raise World unit e w0)) p = Some (d', g')
              /\ branch_frame x d g d' g'
              /\ (fst (@raise World unit e w0) = Ok tt -> is_Some (heads g' !! x))).
  { intros e. exists d, g. split; [exact Hr0|]. split; [apply branch_frame_refl|].
    discriminate. }
  destruct (ref_name_ok x); cbn [negb] in Hout; cbv iota in Hout;
    [|subst out; apply Hraise].
  destruct (match start with Some c => Some (hexsha c) | None => head_sha g end) as [sha|];
    [|subst out; apply Hraise].
  destruct (heads g !! x) as [old|] eqn:Ex.
  - destruct (String.eqb old sha); subst out; [|apply Hraise].
    exists d, g. split; [exact Hr0|]. split; [apply branch_frame_refl|].
    intros _. rewrite Ex. eauto.
  - subst out. eexists _, _. split; [apply repo_at_set_dir|]. split.
    + unfold branch_frame. cbn. repeat split; try reflexivity.
      * intros b s Hb. destruct (decide (x = b)) as [->|Hne]; [congruence|].
        now rewrite lookup_insert_ne.
      * intros b Hne. now rewrite lookup_insert_ne.
    + intros _. cbn. rewrite lookup_insert_eq. eauto.
Qed.

Lemma status_of_frame x d g d' g' st :
  branch_frame x d g d' g' -> status_of d g = Ok st -> status_of d' g' = Ok st.
Proof.
  intros (Hw & HH & Hi & Ho & Hkeep & _) Hst. unfold status_of in *.
  assert (Hhead : rev_commit g "HEAD" <> None -> rev_commit g' "HEAD" = rev_commit g "HEAD").
  { unfold rev_commit, rev_sha, head_sha. cbn [String.eqb Ascii.eqb Bool.eqb].
    rewrite HH, Ho. destruct (HEAD g) as [b|s]; [|reflexivity].
    destruct (heads g !! b) as [s|] eqn:Eb; [|intros Hn; now contradiction Hn].
    intros _. now rewrite (Hkeep b s Eb). }
  destruct (rev_commit g "HEAD") as [hc|] eqn:Eh; [|discriminate Hst].
  rewrite Hhead by discriminate.
  unfold tracked, untracked_of in *. rewrite Hw, HH, Hi. exact Hst.
Qed.

(** C9. [create_branch] leaves HEAD, the working tree and the index of
    the repository as they were, whatever the name and the start point and
    whether it succeeds or raises: the active branch is not switched. When
    it returns, it returns the name and the branch exists; and a status
    that [get_status] returned before the call is returned again after it,
    with the same current branch. *)
Theorem create_branch_does_not_switch (m : GitManager) (w : World) (d : Dir) (g : GitDir)
    (x : string) (from_ref : option string) :
  session_ok m -> repo_at w (repo_path m) = Some (d, g) ->
  let out := Manager.create_branch x from_ref (m, w) in
  exists d' g',
    repo_at (snd (snd out)) (repo_path m) = Some (d', g')
    /\ HEAD g' = HEAD g
    /\ worktree d' = worktree d
    /\ index g' = index g
    /\ (forall nm, fst out = Ok nm -> nm = x /\ is_Some (heads g' !! x))
    /\ (forall st, fst (Manager.get_status (m, w)) = Ok st ->
          fst (Manager.get_status (snd out)) = Ok st
          /\ Models.current_branch st
             = Some (match HEAD g with
                     | Attached b => b
                     | Detached _ => "HEAD (detached)"
                     end)).
Proof.
  intros Hs Hr out.
  assert (Hmain : exists d' g',
             fst (snd out) = opened m
             /\ repo_at (snd (snd out)) (repo_path m) = Some (d', g')
             /\ branch_frame x d g d' g'
             /\ (forall nm, fst out = Ok nm -> nm = x /\ is_Some (heads g' !! x))).
  { assert (Hout : out = Manager.create_branch x from_ref (m, w)) by reflexivity.
    clearbody out. unfold Manager.create_branch in Hout.
    erewrite bind_Ok in Hout by (eapply repo_opens; eauto). cbv beta in Hout.
    set (p := repo_path m) in *.
    assert (Hhead : forall start o,
              o = bind (lift (create_head (mkRepo p) x start))
                    (fun _ => ret x) (opened m, w) ->
              exists d' g',
                fst (snd o) = opened m
                /\ repo_at (snd (snd o)) p = Some (d', g')
                /\ branch_frame x d g d' g'
                /\ (forall nm, fst o = Ok nm -> nm = x /\ is_Some (heads g' !! x))).
    { intros start o ->. unfold bind, lift. cbn [fst snd].
      destruct (create_head_frame p w d g x start Hr) as (d' & g' & Hr' & Hf & Hok).
      destruct (create_head (mkRepo p) x start w) as [[[]|e] w'] eqn:Ec;
        cbn [fst snd ret] in *; exists d', g';
        (split; [reflexivity|]); (split; [exact Hr'|]); (split; [exact Hf|]).
      - intros nm [= <-]. split; [reflexivity|]. now apply Hok.
      - intros nm Hx. discriminate Hx. }
    destruct from_ref as [ref|]; [|eapply Hhead; exact Hout].
    destruct (Py.truthy ref); [|eapply Hhead; exact Hout].
    unfold bind at 1 in Hout. unfold bind at 1 in Hout. unfold try_catch in Hout.
    erewrite lift_run in Hout by (eapply repo_commit_run; eauto).
    destruct (rev_commit g ref) as [c|]; [eapply (Hhead (Some c)); exact Hout|].
    cbn in Hout. subst out. cbn [fst snd]. exists d, g.
    split; [reflexivity|]. split; [exact Hr|].
    split; [apply branch_frame_refl|]. discriminate. }
  destruct Hmain as (d' & g' & Hm & Hr' & Hf & Hok).
  exists d', g'. pose proof Hf as (Hw & HH & Hi & _).
  split; [exact Hr'|]. split; [exact HH|]. split; [exact Hw|]. split; [exact Hi|].
  split; [exact Hok|].
  intros st Hst. rewrite (get_status_run m w d g Hs Hr) in Hst. cbn [fst] in Hst.
  split.
  - destruct (snd out) as [m' w'] eqn:Eo. cbn [fst snd] in *. subst m'.
    rewrite (get_status_run (opened m) w' d' g' (session_ok_opened m) Hr'). cbn [fst].
    eapply status_of_frame; eauto.
  - unfold status_of in Hst. destruct (rev_commit g "HEAD"); [|discriminate].
    unfold bind in Hst.
    destruct (require_strs "staged_files" _ tt) as [[s1|e1] []]; [|discriminate].
    destruct (require_strs "modified_files" _ tt) as [[s2|e2] []]; [|discriminate].
    cbn in Hst. injection Hst as <-. reflexivity.
Qed.

End CreateBranchFrame.

(** ** C7 and C2: paths that hold no repository *)

Section NoRepository.
Context `{GitEngine}.

(** [get_status] and [is_initialized] in an existing directory that is
    not a repository root: the uninitialized status and false, with no
    handle opened and nothing written. *)
Lemma get_status_plain (m : GitManager) (w : World) (d : Dir) :
  fs w !! repo_path m = Some d -> dotgit d = None ->
  Manager.get_status (m, w) = (Ok uninitialized_status, (m, w))
  /\ Manager.is_initialized (m, w) = (Ok false, (m, w)).
Proof.
  intros E1 E2. split; [|eapply is_initialized_plain; eauto].
  unfold Manager.get_status.
  erewrite bind_Ok by (eapply is_initialized_plain; eauto). reflexivity.
Qed.

(** ... and where the path does not exist: opening raises NoSuchPathError,
    which neither method catches. *)
Lemma get_status_missing (m : GitManager) (w : World) :
  fs w !! repo_path m = None ->
  Manager.get_status (m, w) = (Raise (NoSuchPathError (repo_path m)), (m, w))
  /\ Manager.is_initialized (m, w) = (Raise (NoSuchPathError (repo_path m)), (m, w)).
Proof.
  intros E. split; [|apply is_initialized_missing; exact E].
  unfold Manager.get_status.
  erewrite bind_Raise by (apply is_initialized_missing; exact E). reflexivity.
Qed.

Variable default_repo_path : option string.

Lemma get_manager_given (p : string) (w : World) :
  Py.truthy p = true ->
  Tools.get_manager default_repo_path p w = (Ok (Manager.GitManager_init p), w).
Proof.
  intros Hp. unfold Tools.get_manager. cbn [Py.or_else].
  rewrite Hp. cbv beta iota. now rewrite Hp.
Qed.

(** a method that starts by taking the handle fails where there is no
    repository, before doing anything else *)
Lemma needs_repo {A} (k : Repo -> Meth A) (f : A -> Output) (p : string)
    (w : World) (d : Dir) :
  Py.truthy p = true -> fs w !! resolve_path p = Some d -> dotgit d = None ->
  bind (Tools.get_manager default_repo_path p)
    (fun manager => bind (call_on manager (bind Manager.repo k))
                      (fun a => ret (f a))) w
  = (Raise (ValueError (Manager.not_initialized_msg (resolve_path p))), w).
Proof.
  intros Hp E1 E2.
  erewrite bind_Ok by (apply get_manager_given; exact Hp). cbv beta.
  erewrite bind_Raise; [reflexivity|].
  unfold call_on.
  erewrite bind_Raise by (eapply (repo_plain (Manager.GitManager_init p)); eauto).
  reflexivity.
Qed.

(** C7, as the code has it. In an existing directory that holds no
    repository, each of list_commits, rollback_to_commit, compare_commits,
    create_branch, switch_branch and list_branches raises the manager's
    not-initialized error and leaves the world untouched; get_repo_status
    and generate_commit_message answer without a repository and without
    creating one; commit_all_changes alone initializes: the commands it
    sends are the init and the full add, with no initial commit, and a
    repository is there afterwards. *)
Theorem only_commit_all_changes_initializes (p : string) (w : World) (d : Dir) :
  Py.truthy p = true -> fs w !! resolve_path p = Some d -> dotgit d = None ->
  let refused : result Output * World :=
    (Raise (ValueError (Manager.not_initialized_msg (resolve_path p))), w) in
  (forall br n, Tools.list_commits default_repo_path p br n w = refused)
  /\ (forall sha mode, Tools.rollback_to_commit default_repo_path p sha mode w = refused)
  /\ (forall a b, Tools.compare_commits default_repo_path p a b w = refused)
  /\ (forall x from_ref, Tools.create_branch default_repo_path p x from_ref w = refused)
  /\ (forall x, Tools.switch_branch default_repo_path p x w = refused)
  /\ Tools.list_branches default_repo_path p w = refused
  /\ Tools.get_repo_status p w = (Ok (StatusJson uninitialized_status), w)
  /\ (forall style,
        Tools.generate_commit_message default_repo_path p style w
        = (Ok (Text "No changes to describe"), w))
  /\ (forall msg,
        let w' := snd (Tools.commit_all_changes p msg w) in
        has_repo (resolve_path p) w'
        /\ calls w' = (calls w ++ [CallInit (resolve_path p);
                                    CallAddAll (resolve_path p)])%list).
Proof.
  intros Hp E1 E2 refused. subst refused.
  split; [intros br n; eapply needs_repo; eauto|].
  split; [intros sha mode; eapply needs_repo; eauto|].
  split; [intros a b; eapply needs_repo; eauto|].
  split; [intros x from_ref; eapply needs_repo; eauto|].
  split; [intros x; eapply needs_repo; eauto|].
  split; [eapply needs_repo; eauto|].
  assert (Hst : call_on (Manager.GitManager_init p) Manager.get_status w
                = (Ok uninitialized_status, w)).
  { unfold call_on.
    rewrite (proj1 (get_status_plain (Manager.GitManager_init p) w d E1 E2)).
    reflexivity. }
  split.
  { unfold Tools.get_repo_status. erewrite bind_Ok by exact Hst. reflexivity. }
  split.
  { intros style. unfold Tools.generate_commit_message.
    erewrite bind_Ok by (apply get_manager_given; exact Hp). cbv beta.
    erewrite bind_Ok by exact Hst. reflexivity. }
  intros msg w'. subst w'.
  rewrite (commit_all_changes_plain p msg w d E1 E2). cbn [snd].
  split.
  - red. unfold added. rewrite repo_at_set_dir. eauto.
  - unfold added, initialized_empty, set_dir. cbn [calls].
    rewrite <- app_assoc. reflexivity.
Qed.

End NoRepository.

(** ** Queries write nothing *)

Create HintDb reads.

Section ReadOnly.
Context `{GitEngine}.

Lemma reads_ret {A} (a : A) : reads (ret a).
Proof. intros w. reflexivity. Qed.

Lemma reads_raise {A} e : reads (@raise World A e).
Proof. intros w. reflexivity. Qed.

Lemma reads_bind {A B} (c : SE World A) (k : A -> SE World B) :
  reads c -> (forall a, reads (k a)) -> reads (bind c k).
Proof.
  intros Hc Hk w. unfold bind. specialize (Hc w).
  destruct (c w) as [[a|e] w']; simpl in *; subst; [apply Hk|reflexivity].
Qed.

Lemma reads_repo_state r : reads (repo_state r).
Proof.
  intros w. unfold repo_state. destruct (fs w !! working_dir r) as [d|]; [|reflexivity].
  now destruct (dotgit d).
Qed.

Hint Resolve reads_ret reads_raise reads_repo_state : reads.

Ltac reads_step :=
  first [ apply reads_bind; [|intros ?] | solve [auto with reads] ].

Lemma reads_active_branch_name r : reads (active_branch_name r).
Proof.
  unfold active_branch_name. repeat reads_step. destruct (HEAD _); auto with reads.
Qed.

Lemma reads_index_diff_rev r rev : reads (index_diff_rev r rev).
Proof.
  unfold index_diff_rev. repeat reads_step. destruct (rev_commit _ _); auto with reads.
Qed.

Lemma reads_index_diff_worktree r : reads (index_diff_worktree r).
Proof. unfold index_diff_worktree. repeat reads_step. Qed.

Lemma reads_untracked r : reads (repo_untracked_files r).
Proof. unfold repo_untracked_files. repeat reads_step. Qed.

Lemma reads_iter_commits r rev n : reads (iter_commits r rev n).
Proof.
  unfold iter_commits. repeat reads_step. destruct (rev_commit _ _); auto with reads.
Qed.

Lemma reads_repo_commit r rev : reads (repo_commit r rev).
Proof.
  unfold repo_commit. repeat reads_step. destruct (rev_commit _ _); auto with reads.
Qed.

Lemma reads_repo_heads r : reads (repo_heads r).
Proof. unfold repo_heads. repeat reads_step. Qed.

Lemma reads_branch_commit r sha : reads (branch_commit r sha).
Proof.
  unfold branch_commit. repeat reads_step. destruct (_ !! _); auto with reads.
Qed.

(** methods *)

Lemma readsM_lift {A} (c : SE World A) : reads c -> readsM (lift c).
Proof.
  intros Hc m w. unfold lift. simpl. specialize (Hc w).
  destruct (c w) as [r w']; simpl in *. exact Hc.
Qed.

Lemma readsM_ret {A} (a : A) : readsM (ret a).
Proof. intros m w. reflexivity. Qed.

Lemma readsM_raise {A} e : readsM (@raise (GitManager * World) A e).
Proof. intros m w. reflexivity. Qed.

Lemma readsM_bind {A B} (c : Meth A) (k : A -> Meth B) :
  readsM c -> (forall a, readsM (k a)) -> readsM (bind c k).
Proof.
  intros Hc Hk m w. unfold bind. specialize (Hc m w).
  destruct (c (m, w)) as [[a|e] [m' w']]; simpl in *; subst; [apply Hk|reflexivity].
Qed.

Lemma readsM_try {A} (c : Meth A) (h : exn -> Meth A) :
  readsM c -> (forall e, readsM (h e)) -> readsM (try_catch c h).
Proof.
  intros Hc Hh m w. unfold try_catch. specialize (Hc m w).
  destruct (c (m, w)) as [[a|e] [m' w']]; simpl in *; subst; [reflexivity|apply Hh].
Qed.

Lemma readsM_require_strs field l : readsM (require_strs field l).
Proof.
  induction l as [|o l IH]; [apply readsM_ret|].
  cbn [require_strs]. apply readsM_bind.
  - destruct o; [apply readsM_ret|apply readsM_raise].
  - intros s. apply readsM_bind; [exact IH|]. intros ss. apply readsM_ret.
Qed.

Lemma readsM_require_str field o : readsM (require_str field o).
Proof. destruct o; [apply readsM_ret|apply readsM_raise]. Qed.

Lemma readsM_repo : readsM Manager.repo.
Proof. intros m w. apply repo_world. Qed.

Lemma readsM_is_initialized : readsM Manager.is_initialized.
Proof.
  unfold Manager.is_initialized. apply readsM_bind; [intros m w; reflexivity|].
  intros m. apply readsM_try.
  - apply readsM_bind; [|intros; apply readsM_ret].
    apply readsM_lift. intros w. apply Repo_open_world.
  - intros e. destruct e; first [apply readsM_ret|apply readsM_raise].
Qed.

Lemma readsM_branch_or r fallback : readsM (Manager.branch_or r fallback).
Proof.
  unfold Manager.branch_or. apply readsM_try.
  - apply readsM_lift, reads_active_branch_name.
  - intros e. destruct e; first [apply readsM_ret|apply readsM_raise].
Qed.

Lemma readsM_get_status : readsM Manager.get_status.
Proof.
  unfold Manager.get_status. apply readsM_bind; [apply readsM_is_initialized|].
  intros init. destruct init; cbn [negb]; [|apply readsM_ret].
  apply readsM_bind; [apply readsM_repo|]. intros r.
  apply readsM_bind; [apply readsM_branch_or|]. intros cur.
  apply readsM_bind; [apply readsM_lift, reads_index_diff_rev|]. intros ds.
  apply readsM_bind; [apply readsM_lift, reads_index_diff_worktree|]. intros dm.
  apply readsM_bind; [apply readsM_lift, reads_untracked|]. intros u.
  apply readsM_bind; [apply readsM_require_strs|]. intros s1.
  apply readsM_bind; [apply readsM_require_strs|]. intros s2.
  apply readsM_ret.
Qed.

Lemma readsM_list_commits br n : readsM (Manager.list_commits br n).
Proof.
  unfold Manager.list_commits. apply readsM_bind; [apply readsM_repo|]. intros r.
  apply readsM_bind.
  { apply readsM_try; [apply readsM_lift, reads_iter_commits|].
    intros e. destruct e; apply readsM_raise. }
  intros cs. apply readsM_bind; [|intros; apply readsM_ret].
  destruct (String.eqb br "HEAD"); [apply readsM_branch_or|apply readsM_ret].
Qed.

Lemma readsM_compare_loop diffs :
  forall fcs ta td, readsM (Manager.compare_loop diffs fcs ta td).
Proof.
  induction diffs as [|d rest IH]; intros fcs ta td; [apply readsM_ret|].
  cbn [Manager.compare_loop]. apply readsM_bind; [apply readsM_require_str|].
  intros fname. apply IH.
Qed.

Lemma readsM_compare_commits a b : readsM (Manager.compare_commits a b).
Proof.
  unfold Manager.compare_commits. apply readsM_bind; [apply readsM_repo|]. intros r.
  apply readsM_bind.
  { apply readsM_try.
    - apply readsM_bind; [apply readsM_lift, reads_repo_commit|]. intros ca.
      apply readsM_bind; [apply readsM_lift, reads_repo_commit|]. intros cb.
      apply readsM_ret.
    - intros e. destruct e; apply readsM_raise. }
  intros ends. apply readsM_bind; [apply readsM_compare_loop|].
  intros acc. apply readsM_ret.
Qed.

Lemma readsM_branch_infos r current hs : readsM (Manager.branch_infos r current hs).
Proof.
  induction hs as [|[nm tip] rest IH]; [apply readsM_ret|].
  cbn [Manager.branch_infos].
  apply readsM_bind; [apply readsM_lift, reads_branch_commit|]. intros c.
  apply readsM_bind; [exact IH|]. intros infos. apply readsM_ret.
Qed.

Lemma readsM_list_branches : readsM Manager.list_branches.
Proof.
  unfold Manager.list_branches. apply readsM_bind; [apply readsM_repo|]. intros r.
  apply readsM_bind.
  { apply readsM_try.
    - apply readsM_bind; [apply readsM_lift, reads_active_branch_name|].
      intros; apply readsM_ret.
    - intros e. destruct e; first [apply readsM_ret|apply readsM_raise]. }
  intros current. apply readsM_bind; [apply readsM_lift, reads_repo_heads|].
  intros hs. apply readsM_branch_infos.
Qed.

Lemma reads_call_on {A} (m : GitManager) (c : Meth A) : readsM c -> reads (call_on m c).
Proof.
  intros Hc w. unfold call_on. specialize (Hc m w).
  destruct (c (m, w)) as [r s]. exact Hc.
Qed.

Lemma reads_get_manager dflt p : reads (Tools.get_manager dflt p).
Proof.
  unfold Tools.get_manager. destruct (Py.or_else _ _) as [path|]; [|apply reads_raise].
  destruct (Py.truthy path); [apply reads_ret|apply reads_raise].
Qed.

(** X1. The query operations write nothing, whether they return or raise
    and whatever the path holds: after get_repo_status, list_commits,
    compare_commits, list_branches and generate_commit_message the
    directories, the repositories and the list of commands sent to the
    backend are those from before the call. *)
Theorem queries_write_nothing (dflt : option string) (p : string) (w : World) :
  snd (Tools.get_repo_status p w) = w
  /\ (forall br n, snd (Tools.list_commits dflt p br n w) = w)
  /\ (forall a b, snd (Tools.compare_commits dflt p a b w) = w)
  /\ snd (Tools.list_branches dflt p w) = w
  /\ (forall style, snd (Tools.generate_commit_message dflt p style w) = w).
Proof.
  split.
  { apply reads_bind; [apply reads_call_on, readsM_get_status|].
    intros; apply reads_ret. }
  split.
  { intros br n. apply reads_bind; [apply reads_get_manager|]. intros manager.
    apply reads_bind; [apply reads_call_on, readsM_list_commits|].
    intros; apply reads_ret. }
  split.
  { intros a b. apply reads_bind; [apply reads_get_manager|]. intros manager.
    apply reads_bind; [apply reads_call_on, readsM_compare_commits|].
    intros; apply reads_ret. }
  split.
  { apply reads_bind; [apply reads_get_manager|]. intros manager.
    apply reads_bind; [apply reads_call_on, readsM_list_branches|].
    intros; apply reads_ret. }
  intros style. apply reads_bind; [apply reads_get_manager|]. intros manager.
  apply reads_bind; [apply reads_call_on, readsM_get_status|]. intros st.
  destruct (Models.has_changes st); cbn [negb]; apply reads_ret.
Qed.

End ReadOnly.

(** ** Names that do not resolve *)

Section ErrorPaths.
Context `{GitEngine}.

Lemma repo_at_logged_world c w p : repo_at (logged c w) p = repo_at w p.
Proof. reflexivity. Qed.

(** X2. [switch_branch] to a name that is not a local branch raises the
    ValueError that names the branch; no checkout is sent to the backend
    and the world is as before. *)
Theorem switch_branch_unknown (m : GitManager) (w : World) (d : Dir) (g : GitDir)
    (x : string) :
  session_ok m -> repo_at w (repo_path m) = Some (d, g) -> heads g !! x = None ->
  Manager.switch_branch x (m, w)
  = (Raise (ValueError ("Branch '" ++ x ++ "' not found")), (opened m, w)).
Proof.
  intros Hs Hr Hx. unfold Manager.switch_branch.
  erewrite bind_Ok by (eapply repo_opens; eauto). cbv beta.
  erewrite bind_Raise; [reflexivity|].
  unfold try_catch. erewrite lift_run; cycle 1.
  { unfold repo_head. erewrite bind_Ok by (eapply repo_state_repo; eauto).
    cbn [snd]. rewrite Hx. reflexivity. }
  reflexivity.
Qed.





End ErrorPaths.

(** ** The default repository path *)

Section DefaultPath.
Context `{GitEngine}.




End DefaultPath.

(** ** The status record *)

Section StatusRecord.
Context `{GitEngine}.

Lemma require_strs_Ok {S} field (l : list (option string)) (s s' : S) (l' : list string) :
  require_strs field l s = (Ok l', s') -> l = map Some l'.
Proof.
  revert l' s'. induction l as [|o l IH]; intros l' s' Hrun.
  - injection Hrun as <- _. reflexivity.
  - cbn [require_strs] in Hrun. unfold bind in Hrun.
    destruct o as [x|]; cbn [require_str ret raise] in Hrun; [|discriminate Hrun].
    destruct (require_strs field l s) as [[r|e] s1] eqn:E; [|discriminate Hrun].
    injection Hrun as <- _. cbn [map]. f_equal. exact (IH r s1 eq_refl).
Qed.

Lemma nonempty_map_Some (l : list string) :
  Py.nonempty (map Some l) = true <-> l <> [].
Proof. destruct l; cbn; split; congruence. Qed.

Lemma nonempty_true {A} (l : list A) : Py.nonempty l = true <-> l <> [].
Proof. destruct l; cbn; split; congruence. Qed.

(** X7. The status [get_status] returns is coherent: [has_changes] holds
    exactly when one of the three file lists is not empty; the status says
    initialized exactly when the path holds a repository; an uninitialized
    status has no branch, no changes and empty lists, an initialized one
    always names a current branch. *)
Theorem status_is_coherent (m : GitManager) (w : World) (st : Models.RepoStatus)
    (s' : GitManager * World) :
  session_ok m -> Manager.get_status (m, w) = (Ok st, s') ->
  (Models.has_changes st = true <->
     Models.staged_files st <> [] \/ Models.modified_files st <> []
     \/ Models.untracked_files st <> [])
  /\ (Models.is_initialized st = true <-> has_repo (repo_path m) w)
  /\ (Models.is_initialized st = false -> st = uninitialized_status)
  /\ (Models.is_initialized st = true -> is_Some (Models.current_branch st)).
Proof.
  intros Hs Hrun.
  destruct (fs w !! repo_path m) as [d|] eqn:Efs.
  2:{ rewrite (proj1 (get_status_missing m w Efs)) in Hrun. discriminate Hrun. }
  destruct (dotgit d) as [g|] eqn:Eg.
  2:{ rewrite (proj1 (get_status_plain m w d Efs Eg)) in Hrun.
      injection Hrun as <- _. cbn.
      split; [split; [discriminate|intros [Hc|[Hc|Hc]]; congruence]|].
      split; [|split; [reflexivity|discriminate]].
      split; [discriminate|]. intros [[d0 g0] [E1 E2]%repo_at_Some]. congruence. }
  assert (Hr : repo_at w (repo_path m) = Some (d, g)) by (apply repo_at_Some; auto).
  rewrite (get_status_run m w d g Hs Hr) in Hrun. injection Hrun as Hst _.
  unfold status_of in Hst. destruct (rev_commit g "HEAD") as [hc|]; [|discriminate Hst].
  unfold bind in Hst.
  destruct (require_strs "staged_files" _ tt) as [[s1|e1] []] eqn:E1; [|discriminate Hst].
  destruct (require_strs "modified_files" _ tt) as [[s2|e2] []] eqn:E2; [|discriminate Hst].
  apply require_strs_Ok in E1. apply require_strs_Ok in E2.
  cbn in Hst. injection Hst as <-. cbn. rewrite E1, E2.
  split.
  { rewrite !orb_true_iff, !nonempty_map_Some, nonempty_true. tauto. }
  split; [split; [intros _; red; rewrite Hr; eauto|reflexivity]|].
  split; [discriminate|eauto].
Qed.

End StatusRecord.

(** ** Line counts *)

Section LineCounts.
Context `{GitEngine}.

Lemma disjoint_filters {A} (f g : A -> bool) (l : list A) :
  (forall x, f x = true -> g x = false) ->
  (length (List.filter f l) + length (List.filter g l) <= length l)%nat.
Proof.
  intros Hfg. induction l as [|x l IH]; cbn; [lia|].
  destruct (f x) eqn:Ef; [rewrite (Hfg x Ef)|destruct (g x)]; cbn; lia.
Qed.

Lemma signed_disjoint (line : string) :
  signed_line "+" line = true -> signed_line "-" line = false.
Proof.
  unfold signed_line. intros [Hp _]%andb_prop.
  now rewrite (plus_not_minus line Hp).
Qed.

Lemma count_signed_bounds (p : option string) :
  0 <= count_signed "+" p /\ 0 <= count_signed "-" p
  /\ count_signed "+" p + count_signed "-" p <= line_count p.
Proof.
  destruct p as [text|]; cbn; [|lia].
  pose proof (disjoint_filters (signed_line "+") (signed_line "-")
                (Py.split Py.LF text) signed_disjoint).
  lia.
Qed.

(** X8. In a diff returned by [compare_commits] no count is negative and
    no line is counted twice: for each file the additions and the
    deletions together are at most the number of lines of its patch (so
    both are 0 without a patch), and the two totals are not negative. *)
Theorem compare_commits_counts_bounded (m : GitManager) (w : World) (d : Dir)
    (g : GitDir) (a b : string) (ca cb : Commit) (cd : Models.CommitDiff)
    (s : GitManager * World) :
  session_ok m -> repo_at w (repo_path m) = Some (d, g) ->
  rev_commit g a = Some ca -> rev_commit g b = Some cb ->
  Manager.compare_commits a b (m, w) = (Ok cd, s) ->
  Forall (fun f => 0 <= Models.additions f /\ 0 <= Models.deletions f
                   /\ Models.additions f + Models.deletions f
                      <= line_count (Models.patch f)) (Models.files cd)
  /\ 0 <= Models.total_additions cd
  /\ 0 <= Models.total_deletions cd.
Proof.
  intros Hs Hr Ha Hb Hrun.
  destruct (compare_commits_run m w d g a b ca cb Hs Hr Ha Hb) as [_ Hprops].
  destruct (Hprops cd s Hrun) as (_ & _ & _ & Hall & Hta & Htd & _).
  assert (Hfiles : Forall (fun f => 0 <= Models.additions f /\ 0 <= Models.deletions f
                     /\ Models.additions f + Models.deletions f
                        <= line_count (Models.patch f)) (Models.files cd)).
  { clear -Hall. induction Hall as [|e f es fs He _ IH]; constructor; [|exact IH].
    destruct He as (_ & _ & Hadd & Hdel & _). rewrite Hadd, Hdel.
    apply count_signed_bounds. }
  split; [exact Hfiles|]. rewrite Hta, Htd. clear -Hfiles.
  induction Hfiles as [|f fs (Ha & Hd & _) _ [IHa IHd]]; cbn; [lia|].
  unfold sumZ in *. lia.
Qed.

End LineCounts.

(** ** After a commit *)

Section AfterCommit.
Context `{GitEngine}.

(** A diff engine reports no entry between a tree and itself. *)
Hypothesis diff_same : forall t : Tree, diff_trees t t = [].

Lemma tracked_all (d : Dir) (g : GitDir) :
  index g = worktree d -> tracked d g = worktree d.
Proof.
  intros Hi. unfold tracked. rewrite Hi. apply map_filter_id.
  intros p c Hp. cbn. rewrite Hp. eauto.
Qed.

(** a repository whose index and files equal the head commit: the status
    is clean and [commit_all] has nothing to commit *)
Lemma settled (m : GitManager) (w : World) (d : Dir) (g : GitDir) (c : Commit) :
  session_ok m -> repo_at w (repo_path m) = Some (d, g) ->
  rev_commit g "HEAD" = Some c -> index g = worktree d ->
  diff_trees (worktree d) (tree c) = [] ->
  Manager.get_status (m, w) = (Ok (clean_status g), (opened m, w))
  /\ forall msg,
       Manager.commit_all msg (m, w)
       = (Ok "No changes to commit", (opened m, added (repo_path m) d g w)).
Proof.
  intros Hs Hr Hh Hi Ht. split.
  - rewrite (get_status_run m w d g Hs Hr). f_equal.
    unfold status_of. rewrite Hh, Hi, Ht, (tracked_all d g Hi), diff_same.
    rewrite (untracked_after_add d g Hi). reflexivity.
  - intros msg. rewrite (commit_all_with_head m w d g c msg Hs Hr Hh).
    cbv zeta. rewrite Ht. reflexivity.
Qed.

Lemma index_move_head (g : GitDir) (s : string) : index (move_head g s) = index g.
Proof. unfold move_head. now destruct (HEAD g). Qed.

Lemma HEAD_move_head_label (g : GitDir) (s : string) :
  clean_status (move_head g s) = clean_status g.
Proof. unfold clean_status, move_head. now destruct (HEAD g). Qed.

Lemma committed_settled p d g msg w :
  index g = worktree d ->
  let c := new_commit g msg (clock w) in
  exists d' g',
    repo_at (committed p d g msg w) p = Some (d', g')
    /\ rev_commit g' "HEAD" = Some c
    /\ index g' = worktree d'
    /\ tree c = worktree d'
    /\ clean_status g' = clean_status g.
Proof.
  intros Hi c. unfold committed. fold c. rewrite repo_at_set_dir.
  eexists _, _. split; [reflexivity|]. cbn [worktree].
  set (G := mkGitDir (<[hexsha c := c]> (objects g)) (heads g) (HEAD g) (index g)).
  assert (Ho : objects (move_head G (hexsha c)) !! hexsha c = Some c).
  { unfold move_head. subst G. simpl. destruct (HEAD g); simpl; apply lookup_insert_eq. }
  split.
  { unfold rev_commit, rev_sha. simpl. rewrite head_sha_move_head. simpl. exact Ho. }
  split; [rewrite index_move_head; exact Hi|].
  split; [exact Hi|].
  rewrite HEAD_move_head_label. reflexivity.
Qed.

(** X9. Once [commit_all] has returned on a repository whose HEAD has a
    commit (with the new commit's id or with the no-changes string), the
    status is clean: no changes, the three lists empty, the branch the one
    from before; and a second [commit_all] returns the no-changes string
    and leaves the commits and HEAD as the first call left them. *)
Theorem commit_all_settles (m : GitManager) (w : World) (d : Dir) (g : GitDir)
    (hc : Commit) (msg : string) :
  session_ok m -> repo_at w (repo_path m) = Some (d, g) ->
  rev_commit g "HEAD" = Some hc ->
  let s1 := snd (Manager.commit_all msg (m, w)) in
  (exists r, fst (Manager.commit_all msg (m, w)) = Ok r)
  /\ fst (Manager.get_status s1) = Ok (clean_status g)
  /\ forall msg2,
       let out2 := Manager.commit_all msg2 s1 in
       fst out2 = Ok "No changes to commit"
       /\ exists d1 g1 d2 g2,
            repo_at (snd s1) (repo_path m) = Some (d1, g1)
            /\ repo_at (snd (snd out2)) (repo_path m) = Some (d2, g2)
            /\ objects g2 = objects g1 /\ heads g2 = heads g1 /\ HEAD g2 = HEAD g1.
Proof.
  intros Hs Hr Hh s1.
  assert (Hstate : exists d1 g1 c1 w1,
             s1 = (opened m, w1)
             /\ repo_at w1 (repo_path m) = Some (d1, g1)
             /\ rev_commit g1 "HEAD" = Some c1
             /\ index g1 = worktree d1
             /\ diff_trees (worktree d1) (tree c1) = []
             /\ clean_status g1 = clean_status g
             /\ exists r, fst (Manager.commit_all msg (m, w)) = Ok r).
  { subst s1. rewrite (commit_all_with_head m w d g hc msg Hs Hr Hh). cbv zeta.
    destruct (Py.nonempty (diff_trees (worktree d) (tree hc))) eqn:Ed.
    - cbn [fst snd].
      destruct (committed_settled (repo_path m)
                  (mkDir (worktree d) (Some (staged_all d g))) (staged_all d g) msg
                  (added (repo_path m) d g w) eq_refl)
        as (d' & g' & Hr' & Hhead & Hi & Htree & Hlabel).
      eexists d', g', _, _. split; [reflexivity|]. split; [exact Hr'|].
      split; [exact Hhead|]. split; [exact Hi|].
      split; [rewrite Htree; apply diff_same|].
      split; [exact Hlabel|]. eauto.
    - cbn [fst snd].
      exists (mkDir (worktree d) (Some (staged_all d g))), (staged_all d g), hc,
        (added (repo_path m) d g w).
      split; [reflexivity|]. split; [apply repo_at_set_dir|].
      split; [now rewrite (rev_commit_HEAD_eq g)|]. split; [reflexivity|].
      split; [|split; [reflexivity|eauto]].
      cbn [worktree]. now destruct (diff_trees (worktree d) (tree hc)). }
  destruct Hstate as (d1 & g1 & c1 & w1 & Hs1 & Hr1 & Hh1 & Hi1 & Ht1 & Hlab & Hok).
  destruct (settled (opened m) w1 d1 g1 c1 (session_ok_opened m) Hr1 Hh1 Hi1 Ht1)
    as [Hst Hagain].
  split; [exact Hok|]. rewrite Hs1. split.
  { rewrite Hst. cbn [fst]. now rewrite Hlab. }
  intros msg2 out2. subst out2. rewrite (Hagain msg2). cbn [fst snd].
  split; [reflexivity|].
  eexists d1, g1, _, _. split; [exact Hr1|]. split; [apply repo_at_set_dir|].
  repeat split; reflexivity.
Qed.

End AfterCommit.

(** ** The first commit *)

Section FirstCommit.
Context `{GitEngine}.

Lemma stage_spec (t : Tree) (items : list string) :
  forall ix : Tree,
    (forall p, p ∈ items -> is_Some (t !! p)) ->
    exists ix' : Tree,
      stage t items ix = Some ix'
      /\ forall k, ix' !! k = if decide (k ∈ items) then t !! k else ix !! k.
Proof.
  induction items as [|p ps IH]; intros ix Hall.
  - exists ix. split; [reflexivity|]. intros k.
    destruct (decide (k ∈ [])) as [Hin|_]; [inversion Hin|reflexivity].
  - destruct (Hall p) as [c Hc]; [left|]. cbn [stage]. rewrite Hc.
    destruct (IH (<[p := c]> ix)) as (ix' & Hrun & Hlook).
    { intros q Hq. apply Hall. now right. }
    exists ix'. split; [exact Hrun|]. intros k. rewrite Hlook.
    destruct (decide (k ∈ ps)) as [Hin|Hnin].
    + rewrite decide_True by (now right). reflexivity.
    + destruct (decide (k = p)) as [->|Hne].
      * rewrite decide_True by left. rewrite lookup_insert_eq. now rewrite Hc.
      * rewrite decide_False; [now rewrite lookup_insert_ne|].
        intros [->|Hin]%elem_of_cons; [now apply Hne|now apply Hnin].
Qed.

Lemma elem_of_keys (t : Tree) (k : string) :
  k ∈ map fst (map_to_list t) <-> is_Some (t !! k).
Proof.
  rewrite list_elem_of_In, in_map_iff. split.
  - intros ([q c] & <- & Hqc). apply list_elem_of_In, elem_of_map_to_list in Hqc.
    cbn. eauto.
  - intros [c Hc]. exists (k, c). split; [reflexivity|].
    now apply list_elem_of_In, elem_of_map_to_list.
Qed.

(** staging the untracked files of a directory, on an index that holds
    nothing foreign, gives the directory's files *)
Lemma stage_untracked (t ix : Tree) (g : GitDir) (dg : option GitDir) :
  index g = ix -> (forall k v, ix !! k = Some v -> t !! k = Some v) ->
  stage t (untracked_of (mkDir t dg) g) ix = Some t.
Proof.
  intros Hi Hsub. unfold untracked_of. cbn [worktree]. rewrite Hi.
  set (u := filter (fun p => ix !! p = None) (map fst (map_to_list t))).
  assert (Hu : forall k, k ∈ u <-> ix !! k = None /\ is_Some (t !! k)).
  { intros k. subst u. rewrite list_elem_of_filter, elem_of_keys. tauto. }
  destruct (stage_spec t u ix) as (ix' & Hrun & Hlook).
  { intros p Hp. now apply Hu in Hp. }
  rewrite Hrun. f_equal. apply map_eq. intros k. rewrite Hlook.
  destruct (decide (k ∈ u)) as [Hin|Hnin]; [reflexivity|].
  destruct (ix !! k) as [v|] eqn:Ek; [symmetry; now apply Hsub|].
  destruct (t !! k) as [c|] eqn:Et; [|reflexivity].
  exfalso. apply Hnin, Hu. eauto.
Qed.

Lemma index_add_run p w d g items ix' :
  repo_at w p = Some (d, g) -> stage (worktree d) items (index g) = Some ix' ->
  index_add (mkRepo p) items w
  = (Ok tt,
     set_dir p (mkDir (worktree d) (Some (mkGitDir (objects g) (heads g) (HEAD g) ix')))
       (logged (CallIndexAdd p items) w)).
Proof.
  intros Hr Hst. unfold index_add. unfold bind at 1. unfold log_call, modify.
  erewrite bind_Ok; cycle 1.
  { eapply repo_state_repo.
    exact (Hr : repo_at (logged (CallIndexAdd p items) w) p = Some (d, g)). }
  cbv beta zeta. cbn [fst snd]. rewrite Hst. reflexivity.
Qed.

Lemma untracked_run p w d g :
  repo_at w p = Some (d, g) ->
  repo_untracked_files (mkRepo p) w = (Ok (untracked_of d g), w).
Proof.
  intros Hr. unfold repo_untracked_files.
  erewrite bind_Ok by (eapply repo_state_repo; eauto). reflexivity.
Qed.

(** the README step of [initialize] *)
Lemma readme_step (m : GitManager) (p : string) (t : Tree) (w0 w : World) :
  bare_at p t ∅ w0 w ->
  exists w' ix,
    bare_at p (with_readme t) ix w0 w'
    /\ (forall k v, ix !! k = Some v -> with_readme t !! k = Some v)
    /\ forall (A : Type) (K : unit -> Meth A),
         bind (lift (file_exists p "README.md"))
           (fun readme =>
              bind (if negb readme then
                      bind (lift (write_text p "README.md" Manager.readme_text))
                        (fun _ => lift (index_add (mkRepo p) ["README.md"]))
                    else ret tt) K) (m, w)
         = K tt (m, w').
Proof.
  intros [Hr Hc]. pose proof Hr as [Efs _]%repo_at_Some.
  assert (Hfe : lift (file_exists p "README.md") (m, w)
                = (Ok (bool_decide (is_Some (t !! "README.md"))), (m, w))).
  { apply lift_run. unfold file_exists, gets. rewrite Efs. reflexivity. }
  unfold with_readme. destruct (t !! "README.md") as [c|] eqn:Ereadme.
  - exists w, ∅. split; [split; assumption|]. split.
    { intros k v Hk. rewrite lookup_empty in Hk. discriminate. }
    intros A K. erewrite bind_Ok by exact Hfe. cbv beta.
    rewrite bool_decide_eq_true_2 by eauto. cbn [negb].
    erewrite bind_Ok by reflexivity. reflexivity.
  - set (t' := <["README.md" := Manager.readme_text]> t).
    set (w1 := set_dir p (mkDir t' (Some (bare ∅))) w).
    assert (Hr1 : repo_at w1 p = Some (mkDir t' (Some (bare ∅)), bare ∅))
      by apply repo_at_set_dir.
    assert (Hst : stage t' ["README.md"] ∅ = Some {[ "README.md" := Manager.readme_text ]}).
    { cbn [stage]. subst t'. rewrite lookup_insert_eq. reflexivity. }
    eexists _, _. split; [|split].
    3:{ intros A K. erewrite bind_Ok by exact Hfe. cbv beta.
        rewrite bool_decide_eq_false_2 by (intros [? ?]; discriminate). cbn [negb].
        erewrite bind_Ok; [reflexivity|].
        erewrite bind_Ok; cycle 1.
        { apply lift_run. unfold write_text. rewrite Efs. reflexivity. }
        cbv beta. apply lift_run.
        eapply index_add_run; [exact Hr1|exact Hst]. }
    + split; [apply repo_at_set_dir|]. cbn. exact Hc.
    + intros k v Hk. apply lookup_singleton_Some in Hk as [<- <-].
      subst t'. apply lookup_insert_eq.
Qed.

(** the step of [initialize] that stages what is still untracked *)
Lemma untracked_step (m : GitManager) (p : string) (t ix : Tree) (w0 w : World) :
  bare_at p t ix w0 w ->
  (forall k v, ix !! k = Some v -> t !! k = Some v) ->
  exists w',
    bare_at p t t w0 w'
    /\ forall (A : Type) (K : unit -> Meth A),
         bind (lift (repo_untracked_files (mkRepo p)))
           (fun u =>
              bind (if Py.nonempty u then
                      bind (lift (repo_untracked_files (mkRepo p)))
                        (fun u' => lift (index_add (mkRepo p) u'))
                    else ret tt) K) (m, w)
         = K tt (m, w').
Proof.
  intros [Hr Hc] Hsub.
  pose proof (stage_untracked t ix (bare ix) (Some (bare ix)) eq_refl Hsub) as Hst.
  set (u := untracked_of (mkDir t (Some (bare ix))) (bare ix)) in *.
  assert (Hu : lift (repo_untracked_files (mkRepo p)) (m, w) = (Ok u, (m, w))).
  { apply lift_run. now apply untracked_run. }
  destruct (Py.nonempty u) eqn:En.
  - eexists. split.
    2:{ intros A K. erewrite bind_Ok by exact Hu. cbv beta. rewrite En.
        erewrite bind_Ok; [reflexivity|].
        erewrite bind_Ok by exact Hu. cbv beta. apply lift_run.
        eapply index_add_run; [exact Hr|exact Hst]. }
    split; [apply repo_at_set_dir|]. cbn. exact Hc.
  - destruct u; [|discriminate En]. cbn [stage] in Hst. injection Hst as ->.
    exists w. split; [split; assumption|].
    intros A K. erewrite bind_Ok by exact Hu. cbv beta. cbn [Py.nonempty].
    erewrite bind_Ok by reflexivity. reflexivity.
Qed.

(** [initialize(initial_commit=True)] in a directory that is not yet a
    repository *)
Lemma initialize_true_plain (m : GitManager) (w : World) (d : Dir) :
  fs w !! repo_path m = Some d -> dotgit d = None ->
  let t := with_readme (worktree d) in
  let c := first_commit t (clock w) in
  exists w',
    Manager.initialize true (m, w)
    = (Ok ("Initialized repository with initial commit: " ++ Py.prefix 7 (hexsha c)),
       (opened m, w'))
    /\ repo_at w' (repo_path m)
       = Some (mkDir t (Some (first_repo t (clock w))), first_repo t (clock w)).
Proof.
  intros E1 E2 t c. set (p := repo_path m) in *.
  assert (Hb0 : bare_at p (worktree d) ∅ w (initialized_empty p d w)).
  { split; [apply repo_at_set_dir|reflexivity]. }
  destruct (readme_step (opened m) p (worktree d) w _ Hb0) as (w3 & ix3 & Hb3 & Hsub & K3).
  fold t in Hb3, Hsub.
  destruct (untracked_step (opened m) p t ix3 w w3 Hb3 Hsub) as (w4 & [Hr4 Hc4] & K4).
  eexists. split.
  - unfold Manager.initialize.
    unfold self at 1. unfold gets at 1. unfold bind at 1. cbv beta iota. simpl fst.
    fold p.
    erewrite bind_Ok; cycle 1.
    { apply lift_run. unfold path_exists, gets. rewrite E1.
      rewrite bool_decide_eq_true_2 by eauto. reflexivity. }
    cbv beta. cbn [negb]. cbv iota. erewrite bind_Ok by reflexivity.
    erewrite bind_Ok by (eapply is_initialized_plain; eauto). cbv iota.
    erewrite bind_Ok; cycle 1.
    { apply lift_run. unfold Repo_init, bind, log_call, modify. simpl.
      rewrite E1. simpl. rewrite E2. reflexivity. }
    erewrite bind_Ok by reflexivity. cbv beta.
    change (mkGitManager (repo_path (fst (m, _))) (Some (mkRepo p))) with (opened m).
    cbn [snd].
    change (set_dir p _ _) with (initialized_empty p d w).
    unfold bind at 1. rewrite K3, K4.
    erewrite bind_Ok; cycle 1.
    { erewrite try_catch_Raise; [reflexivity|].
      erewrite bind_Raise; [reflexivity|].
      apply lift_run. unfold iter_commits.
      erewrite bind_Ok by (eapply repo_state_repo; exact Hr4). reflexivity. }
    cbv beta. cbn [negb]. cbv iota.
    erewrite try_catch_Ok; cycle 1.
    { erewrite bind_Ok by (apply lift_run; eapply index_commit_run; exact Hr4).
      reflexivity. }
    cbv beta iota. unfold new_commit. cbn [head_sha bare HEAD heads index].
    rewrite lookup_empty, Hc4. reflexivity.
  - unfold committed, new_commit. cbn [head_sha bare HEAD heads index objects].
    rewrite lookup_empty, Hc4. rewrite repo_at_set_dir. reflexivity.
Qed.

Lemma first_repo_head (t : Tree) (now : Z) :
  rev_commit (first_repo t now) "HEAD" = Some (first_commit t now).
Proof.
  unfold rev_commit, rev_sha, head_sha, first_repo. cbn.
  rewrite ?lookup_singleton_eq, ?lookup_insert_eq. cbn.
  first [apply lookup_singleton_eq | apply lookup_insert_eq].
Qed.

Lemma with_readme_keeps (t : Tree) (f content : string) :
  t !! f = Some content -> with_readme t !! f = Some content.
Proof.
  intros Hf. unfold with_readme. destruct (t !! "README.md") eqn:E; [exact Hf|].
  rewrite lookup_insert_ne; [exact Hf|]. intros <-. congruence.
Qed.



(** [initialize] where the path does not exist: the directory is created
    and the call goes on as in an empty directory *)
Lemma initialize_missing_dir (m : GitManager) (w : World) (b : bool) :
  fs w !! repo_path m = None ->
  Manager.initialize b (m, w)
  = Manager.initialize b (m, set_dir (repo_path m) (mkDir ∅ None) w).
Proof.
  intros E. set (p := repo_path m) in *. set (w1 := set_dir p (mkDir ∅ None) w).
  assert (Hl : forall (K : unit -> Meth string),
             bind (lift (path_exists p))
               (fun ex => bind (if negb ex then lift (mkdir p) else ret tt) K) (m, w)
             = K tt (m, w1)).
  { intros K. unfold bind, lift, path_exists, gets, mkdir, modify, ret. simpl.
    rewrite E. rewrite bool_decide_eq_false_2 by (intros [? ?]; discriminate).
    simpl. now rewrite E. }
  assert (Hr : forall (K : unit -> Meth string),
             bind (lift (path_exists p))
               (fun ex => bind (if negb ex then lift (mkdir p) else ret tt) K) (m, w1)
             = K tt (m, w1)).
  { intros K. unfold bind, lift, path_exists, gets, mkdir, modify, ret. simpl.
    rewrite lookup_insert_eq. rewrite bool_decide_eq_true_2 by eauto. reflexivity. }
  assert (Hboth : exists X : result string * (GitManager * World),
             Manager.initialize b (m, w) = X /\ Manager.initialize b (m, w1) = X).
  { eexists. split.
    - unfold Manager.initialize.
      unfold self at 1. unfold gets at 1. unfold bind at 1. cbv beta iota. simpl fst.
      fold p. rewrite Hl. reflexivity.
    - unfold Manager.initialize.
      unfold self at 1. unfold gets at 1. unfold bind at 1. cbv beta iota. simpl fst.
      fold p. rewrite Hr. reflexivity. }
  destruct Hboth as (X & -> & ->). reflexivity.
Qed.

(** X11. [initialize] never alters or removes a file of the directory: in
    an existing directory the files afterwards are the files from before,
    to which README.md is added when an initial commit was asked for in a
    directory that was not a repository and had none. *)
Theorem initialize_keeps_files (m : GitManager) (w : World) (d : Dir) (b : bool) :
  fs w !! repo_path m = Some d ->
  exists d',
    fs (snd (snd (Manager.initialize b (m, w)))) !! repo_path m = Some d'
    /\ (worktree d' = worktree d
        \/ (b = true /\ dotgit d = None /\ worktree d !! "README.md" = None
            /\ worktree d' = <["README.md" := Manager.readme_text]> (worktree d)))
    /\ forall f content, worktree d !! f = Some content ->
                         worktree d' !! f = Some content.
Proof.
  intros E1. destruct (dotgit d) as [g|] eqn:E2.
  - rewrite initialize_existing by (red; unfold repo_at; rewrite E1; cbn; rewrite E2; cbn; eauto).
    cbn [snd]. exists d. split; [exact E1|]. split; [now left|auto].
  - destruct b.
    + destruct (initialize_true_plain m w d E1 E2) as (w' & Hrun & Hr).
      rewrite Hrun. cbn [snd]. apply repo_at_Some in Hr as [Hfs _].
      eexists. split; [exact Hfs|]. cbn [worktree]. split.
      * unfold with_readme. destruct (worktree d !! "README.md") eqn:E; [now left|].
        right. auto.
      * apply with_readme_keeps.
    + rewrite (initialize_false_plain m w d E1 E2). cbn [snd].
      unfold initialized_empty, set_dir. cbn [fs]. rewrite lookup_insert_eq.
      eexists. split; [reflexivity|]. cbn [worktree]. split; [now left|auto].
Qed.

(** X12. [initialize] on a path that does not exist creates the directory
    and initializes it: without an initial commit it leaves an empty
    directory with a repository that has no commit; with one, the directory
    holds README.md alone and the first commit is exactly that file. *)
Theorem initialize_creates_directory (m : GitManager) (w : World) :
  fs w !! repo_path m = None ->
  (exists d' g',
     fst (Manager.initialize false (m, w))
     = Ok ("Initialized empty git repository at " ++ repo_path m)
     /\ repo_at (snd (snd (Manager.initialize false (m, w)))) (repo_path m)
        = Some (d', g')
     /\ worktree d' = ∅ /\ objects g' = ∅ /\ index g' = ∅)
  /\ (exists c d' g',
        fst (Manager.initialize true (m, w))
        = Ok ("Initialized repository with initial commit: " ++ Py.prefix 7 (hexsha c))
        /\ repo_at (snd (snd (Manager.initialize true (m, w)))) (repo_path m)
           = Some (d', g')
        /\ worktree d' = {[ "README.md" := Manager.readme_text ]}
        /\ rev_commit g' "HEAD" = Some c
        /\ tree c = worktree d').
Proof.
  intros E. rewrite !(initialize_missing_dir m w _ E).
  set (w1 := set_dir (repo_path m) (mkDir ∅ None) w).
  assert (E1 : fs w1 !! repo_path m = Some (mkDir ∅ None)) by apply lookup_insert_eq.
  split.
  - rewrite (initialize_false_plain m w1 _ E1 eq_refl). cbn [fst snd].
    eexists _, _. split; [reflexivity|]. split; [apply repo_at_set_dir|].
    repeat split; reflexivity.
  - destruct (initialize_true_plain m w1 _ E1 eq_refl) as (w' & Hrun & Hr).
    rewrite Hrun. cbn [fst snd].
    eexists _, _, _. split; [reflexivity|]. split; [exact Hr|].
    split; [|split; [apply first_repo_head|reflexivity]].
    cbn [worktree]. unfold with_readme. rewrite lookup_empty. reflexivity.
Qed.

End FirstCommit.

(** ** The branch listing *)

Section Branches.
Context `{GitEngine}.

Lemma map_is_fmap {A B} (f : A -> B) (l : list A) : map f l = f <$> l.
Proof. induction l as [|x l IH]; cbn; [reflexivity|]. now rewrite IH. Qed.

Lemma branch_infos_spec p w d g current hs :
  repo_at w p = Some (d, g) ->
  forall m infos s,
    Manager.branch_infos (mkRepo p) current hs (m, w) = (Ok infos, s) ->
    s = (m, w)
    /\ map Models.name infos = map fst hs
    /\ Forall (fun i => Models.is_current i
                        = bool_decide (Some (Models.name i) = current)) infos.
Proof.
  intros Hr. induction hs as [|[nm tip] rest IH]; intros m infos s Hrun.
  - injection Hrun as <- <-. repeat split; constructor.
  - cbn [Manager.branch_infos] in Hrun. unfold bind at 1 in Hrun.
    assert (Hbc : lift (branch_commit (mkRepo p) tip) (m, w)
                  = (match objects g !! tip with
                     | Some c => Ok c
                     | None => Raise (ValueError
                                 ("Reference does not point to a commit: " ++ tip))
                     end, (m, w))).
    { apply lift_run. unfold branch_commit.
      erewrite bind_Ok by (eapply repo_state_repo; eauto). cbn [snd].
      now destruct (objects g !! tip). }
    rewrite Hbc in Hrun. destruct (objects g !! tip) as [c|]; [|discriminate Hrun].
    unfold bind at 1 in Hrun.
    destruct (Manager.branch_infos (mkRepo p) current rest (m, w))
      as [[infos'|e] s'] eqn:Erest; [|discriminate Hrun].
    destruct (IH m infos' s' Erest) as (-> & Hnames & Hcur).
    injection Hrun as <- <-. split; [reflexivity|]. split.
    + cbn. now rewrite Hnames.
    + constructor; [reflexivity|exact Hcur].
Qed.

Lemma count_absent (infos : list Models.BranchInfo) (b : string) :
  Forall (fun i => Models.is_current i = bool_decide (Models.name i = b)) infos ->
  b ∉ map Models.name infos ->
  List.filter Models.is_current infos = [].
Proof.
  induction 1 as [|i rest Hi _ IH]; intros Hnin; [reflexivity|].
  cbn [List.filter]. rewrite Hi.
  rewrite bool_decide_eq_false_2 by (intros <-; apply Hnin; left).
  apply IH. intros Hin. apply Hnin. now right.
Qed.

Lemma count_present (infos : list Models.BranchInfo) (b : string) :
  Forall (fun i => Models.is_current i = bool_decide (Models.name i = b)) infos ->
  NoDup (map Models.name infos) -> b ∈ map Models.name infos ->
  exists i, List.filter Models.is_current infos = [i] /\ Models.name i = b.
Proof.
  induction 1 as [|i rest Hi Hrest IH]; intros Hnd Hin; [inversion Hin|].
  cbn [map] in Hnd, Hin. apply NoDup_cons in Hnd as [Hnin Hnd].
  cbn [List.filter]. rewrite Hi.
  destruct (decide (Models.name i = b)) as [Heq|Hne].
  - rewrite bool_decide_eq_true_2 by exact Heq.
    rewrite (count_absent rest b Hrest) by (now rewrite <- Heq). eauto.
  - rewrite bool_decide_eq_false_2 by exact Hne.
    apply IH; [exact Hnd|]. apply elem_of_cons in Hin as [Heq|Hin]; [|exact Hin].
    now contradiction Hne.
Qed.

Lemma current_branch_run (m : GitManager) p w d g :
  repo_at w p = Some (d, g) ->
  try_catch (bind (lift (active_branch_name (mkRepo p))) (fun b => ret (Some b)))
    (fun e => match e with
              | TypeError _ => ret None
              | _ => raise e
              end) (m, w)
  = (Ok (match HEAD g with Attached b => Some b | Detached _ => None end), (m, w)).
Proof.
  intros Hr. unfold try_catch. unfold bind at 1. unfold lift, active_branch_name.
  simpl. erewrite bind_Ok by (eapply repo_state_repo; eauto). simpl.
  now destruct (HEAD g).
Qed.

(** X13. What [list_branches] returns has one entry per local branch,
    each name once. With HEAD on an existing branch exactly one entry is
    marked current, the one of that branch; with HEAD detached, or on a
    branch that has no commit yet, none is. *)
Theorem list_branches_marks_current (m : GitManager) (w : World) (d : Dir) (g : GitDir)
    (infos : list Models.BranchInfo) (s : GitManager * World) :
  session_ok m -> repo_at w (repo_path m) = Some (d, g) ->
  Manager.list_branches (m, w) = (Ok infos, s) ->
  map Models.name infos = map fst (map_to_list (heads g))
  /\ NoDup (map Models.name infos)
  /\ (forall b, HEAD g = Attached b -> is_Some (heads g !! b) ->
        exists i, List.filter Models.is_current infos = [i] /\ Models.name i = b)
  /\ (forall b, HEAD g = Attached b -> heads g !! b = None ->
        List.filter Models.is_current infos = [])
  /\ (forall c, HEAD g = Detached c -> List.filter Models.is_current infos = []).
Proof.
  intros Hs Hr Hrun. unfold Manager.list_branches in Hrun.
  erewrite bind_Ok in Hrun by (eapply repo_opens; eauto). cbv beta in Hrun.
  erewrite bind_Ok in Hrun by (eapply current_branch_run; eauto).
  cbv beta in Hrun.
  erewrite bind_Ok in Hrun; cycle 1.
  { apply lift_run. unfold repo_heads.
    erewrite bind_Ok by (eapply repo_state_repo; eauto). reflexivity. }
  cbv beta in Hrun. cbn [snd] in Hrun.
  destruct (branch_infos_spec _ _ _ _ _ _ Hr _ _ _ Hrun) as (_ & Hnames & Hcur).
  assert (Hnd : NoDup (map Models.name infos)).
  { rewrite Hnames, map_is_fmap. apply NoDup_fst_map_to_list. }
  assert (Hin : forall b, b ∈ map Models.name infos <-> is_Some (heads g !! b)).
  { intros b. rewrite Hnames, list_elem_of_In, in_map_iff. split.
    - intros ([q c] & <- & Hqc). apply list_elem_of_In, elem_of_map_to_list in Hqc.
      cbn. eauto.
    - intros [c Hc]. exists (b, c). split; [reflexivity|].
      now apply list_elem_of_In, elem_of_map_to_list. }
  split; [exact Hnames|]. split; [exact Hnd|].
  split; [|split].
  - intros b Hb Hsome. rewrite Hb in Hcur. apply (count_present infos b); auto.
    + eapply Forall_impl; [exact Hcur|]. intros i ->. cbn.
      apply bool_decide_ext. split; congruence.
    + now apply Hin.
  - intros b Hb Hnone. rewrite Hb in Hcur. apply (count_absent infos b).
    + eapply Forall_impl; [exact Hcur|]. intros i ->. cbn.
      apply bool_decide_ext. split; congruence.
    + rewrite Hin, Hnone. intros [? ?]; discriminate.
  - intros c Hc. rewrite Hc in Hcur. clear -Hcur.
    induction Hcur as [|i rest Hi _ IH]; [reflexivity|].
    cbn [List.filter]. rewrite Hi.
    rewrite bool_decide_eq_false_2 by discriminate. exact IH.
Qed.

End Branches.

(** ** Rolling back *)

Section Rollback.
Context `{GitEngine}.





End Rollback.

(** ** Creating a branch, then switching to it *)

Section CreateThenSwitch.
Context `{GitEngine}.

Lemma map_filter_none (P : string * string -> Prop) `{!forall x, Decision (P x)}
    (t : Tree) :
  (forall i x, t !! i = Some x -> ~ P (i, x)) -> filter P t = ∅.
Proof.
  intros Hn. apply map_empty. intros i. apply map_lookup_filter_None. right.
  intros x Hx. now apply Hn.
Qed.

(** between equal trees a checkout replaces nothing *)
Lemma switch_tree_same (cur t : Tree) : switch_tree cur cur t = t.
Proof.
  unfold switch_tree. rewrite map_filter_none by (intros i x _ Hne; now apply Hne).
  rewrite (map_filter_id _ t) by reflexivity. apply (left_id_L ∅ (∪)).
Qed.

(** ... and nothing blocks it *)
Lemma checkout_not_blocked (cur ix t : Tree) : checkout_blocked cur cur ix t = false.
Proof.
  unfold checkout_blocked. induction (elements (dom cur ∪ dom cur)) as [|p ps IH];
    [reflexivity|].
  cbn [existsb]. rewrite IH.
  rewrite (bool_decide_eq_false_2 (cur !! p ≠ cur !! p)) by (intros Hne; now apply Hne).
  reflexivity.
Qed.

Lemma checkout_same_tree p w d g x sha c hc :
  repo_at w p = Some (d, g) ->
  heads g !! x = Some sha -> objects g !! sha = Some c ->
  rev_commit g "HEAD" = Some hc -> tree c = tree hc ->
  checkout (mkRepo p) x w
  = (Ok tt,
     set_dir p (mkDir (worktree d)
                  (Some (mkGitDir (objects g) (heads g) (Attached x) (index g))))
       (logged (CallCheckout p x) w)).
Proof.
  intros Hr Hx Ho Hh Ht. unfold checkout. unfold bind at 1. unfold log_call, modify.
  erewrite bind_Ok; cycle 1.
  { eapply repo_state_repo.
    exact (Hr : repo_at (logged (CallCheckout p x) w) p = Some (d, g)). }
  cbv beta zeta. cbn [fst snd]. rewrite Hh, Hx. cbn [mbind option_bind].
  rewrite Ho. cbn [fmap option_fmap option_map default from_option id].
  rewrite Ht, checkout_not_blocked, !switch_tree_same. reflexivity.
Qed.

(** a branch created without a start point sits at the head commit *)
Lemma create_head_at_head p w d g x w1 :
  repo_at w p = Some (d, g) ->
  create_head (mkRepo p) x None w = (Ok tt, w1) ->
  exists d1 g1 sha,
    repo_at w1 p = Some (d1, g1)
    /\ branch_frame x d g d1 g1
    /\ head_sha g = Some sha
    /\ heads g1 !! x = Some sha.
Proof.
  intros Hr Hrun. unfold create_head in Hrun.
  unfold bind at 1 in Hrun. unfold log_call, modify in Hrun.
  set (w0 := logged (CallCreateHead p x) w).
  assert (Hr0 : repo_at w0 p = Some (d, g)) by exact Hr.
  change (mkWorld (fs w) (calls w ++ [CallCreateHead (working_dir (mkRepo p)) x]) (clock w))
    with w0 in Hrun.
  erewrite bind_Ok in Hrun by (eapply repo_state_repo; exact Hr0).
  cbv beta in Hrun. cbn [fst snd] in Hrun.
  destruct (ref_name_ok x); cbn [negb] in Hrun; [|discriminate Hrun].
  destruct (head_sha g) as [sha|] eqn:Eh; [|discriminate Hrun].
  destruct (heads g !! x) as [old|] eqn:Ex.
  - destruct (String.eqb old sha) eqn:Eo; [|discriminate Hrun].
    apply String.eqb_eq in Eo. subst old. injection Hrun as <-.
    exists d, g, sha. split; [exact Hr0|]. split; [apply branch_frame_refl|]. auto.
  - injection Hrun as <-. eexists _, _, sha. split; [apply repo_at_set_dir|]. split.
    + unfold branch_frame. cbn. repeat split; try reflexivity.
      * intros b s Hb. destruct (decide (x = b)) as [->|Hne]; [congruence|].
        now rewrite lookup_insert_ne.
      * intros b Hne. now rewrite lookup_insert_ne.
    + split; [reflexivity|]. cbn. apply lookup_insert_eq.
Qed.

Lemma frame_head x d g d1 g1 hc :
  branch_frame x d g d1 g1 -> rev_commit g "HEAD" = Some hc ->
  rev_commit g1 "HEAD" = Some hc.
Proof.
  intros (_ & HH & _ & Ho & Hkeep & _) Hh. rewrite <- Hh.
  unfold rev_commit, rev_sha, head_sha in *. cbn [String.eqb Ascii.eqb Bool.eqb] in *.
  rewrite HH, Ho. destruct (HEAD g) as [b|s]; [|reflexivity].
  destruct (heads g !! b) as [s|] eqn:Eb; [|discriminate Hh].
  now rewrite (Hkeep b s Eb).
Qed.

Lemma status_of_switch d g d2 g2 x hc st :
  rev_commit g "HEAD" = Some hc -> rev_commit g2 "HEAD" = Some hc ->
  index g2 = index g -> worktree d2 = worktree d -> HEAD g2 = Attached x ->
  status_of d g = Ok st ->
  status_of d2 g2
  = Ok (Models.mkRepoStatus true (Some x) (Models.has_changes st)
          (Models.staged_files st) (Models.modified_files st)
          (Models.untracked_files st)).
Proof.
  intros Hh Hh2 Hi Hw HH. unfold status_of, tracked, untracked_of.
  rewrite Hh, Hh2, Hi, Hw, HH. unfold bind.
  destruct (require_strs "staged_files" _ tt) as [[s1|e1] []]; [|discriminate].
  destruct (require_strs "modified_files" _ tt) as [[s2|e2] []]; [|discriminate].
  cbn. intros [= <-]. reflexivity.
Qed.

(** X15. After [create_branch] (no start point) has returned on a
    repository whose HEAD has a commit, [switch_branch] to the new name
    succeeds and returns the name: HEAD is then on that branch, at the same
    commit; index and working files are those from before the two calls,
    and the status is the one from before with the new current branch. *)
Theorem create_then_switch (m : GitManager) (w : World) (d : Dir) (g : GitDir)
    (x nm : string) (hc : Commit) (s1 : GitManager * World) :
  session_ok m -> repo_at w (repo_path m) = Some (d, g) ->
  rev_commit g "HEAD" = Some hc ->
  Manager.create_branch x None (m, w) = (Ok nm, s1) ->
  let out := Manager.switch_branch x s1 in
  exists d2 g2,
    fst out = Ok x
    /\ repo_at (snd (snd out)) (repo_path m) = Some (d2, g2)
    /\ HEAD g2 = Attached x
    /\ rev_commit g2 "HEAD" = Some hc
    /\ worktree d2 = worktree d
    /\ index g2 = index g
    /\ forall st, fst (Manager.get_status (m, w)) = Ok st ->
         fst (Manager.get_status (snd out))
         = Ok (Models.mkRepoStatus true (Some x) (Models.has_changes st)
                 (Models.staged_files st) (Models.modified_files st)
                 (Models.untracked_files st)).
Proof.
  intros Hs Hr Hh Hrun out. set (p := repo_path m) in *.
  unfold Manager.create_branch in Hrun.
  erewrite bind_Ok in Hrun by (eapply repo_opens; eauto). cbv beta in Hrun.
  unfold bind at 1 in Hrun. unfold lift in Hrun. cbn [fst snd] in Hrun.
  fold p in Hrun.
  destruct (create_head (mkRepo p) x None w) as [[[]|e] w1] eqn:Ec;
    cbv beta iota in Hrun; cbn [ret fst snd] in Hrun; [|discriminate Hrun].
  injection Hrun as <- <-.
  destruct (create_head_at_head p w d g x w1 Hr Ec)
    as (d1 & g1 & sha & Hr1 & Hf & Hsha & Hx).
  pose proof (frame_head x d g d1 g1 hc Hf Hh) as Hh1.
  pose proof Hf as (Hw1 & HH1 & Hi1 & Ho1 & _).
  assert (Hobj : objects g1 !! sha = Some hc).
  { rewrite Ho1. unfold rev_commit, rev_sha in Hh.
    cbn [String.eqb Ascii.eqb Bool.eqb] in Hh. rewrite Hsha in Hh. exact Hh. }
  set (g2 := mkGitDir (objects g1) (heads g1) (Attached x) (index g1)).
  set (w2 := set_dir p (mkDir (worktree d1) (Some g2)) (logged (CallCheckout p x) w1)).
  assert (Hr2 : repo_at w2 p = Some (mkDir (worktree d1) (Some g2), g2))
    by apply repo_at_set_dir.
  assert (Hh2 : rev_commit g2 "HEAD" = Some hc).
  { unfold rev_commit, rev_sha, head_sha. cbn. rewrite Hx. cbn. exact Hobj. }
  assert (Hout : out = (Ok x, (opened m, w2))).
  { subst out. unfold Manager.switch_branch.
    erewrite bind_Ok by (eapply (repo_opens (opened m)); [apply session_ok_opened|exact Hr1]).
    cbv beta.
    erewrite bind_Ok; cycle 1.
    { apply try_catch_Ok. apply lift_run. unfold repo_head.
      erewrite bind_Ok by (eapply repo_state_repo; exact Hr1).
      cbn [snd]. rewrite Hx. reflexivity. }
    cbv beta.
    erewrite bind_Ok; cycle 1.
    { apply lift_run. eapply (checkout_same_tree p w1 d1 g1 x sha hc hc); eauto. }
    cbv beta. apply lift_run. unfold active_branch_name.
    erewrite bind_Ok by (eapply repo_state_repo; exact Hr2). reflexivity. }
  rewrite Hout. cbn [fst snd].
  exists (mkDir (worktree d1) (Some g2)), g2.
  split; [reflexivity|]. split; [exact Hr2|]. split; [reflexivity|].
  split; [exact Hh2|]. split; [exact Hw1|]. split; [exact Hi1|].
  intros st Hst. rewrite (get_status_run m w d g Hs Hr) in Hst. cbn [fst] in Hst.
  rewrite (get_status_run (opened m) w2 _ g2 (session_ok_opened m) Hr2). cbn [fst].
  eapply (status_of_switch d g); eauto.
Qed.

End CreateThenSwitch.

(** ** Comparing equal trees, and committing through the dispatcher *)

Section SameTree.
Context `{GitEngine}.

(** A diff engine reports no entry between a tree and itself. *)
Hypothesis diff_same : forall t : Tree, diff_trees t t = [].

(** X16. [compare_commits] between two identifiers whose commits have the
    same tree (the same commit twice, for one) returns the empty diff: no
    file, totals 0, and the summary for zero files. *)
Theorem compare_commits_same_tree (m : GitManager) (w : World) (d : Dir) (g : GitDir)
    (a b : string) (ca cb : Commit) :
  session_ok m -> repo_at w (repo_path m) = Some (d, g) ->
  rev_commit g a = Some ca -> rev_commit g b = Some cb -> tree ca = tree cb ->
  Manager.compare_commits a b (m, w)
  = (Ok (Models.mkCommitDiff a b [] 0 0
           "0 files changed, 0 insertions(+), 0 deletions(-)"),
     (opened m, w)).
Proof.
  intros Hs Hr Ha Hb Ht.
  destruct (compare_commits_run m w d g a b ca cb Hs Hr Ha Hb) as [Hex Hprops].
  assert (Hd : commit_diff ca cb = []).
  { unfold commit_diff. rewrite Ht. apply diff_same. }
  destruct Hex as [cd Hrun]; [rewrite Hd; constructor|].
  destruct (Hprops cd _ Hrun) as (_ & Hfrom & Hto & Hall & Hta & Htd & Hsum).
  rewrite Hrun. f_equal. rewrite Hd in Hall. apply Forall2_nil_inv_l in Hall.
  destruct cd as [fr to fl ta td sm].
  cbn [Models.from_commit Models.to_commit Models.files Models.total_additions
       Models.total_deletions Models.summary] in *.
  subst. reflexivity.
Qed.

End SameTree.

Section CommitThroughDispatcher.
Context `{GitEngine}.


End CommitThroughDispatcher.

(** ** Limits of a listing, and switching to the current branch *)

Section ListingLimits.
Context `{GitEngine}.

Lemma limit_commits_take (n : Z) (l : list Commit) :
  0 <= n -> limit_commits (Some n) l = take (Z.to_nat n) l.
Proof.
  intros Hn. unfold limit_commits.
  destruct (n <? 0) eqn:E; [apply Z.ltb_lt in E; lia|reflexivity].
Qed.

(** X18. Listings of the same ref under two limits agree: for
    0 <= n <= n' the commits returned under limit n are the first n of
    those returned under n', [total_count] is the smaller of n and the
    count under n', and the branch label is the same; each entry's short
    id is the first seven characters of its id. *)
Theorem list_commits_limits_agree (m : GitManager) (w : World) (d : Dir) (g : GitDir)
    (ref : string) (n n' : Z) (c : Commit) :
  session_ok m -> repo_at w (repo_path m) = Some (d, g) ->
  rev_commit g ref = Some c -> 0 <= n -> n <= n' ->
  exists cl cl',
    fst (Manager.list_commits ref n (m, w)) = Ok cl
    /\ fst (Manager.list_commits ref n' (m, w)) = Ok cl'
    /\ Models.commits cl = take (Z.to_nat n) (Models.commits cl')
    /\ Models.total_count cl = Z.min n (Models.total_count cl')
    /\ Models.branch cl = Models.branch cl'
    /\ Forall (fun i => Models.short_sha i = Py.prefix 7 (Models.sha i))
         (Models.commits cl).
Proof.
  intros Hs Hr Hc Hn Hle.
  rewrite (list_commits_run m w d g ref n c Hs Hr Hc).
  rewrite (list_commits_run m w d g ref n' c Hs Hr Hc).
  cbv zeta. cbn [fst]. eexists _, _. split; [reflexivity|]. split; [reflexivity|].
  cbn [Models.commits Models.total_count Models.branch].
  rewrite !limit_commits_take by lia.
  set (l := rev_walk (objects g) (hexsha c)).
  assert (Htake : map Manager.commit_info (take (Z.to_nat n) l)
                  = take (Z.to_nat n) (map Manager.commit_info (take (Z.to_nat n') l))).
  { rewrite !map_is_fmap, <- fmap_take, take_take. f_equal. f_equal. lia. }
  split; [exact Htake|]. split.
  { rewrite !length_map, !length_take. lia. }
  split; [reflexivity|].
  apply Forall_forall. intros i Hi.
  apply list_elem_of_In, in_map_iff in Hi as (x & <- & _). reflexivity.
Qed.

(** X19. [switch_branch] to the branch HEAD is already on returns its
    name and changes nothing of the repository: HEAD, branches, commits,
    index and working files are as before. *)
Theorem switch_to_current_branch (m : GitManager) (w : World) (d : Dir) (g : GitDir)
    (b : string) (hc : Commit) :
  session_ok m -> repo_at w (repo_path m) = Some (d, g) ->
  HEAD g = Attached b -> rev_commit g "HEAD" = Some hc ->
  fst (Manager.switch_branch b (m, w)) = Ok b
  /\ repo_at (snd (snd (Manager.switch_branch b (m, w)))) (repo_path m)
     = Some (d, g).
Proof.
  intros Hs Hr Hb Hh. set (p := repo_path m) in *.
  pose proof Hh as Hh'. unfold rev_commit, rev_sha, head_sha in Hh'.
  cbn [String.eqb Ascii.eqb Bool.eqb] in Hh'. rewrite Hb in Hh'.
  destruct (heads g !! b) as [sha|] eqn:Ex; [|discriminate Hh']. cbn in Hh'.
  set (g2 := mkGitDir (objects g) (heads g) (Attached b) (index g)).
  set (w2 := set_dir p (mkDir (worktree d) (Some g2)) (logged (CallCheckout p b) w)).
  assert (Hg : g2 = g).
  { subst g2. clear -Hb. destruct g as [o h hd i]. cbn in Hb |- *. now rewrite Hb. }
  assert (Hd : mkDir (worktree d) (Some g) = d).
  { pose proof Hr as [_ Hdg]%repo_at_Some. clear -Hdg.
    destruct d as [t o]. cbn in Hdg |- *. now rewrite Hdg. }
  assert (Hr2 : repo_at w2 p = Some (d, g)).
  { subst w2. rewrite repo_at_set_dir, Hg, Hd. reflexivity. }
  assert (Hout : Manager.switch_branch b (m, w) = (Ok b, (opened m, w2))).
  { unfold Manager.switch_branch.
    erewrite bind_Ok by (eapply repo_opens; eauto). cbv beta.
    erewrite bind_Ok; cycle 1.
    { apply try_catch_Ok. apply lift_run. unfold repo_head.
      erewrite bind_Ok by (eapply repo_state_repo; exact Hr).
      cbn [snd]. rewrite Ex. reflexivity. }
    cbv beta.
    erewrite bind_Ok; cycle 1.
    { apply lift_run. eapply (checkout_same_tree p w d g b sha hc hc); eauto. }
    cbv beta. apply lift_run. unfold active_branch_name.
    erewrite bind_Ok by (eapply repo_state_repo; apply repo_at_set_dir). reflexivity. }
  rewrite Hout. cbn [fst snd]. split; [reflexivity|exact Hr2].
Qed.

End ListingLimits.

(** ** Worked examples on concrete repositories *)

#[local] Existing Instance Toy.engine.

Lemma rollback_rejects_unknown_mode_witness :
  ("invalid" ∉ Manager.valid_modes)
  /\ fst (Manager.rollback "1111111111" "invalid" (Toy.mgr, Toy.two_commits))
     = Raise (ValueError "Mode must be one of: ['soft', 'mixed', 'hard']")
  /\ snd (snd (Manager.rollback "1111111111" "invalid" (Toy.mgr, Toy.two_commits)))
     = Toy.two_commits.
Proof.
  assert (Hm : "invalid" ∉ Manager.valid_modes).
  { intros Hin. unfold Manager.valid_modes in Hin.
    repeat (apply elem_of_cons in Hin; destruct Hin as [Hin|Hin]; [discriminate Hin|]).
    inversion Hin. }
  pose proof (rollback_rejects_unknown_mode Toy.mgr Toy.two_commits "1111111111" "invalid" Hm)
    as (_ & Hw & _ & He).
  split; [exact Hm|]. split; [|exact Hw].
  apply He; [apply session_ok_init|]. vm_compute. eauto.
Defined.

Lemma initialize_idempotent_witness :
  has_repo (repo_path Toy.mgr) Toy.two_commits
  /\ Manager.initialize true (Toy.mgr, Toy.two_commits)
     = (Ok "Repository already initialized at /srv/app", (Toy.mgr, Toy.two_commits)).
Proof.
  assert (Hr : has_repo (repo_path Toy.mgr) Toy.two_commits) by (vm_compute; eauto).
  split; [exact Hr|].
  exact (proj1 (initialize_idempotent Toy.mgr Toy.two_commits true) Hr).
Defined.

Lemma unborn_head_raises_witness :
  session_ok Toy.mgr
  /\ objects empty_git = ∅
  /\ fst (Manager.get_status (Toy.mgr, Toy.unborn)) = Raise (BadName "HEAD")
  /\ fst (Manager.commit_all "first" (Toy.mgr, Toy.unborn)) = Raise (BadName "HEAD")
  /\ fst (Tools.commit_all_changes "/srv/app" "first" Toy.plain_dir) = Raise (BadName "HEAD").
Proof.
  assert (Hs : session_ok Toy.mgr) by apply session_ok_init.
  assert (Hr : repo_at Toy.unborn (repo_path Toy.mgr)
               = Some (mkDir {[ "main.py" := "print(1)" ]} (Some empty_git), empty_git))
    by (vm_compute; reflexivity).
  destruct (unborn_head_raises Toy.mgr Toy.unborn _ _ "first" Hs Hr eq_refl)
    as (Hst & Hc & Ht).
  split; [exact Hs|]. split; [reflexivity|]. split; [exact Hst|]. split; [exact Hc|].
  apply (Ht "/srv/app" Toy.plain_dir (mkDir {[ "main.py" := "print(1)" ]} None));
    [vm_compute; reflexivity | reflexivity].
Defined.

Lemma two_commits_repo :
  repo_at Toy.two_commits (repo_path Toy.mgr)
  = Some (Toy.two_commits_dir, Toy.git_two (Attached "main")).
Proof. vm_compute. reflexivity. Qed.

Lemma two_commits_first :
  rev_commit (Toy.git_two (Attached "main")) "1111111111" = Some Toy.c1.
Proof. vm_compute. reflexivity. Qed.

Lemma two_commits_main :
  rev_commit (Toy.git_two (Attached "main")) "main" = Some Toy.c2.
Proof. vm_compute. reflexivity. Qed.

Lemma two_commits_HEAD :
  rev_commit (Toy.git_two (Attached "main")) "HEAD" = Some Toy.c2.
Proof. vm_compute. reflexivity. Qed.

Lemma two_commits_paths :
  Forall (fun e => is_Some (Py.or_else (b_path e) (a_path e))) (commit_diff Toy.c1 Toy.c2).
Proof.
  apply (bool_decide_eq_true_1
           (Forall (fun e => is_Some (Py.or_else (b_path e) (a_path e)))
                   (commit_diff Toy.c1 Toy.c2))).
  vm_compute. reflexivity.
Qed.

Lemma compare_commits_totals_witness :
  exists cd,
    fst (Manager.compare_commits "1111111111" "main" (Toy.mgr, Toy.two_commits)) = Ok cd
    /\ Models.summary cd = "2 files changed, 2 insertions(+), 1 deletions(-)"
    /\ Models.total_additions cd = sumZ (map Models.additions (Models.files cd)).
Proof.
  destruct (compare_commits_totals Toy.mgr Toy.two_commits _ _ "1111111111" "main"
              Toy.c1 Toy.c2 (session_ok_init _) two_commits_repo two_commits_first two_commits_main)
    as [Hex Hprops].
  destruct (Hex two_commits_paths) as [cd Hcd].
  exists cd. split; [exact Hcd|].
  destruct (Hprops cd Hcd) as (Hta & _ & Hsum & _).
  split; [|exact Hta].
  vm_compute in Hcd. injection Hcd as <-. reflexivity.
Defined.

Lemma compare_commits_entries_witness :
  exists cd,
    fst (Manager.compare_commits "1111111111" "main" (Toy.mgr, Toy.two_commits)) = Ok cd
    /\ Forall2 (fun e f =>
                  Models.status f = status_by_precedence e
                  /\ Models.patch f = Manager.diff_patch e
                  /\ Models.additions f = count_signed "+" (Models.patch f)
                  /\ Models.deletions f = count_signed "-" (Models.patch f)
                  /\ (Models.patch f = None ->
                      Models.additions f = 0 /\ Models.deletions f = 0))
               (commit_diff Toy.c1 Toy.c2) (Models.files cd).
Proof.
  destruct (compare_commits_run Toy.mgr Toy.two_commits _ _ "1111111111" "main"
              Toy.c1 Toy.c2 (session_ok_init _) two_commits_repo two_commits_first two_commits_main)
    as [Hex _].
  destruct (Hex two_commits_paths) as [cd Hrun].
  assert (Hcd : fst (Manager.compare_commits "1111111111" "main" (Toy.mgr, Toy.two_commits))
                = Ok cd) by (now rewrite Hrun).
  exists cd. split; [exact Hcd|].
  exact (compare_commits_entries Toy.mgr Toy.two_commits _ _ "1111111111" "main"
           Toy.c1 Toy.c2 (session_ok_init _) two_commits_repo two_commits_first two_commits_main cd Hcd).
Defined.

Lemma list_commits_count_and_label_witness :
  exists cl,
    fst (Manager.list_commits "HEAD" 1 (Toy.mgr, Toy.two_commits)) = Ok cl
    /\ Models.total_count cl = Z.of_nat (length (Models.commits cl))
    /\ Models.total_count cl <= 1
    /\ Models.branch cl = "main".
Proof.
  destruct (list_commits_count_and_label Toy.mgr Toy.two_commits _ _ "HEAD" 1 Toy.c2
              (session_ok_init _) two_commits_repo two_commits_HEAD)
    as (cl & Hcl & Hcount & Hle & Hattached & _).
  exists cl. split; [exact Hcl|]. split; [exact Hcount|].
  split; [apply Hle; lia|]. now apply Hattached.
Defined.

(** With HEAD detached, the label for the ref HEAD is the fixed string
    HEAD (detached), not the ref as given. *)
Lemma list_commits_detached_label :
  exists cl,
    fst (Manager.list_commits "HEAD" 10 (Toy.mgr, Toy.detached)) = Ok cl
    /\ Models.branch cl = "HEAD (detached)"
    /\ Models.branch cl <> "HEAD".
Proof.
  eexists. split; [vm_compute; reflexivity|]. split; [reflexivity|]. discriminate.
Qed.

Lemma create_branch_does_not_switch_witness :
  let out := Manager.create_branch "feature" None (Toy.mgr, Toy.two_commits) in
  fst out = Ok "feature"
  /\ exists d' g',
       repo_at (snd (snd out)) (repo_path Toy.mgr) = Some (d', g')
       /\ HEAD g' = Attached "main"
       /\ is_Some (heads g' !! "feature")
       /\ worktree d' = tree Toy.c2.
Proof.
  intros out.
  assert (Hout : fst out = Ok "feature") by (vm_compute; reflexivity).
  split; [exact Hout|].
  destruct (create_branch_does_not_switch Toy.mgr Toy.two_commits _ _ "feature" None
              (session_ok_init _) two_commits_repo)
    as (d' & g' & Hr & HH & Hw & _ & Hok & _).
  exists d', g'. split; [exact Hr|]. split; [exact HH|].
  split; [exact (proj2 (Hok _ Hout))|exact Hw].
Defined.

Lemma plain_dir_no_repo :
  fs Toy.plain_dir !! resolve_path "/srv/app"
  = Some (mkDir {[ "main.py" := "print(1)" ]} None).
Proof. vm_compute. reflexivity. Qed.

Lemma only_commit_all_changes_initializes_witness :
  Tools.switch_branch None "/srv/app" "main" Toy.plain_dir
  = (Raise (ValueError
              "Git repository not initialized at /srv/app. Call initialize_repo first."),
     Toy.plain_dir)
  /\ has_repo "/srv/app" (snd (Tools.commit_all_changes "/srv/app" "first" Toy.plain_dir)).
Proof.
  destruct (only_commit_all_changes_initializes None "/srv/app" Toy.plain_dir _
              eq_refl plain_dir_no_repo eq_refl)
    as (_ & _ & _ & _ & Hsw & _ & _ & _ & Hc).
  split; [exact (Hsw "main")|exact (proj1 (Hc "first"))].
Defined.

(** generate_commit_message is an operation on a repository other than the
    status query, and in a directory without a repository it answers
    instead of raising the not-initialized error. *)
Lemma generate_commit_message_without_repository :
  Tools.generate_commit_message None "/srv/app" "conventional" Toy.plain_dir
  = (Ok (Text "No changes to describe"), Toy.plain_dir)
  /\ Tools.generate_commit_message None "/srv/app" "conventional" Toy.plain_dir
     <> (Raise (ValueError (Manager.not_initialized_msg "/srv/app")), Toy.plain_dir).
Proof.
  assert (E : Tools.generate_commit_message None "/srv/app" "conventional" Toy.plain_dir
              = (Ok (Text "No changes to describe"), Toy.plain_dir))
    by (vm_compute; reflexivity).
  split; [exact E|]. rewrite E. discriminate.
Qed.

(** C2 at a path that does not exist: [get_status] and [is_initialized]
    raise NoSuchPathError instead of returning the uninitialized status and
    false. *)
Theorem get_status_missing_path_raises :
  fs Toy.nowhere !! "/srv/app" = None
  /\ fst (Manager.get_status (Toy.mgr, Toy.nowhere)) = Raise (NoSuchPathError "/srv/app")
  /\ fst (Manager.is_initialized (Toy.mgr, Toy.nowhere)) = Raise (NoSuchPathError "/srv/app").
Proof.
  assert (E : fs Toy.nowhere !! repo_path Toy.mgr = None) by reflexivity.
  destruct (get_status_missing Toy.mgr Toy.nowhere E) as [Hs Hi].
  split; [exact E|]. now rewrite Hs, Hi.
Qed.

(** C1 on a repository without commits, one file waiting to be committed:
    [commit_all] stages the file, then raises; no commit is made and no
    identifier is returned. *)
Theorem commit_all_without_commits_raises :
  let out := Manager.commit_all "first" (Toy.mgr, Toy.unborn) in
  fst out = Raise (BadName "HEAD")
  /\ exists d g,
       repo_at (snd (snd out)) "/srv/app" = Some (d, g)
       /\ index g = {[ "main.py" := "print(1)" ]}
       /\ objects g = ∅.
Proof.
  intros out.
  assert (Hr : repo_at Toy.unborn (repo_path Toy.mgr)
               = Some (mkDir {[ "main.py" := "print(1)" ]} (Some empty_git), empty_git))
    by (vm_compute; reflexivity).
  subst out.
  rewrite (commit_all_unborn Toy.mgr Toy.unborn _ _ "first" (session_ok_init _) Hr eq_refl).
  split; [reflexivity|]. cbn [snd]. unfold added.
  eexists _, _. split; [apply repo_at_set_dir|]. split; reflexivity.
Qed.

(** ** Worked examples for the further properties *)

Lemma toy_diff_same (t : Tree) : diff_trees t t = [].
Proof.
  cbn. unfold Toy.diff_paths.
  induction (elements (dom t ∪ dom t)) as [|p ps IH]; [reflexivity|].
  cbn [map concat]. rewrite IH. unfold Toy.diff_entry.
  rewrite bool_decide_eq_true_2 by reflexivity. reflexivity.
Qed.

Lemma two_commits_no_branch : heads (Toy.git_two (Attached "main")) !! "nope" = None.
Proof. vm_compute. reflexivity. Qed.




Lemma plain_dir_files : fs Toy.plain_dir !! repo_path Toy.mgr = Some ToyMore.plain_files.
Proof. vm_compute. reflexivity. Qed.

Lemma nowhere_missing : fs Toy.nowhere !! repo_path Toy.mgr = None.
Proof. vm_compute. reflexivity. Qed.

Lemma edited_repo :
  repo_at ToyMore.edited (resolve_path "/srv/app")
  = Some (ToyMore.edited_dir, Toy.git_two (Attached "main")).
Proof. vm_compute. reflexivity. Qed.


Lemma switch_branch_unknown_witness :
  Manager.switch_branch "nope" (Toy.mgr, Toy.two_commits)
  = (Raise (ValueError "Branch 'nope' not found"), (opened Toy.mgr, Toy.two_commits)).
Proof.
  exact (switch_branch_unknown Toy.mgr Toy.two_commits _ _ "nope"
           (session_ok_init _) two_commits_repo two_commits_no_branch).
Defined.





Lemma status_is_coherent_witness :
  exists st,
    fst (Manager.get_status (Toy.mgr, ToyMore.edited)) = Ok st
    /\ (Models.has_changes st = true <->
          Models.staged_files st <> [] \/ Models.modified_files st <> []
          \/ Models.untracked_files st <> [])
    /\ Models.is_initialized st = true.
Proof.
  destruct (Manager.get_status (Toy.mgr, ToyMore.edited)) as [r s] eqn:E.
  assert (Hr : r = Ok (Models.mkRepoStatus true (Some "main") true [] ["main.py"] [])).
  { change r with (fst (r, s)). rewrite <- E. vm_compute. reflexivity. }
  subst r. eexists. split; [reflexivity|].
  destruct (status_is_coherent Toy.mgr ToyMore.edited _ s (session_ok_init _) E)
    as (Hch & _). split; [exact Hch|reflexivity].
Defined.

Lemma compare_commits_counts_bounded_witness :
  exists cd,
    fst (Manager.compare_commits "1111111111" "main" (Toy.mgr, Toy.two_commits)) = Ok cd
    /\ Forall (fun f => 0 <= Models.additions f /\ 0 <= Models.deletions f
                        /\ Models.additions f + Models.deletions f
                           <= line_count (Models.patch f)) (Models.files cd).
Proof.
  destruct (compare_commits_run Toy.mgr Toy.two_commits _ _ "1111111111" "main"
              Toy.c1 Toy.c2 (session_ok_init _) two_commits_repo two_commits_first
              two_commits_main) as [Hex _].
  destruct (Hex two_commits_paths) as [cd Hrun].
  exists cd. split; [now rewrite Hrun|].
  exact (proj1 (compare_commits_counts_bounded Toy.mgr Toy.two_commits _ _
                  "1111111111" "main" Toy.c1 Toy.c2 cd _ (session_ok_init _)
                  two_commits_repo two_commits_first two_commits_main Hrun)).
Defined.

Lemma commit_all_settles_witness :
  fst (Manager.get_status (snd (Manager.commit_all "third" (Toy.mgr, ToyMore.edited))))
  = Ok (clean_status (Toy.git_two (Attached "main")))
  /\ fst (Manager.commit_all "again"
            (snd (Manager.commit_all "third" (Toy.mgr, ToyMore.edited))))
     = Ok "No changes to commit".
Proof.
  destruct (commit_all_settles toy_diff_same Toy.mgr ToyMore.edited _ _ Toy.c2 "third"
              (session_ok_init _) edited_repo two_commits_HEAD) as (_ & Hst & Hagain).
  split; [exact Hst|exact (proj1 (Hagain "again"))].
Defined.


Lemma initialize_keeps_files_witness :
  exists d',
    fs (snd (snd (Manager.initialize true (Toy.mgr, Toy.plain_dir)))) !! repo_path Toy.mgr
    = Some d'
    /\ worktree d' !! "main.py" = Some "print(1)".
Proof.
  destruct (initialize_keeps_files Toy.mgr Toy.plain_dir _ true plain_dir_files)
    as (d' & Hfs & _ & Hkeep).
  exists d'. split; [exact Hfs|]. apply Hkeep. vm_compute. reflexivity.
Defined.

Lemma initialize_creates_directory_witness :
  exists c d' g',
    repo_at (snd (snd (Manager.initialize true (Toy.mgr, Toy.nowhere)))) (repo_path Toy.mgr)
    = Some (d', g')
    /\ worktree d' = {[ "README.md" := Manager.readme_text ]}
    /\ rev_commit g' "HEAD" = Some c
    /\ tree c = worktree d'.
Proof.
  destruct (initialize_creates_directory Toy.mgr Toy.nowhere nowhere_missing)
    as (_ & c & d' & g' & _ & Hr & Hw & Hh & Ht).
  exists c, d', g'. auto.
Defined.

Lemma list_branches_marks_current_witness :
  exists infos i,
    fst (Manager.list_branches (Toy.mgr, Toy.two_commits)) = Ok infos
    /\ List.filter Models.is_current infos = [i]
    /\ Models.name i = "main".
Proof.
  destruct (Manager.list_branches (Toy.mgr, Toy.two_commits)) as [r s] eqn:E.
  assert (Hr : exists infos, r = Ok infos).
  { change r with (fst (r, s)). rewrite <- E. vm_compute. eauto. }
  destruct Hr as [infos ->].
  destruct (list_branches_marks_current Toy.mgr Toy.two_commits _ _ infos s
              (session_ok_init _) two_commits_repo E) as (_ & _ & Hone & _).
  destruct (Hone "main" eq_refl) as (i & Hi & Hn); [vm_compute; eauto|].
  exists infos, i. auto.
Defined.


Lemma create_then_switch_witness :
  exists d2 g2,
    fst (Manager.switch_branch "feature"
           (snd (Manager.create_branch "feature" None (Toy.mgr, Toy.two_commits))))
    = Ok "feature"
    /\ repo_at (snd (snd (Manager.switch_branch "feature"
                            (snd (Manager.create_branch "feature" None
                                    (Toy.mgr, Toy.two_commits))))))
         (repo_path Toy.mgr) = Some (d2, g2)
    /\ HEAD g2 = Attached "feature"
    /\ worktree d2 = tree Toy.c2.
Proof.
  destruct (Manager.create_branch "feature" None (Toy.mgr, Toy.two_commits))
    as [r s1] eqn:E.
  assert (Hr : r = Ok "feature").
  { change r with (fst (r, s1)). rewrite <- E. vm_compute. reflexivity. }
  subst r. cbn [snd].
  destruct (create_then_switch Toy.mgr Toy.two_commits _ _ "feature" "feature" Toy.c2 s1
              (session_ok_init _) two_commits_repo two_commits_HEAD E)
    as (d2 & g2 & Hout & Hr2 & HH & _ & Hw & _).
  exists d2, g2. auto.
Defined.

Lemma compare_commits_same_tree_witness :
  fst (Manager.compare_commits "main" "HEAD" (Toy.mgr, Toy.two_commits))
  = Ok (Models.mkCommitDiff "main" "HEAD" [] 0 0
          "0 files changed, 0 insertions(+), 0 deletions(-)").
Proof.
  rewrite (compare_commits_same_tree toy_diff_same Toy.mgr Toy.two_commits _ _
             "main" "HEAD" Toy.c2 Toy.c2 (session_ok_init _) two_commits_repo
             two_commits_main two_commits_HEAD eq_refl).
  reflexivity.
Defined.



Lemma list_commits_limits_agree_witness :
  exists cl cl',
    fst (Manager.list_commits "HEAD" 1 (Toy.mgr, Toy.two_commits)) = Ok cl
    /\ fst (Manager.list_commits "HEAD" 5 (Toy.mgr, Toy.two_commits)) = Ok cl'
    /\ Models.commits cl = take 1 (Models.commits cl')
    /\ Models.total_count cl = Z.min 1 (Models.total_count cl').
Proof.
  destruct (list_commits_limits_agree Toy.mgr Toy.two_commits _ _ "HEAD" 1 5 Toy.c2
              (session_ok_init _) two_commits_repo two_commits_HEAD)
    as (cl & cl' & H1 & H5 & Htake & Hcount & _); [lia|lia|].
  exists cl, cl'. auto.
Defined.

Lemma switch_to_current_branch_witness :
  fst (Manager.switch_branch "main" (Toy.mgr, Toy.two_commits)) = Ok "main"
  /\ repo_at (snd (snd (Manager.switch_branch "main" (Toy.mgr, Toy.two_commits))))
       (repo_path Toy.mgr)
     = Some (Toy.two_commits_dir, Toy.git_two (Attached "main")).
Proof.
  exact (switch_to_current_branch Toy.mgr Toy.two_commits _ _ "main" Toy.c2
           (session_ok_init _) two_commits_repo eq_refl two_commits_HEAD).
Defined.
